(** * Real-time presence and message fan-out: the server dispatcher
    (backend/socket/socketHandler.js) and the client reconciliation
    engine (the chat context provider), embedded as pure functions.

  Conventions of the embedding.
  - A JS string is a [string]; each character stands for one code unit
    (the code units below 256).  A missing or [undefined] event field is
    [None].
  - A date is the integer its [getTime()] returns (milliseconds); the
    model covers valid dates only.
  - Every handler runs to completion on the state it is given: the
    interleaving of other channels between two [await]s is not modelled. *)

From Stdlib Require Import ZArith Ascii String List Bool Lia Sorted.
From stdpp Require Import gmap strings list.

Local Open Scope string_scope.
Local Open Scope Z_scope.
Local Open Scope list_scope.

(** ** JavaScript values *)

(** Truthiness of a string: every string but the empty one. *)
Definition truthy (s : string) : bool := negb (String.eqb s "").

(** [!x] for an optional string field: [undefined] and [""] are falsy. *)
Definition falsy (o : option string) : bool :=
  match o with
  | None => true
  | Some s => negb (truthy s)
  end.

(** The field, when it passed a [!x] check. *)
Definition field (o : option string) : string := default "" o.

(** [x || d] for an optional string field. *)
Definition or_default (o : option string) (d : string) : string :=
  if falsy o then d else field o.

(** ** Messages (MessageType of src/types/index.ts, and the object built
     by the server handlers) *)

Module Message.
Record t : Type := mk {
  id : string;
  content : string;
  chatId : string;
  userId : string;
  read : bool;
  deleted : bool;
  edited : bool;
  fileId : option string;
  fileName : option string;
  createdAt : Z;
  updatedAt : Z
}.

#[global] Instance eq_dec : EqDecision t.
Proof. solve_decision. Defined.
End Message.

(** ** The storage collaborator *)

Module Storage.

(** Modelled from the spec: the rows of the storage collaborator
    (chatModel, messageModel and fileModel are not part of the sources).
    A conversation has a participant list and a last-activity time; a
    message is stored under its id and is never physically removed; an
    attachment is stored under the id the collaborator returns. *)
Record ChatRow : Type := mkChat {
  chat_id : string;
  participants : list string;
  lastMessageTime : Z
}.

Record FileRow : Type := mkFile {
  filename : string;
  content_type : string;
  size : Z;
  data : list Byte.byte;
  uploaded_by : string
}.

Record t : Type := mk {
  chats : gmap string ChatRow;
  messages : gmap string Message.t;
  files : gmap string FileRow
}.

(** The fields [updateMessage] is asked to write; [None] leaves the
    column alone. *)
Record Fields : Type := mkFields {
  set_content : option string;
  set_edited : option bool;
  set_deleted : option bool
}.

(** Modelled from the spec: [getConversationParticipants(conversationId)
    -> set of principal ids]; an unknown conversation has none. *)
Definition getChatParticipants (st : t) (c : string) : list string :=
  match chats st !! c with
  | Some row => participants row
  | None => []
  end.

(** Modelled from the spec: [isParticipant(conversationId, principalId)
    -> bool]. *)
Definition isParticipant (st : t) (c u : string) : bool :=
  bool_decide (u ∈ getChatParticipants st c).

(** Modelled from the spec: [getConversationsOf(principalId) -> list]. *)
Definition getUserChats (st : t) (u : string) : list ChatRow :=
  filter (fun row => u ∈ participants row) (map snd (map_to_list (chats st))).

(** Modelled from the spec: [touchConversation(conversationId,
    timestamp)]. *)
Definition updateLastMessageTime (st : t) (c : string) (now : Z) : t :=
  mk (alter (fun row => mkChat (chat_id row) (participants row) now) c (chats st))
     (messages st) (files st).

(** Modelled from the spec: [createMessage(message)]. *)
Definition createMessage (st : t) (m : Message.t) : t :=
  mk (chats st) (<[Message.id m := m]> (messages st)) (files st).

(** Modelled from the spec: [getMessageById(id) -> Message]; [None] is
    the [undefined] an unknown id yields. *)
Definition getMessageById (st : t) (i : string) : option Message.t :=
  messages st !! i.

(** Modelled from the spec: what [updateMessage] makes of a row, the
    given fields written and the others kept. *)
Definition apply_fields (f : Fields) (m : Message.t) : Message.t :=
  Message.mk (Message.id m)
    (default (Message.content m) (set_content f))
    (Message.chatId m) (Message.userId m) (Message.read m)
    (default (Message.deleted m) (set_deleted f))
    (default (Message.edited m) (set_edited f))
    (Message.fileId m) (Message.fileName m)
    (Message.createdAt m) (Message.updatedAt m).

(** Modelled from the spec: [updateMessage(id, fields)], a flag and
    field update in place. *)
Definition updateMessage (st : t) (i : string) (f : Fields) : t :=
  mk (chats st) (alter (apply_fields f) i (messages st)) (files st).

(** Modelled from the spec: [saveAttachment(bytes, metadata) ->
    attachmentId]; the id the collaborator picks is an input. *)
Definition saveFile (st : t) (fid : string) (row : FileRow) : t :=
  mk (chats st) (messages st) (<[fid := row]> (files st)).

End Storage.

(** ** Computations over a state that leave a trace and may throw *)

Inductive completion (A : Type) : Type :=
| Returned (a : A)
| Thrown.
Arguments Returned {A} a.
Arguments Thrown {A}.

Section Computation.

Context {St Out : Type}.

Definition Comp (A : Type) : Type :=
  St -> completion A * St * list Out.

Definition ret {A} (a : A) : Comp A :=
  fun w => (Returned a, w, []).

Definition bind {A B} (m : Comp A) (k : A -> Comp B) : Comp B :=
  fun w =>
    match m w with
    | (Returned a, w1, out1) =>
        match k a w1 with
        | (r, w2, out2) => (r, w2, out1 ++ out2)
        end
    | (Thrown, w1, out1) => (Thrown, w1, out1)
    end.

Definition throw {A} : Comp A :=
  fun w => (Thrown, w, []).

(** [try { m } catch (error) { h }] *)
Definition try_catch {A} (m : Comp A) (h : Comp A) : Comp A :=
  fun w =>
    match m w with
    | (Returned a, w1, out1) => (Returned a, w1, out1)
    | (Thrown, w1, out1) =>
        match h w1 with
        | (r, w2, out2) => (r, w2, out1 ++ out2)
        end
    end.

Definition get : Comp St :=
  fun w => (Returned w, w, []).

Definition modify (f : St -> St) : Comp unit :=
  fun w => (Returned tt, f w, []).

Definition tell (o : Out) : Comp unit :=
  fun w => (Returned tt, w, [o]).

(** The state and the trace a run leaves. *)
Definition state_after {A} (m : Comp A) (w : St) : St := snd (fst (m w)).
Definition emitted {A} (m : Comp A) (w : St) : list Out := snd (m w).
Definition outcome {A} (m : Comp A) (w : St) : completion A := fst (fst (m w)).

End Computation.

Arguments Comp : clear implicits.

Notation "'let*' x ':=' m 'in' k" := (bind m (fun x => k))
  (at level 10, x name, m at level 100, k at level 200).
Notation "m ';;' k" := (bind m (fun _ => k))
  (at level 100, k at level 200, right associativity).

(** [array.forEach(f)] and [for (const x of array)] *)
Fixpoint for_each {St Out A} (l : list A) (f : A -> Comp St Out unit) : Comp St Out unit :=
  match l with
  | [] => ret tt
  | x :: l' => f x ;; for_each l' f
  end.

(** ** The server: socketHandler.js *)

Module Server.

(** What travels with an emitted event. *)
Inductive Payload : Type :=
| PError (message : string)        (* [{ message }] of an [error] event *)
| PMessage (m : Message.t)         (* a message object *)
| PMessageId (messageId : string)  (* the bare id of [chat:message:delete] *)
| PUser (userId : string)          (* [{ userId }] of [user:online] / [user:offline] *)
| PData (d : string).              (* any other data handed to [notifyUser] / [notifyChat] *)

(** One delivery: [socket.emit(event, payload)] on the socket whose id is
    [target], or [io.to(target).emit(event, payload)]. *)
Record Emission : Type := mkEmission {
  target : string;
  event : string;
  payload : Payload
}.

#[global] Instance Payload_eq_dec : EqDecision Payload.
Proof. solve_decision. Defined.

#[global] Instance Emission_eq_dec : EqDecision Emission.
Proof. solve_decision. Defined.

(** The authenticated socket of a connection: [socket.id] and the
    [socket.user] the handshake middleware attached. *)
Record Socket : Type := mkSocket {
  socket_id : string;
  user_id : string
}.

(** What the process holds: the storage behind the models and the
    [connectedUsers] map, userId -> socketId. *)
Record World : Type := mkWorld {
  store : Storage.t;
  connectedUsers : gmap string string
}.

(** What a handler run draws from outside: the [uuidv4()] it gets, the
    values of its successive [new Date()], the clock of the storage and the
    id the storage gives a saved file. *)
Record Env : Type := mkEnv {
  uuidv4 : string;
  newDate : nat -> Z;
  dbNow : Z;
  newFileId : string
}.

(** A handler of the server runs over the world and emits events. *)
Definition Handler (A : Type) : Type := Comp World Emission A.

Definition get_store : Handler Storage.t :=
  let* w := get in ret (store w).

Definition put_store (st : Storage.t) : Handler unit :=
  modify (fun w => mkWorld st (connectedUsers w)).

Definition emit (e : Emission) : Handler unit := tell e.

(** [socket.emit(event, payload)]: to the originating channel. *)
Definition socket_emit (socket : Socket) (ev : string) (p : Payload) : Handler unit :=
  emit (mkEmission (socket_id socket) ev p).

(** [io.to(socketId).emit(event, payload)] *)
Definition io_to_emit (socketId : string) (ev : string) (p : Payload) : Handler unit :=
  emit (mkEmission socketId ev p).

(** The [connectedUsers] map. *)
Definition connectedUsers_set (u s : string) : Handler unit :=
  modify (fun w => mkWorld (store w) (<[u := s]> (connectedUsers w))).

Definition connectedUsers_delete (u : string) : Handler unit :=
  modify (fun w => mkWorld (store w) (delete u (connectedUsers w))).

Definition connectedUsers_get (u : string) : Handler (option string) :=
  let* w := get in ret (connectedUsers w !! u).

(** The calls on the models, run on the store of the world.  The storage
    answers every call: a call that fails, and with it the [catch] of a
    handler after an earlier write, is outside the model. *)
Definition chatModel_isParticipant (c u : string) : Handler bool :=
  let* st := get_store in ret (Storage.isParticipant st c u).

Definition chatModel_getChatParticipants (c : string) : Handler (list string) :=
  let* st := get_store in ret (Storage.getChatParticipants st c).

Definition chatModel_getUserChats (u : string) : Handler (list Storage.ChatRow) :=
  let* st := get_store in ret (Storage.getUserChats st u).

Definition chatModel_updateLastMessageTime (env : Env) (c : string) : Handler unit :=
  let* st := get_store in put_store (Storage.updateLastMessageTime st c (dbNow env)).

Definition messageModel_createMessage (m : Message.t) : Handler unit :=
  let* st := get_store in put_store (Storage.createMessage st m).

Definition messageModel_getMessageById (i : string) : Handler (option Message.t) :=
  let* st := get_store in ret (Storage.getMessageById st i).

Definition messageModel_updateMessage (i : string) (f : Storage.Fields) : Handler unit :=
  let* st := get_store in put_store (Storage.updateMessage st i f).

Definition fileModel_saveFile (env : Env) (row : Storage.FileRow) : Handler string :=
  let* st := get_store in
  put_store (Storage.saveFile st (newFileId env) row) ;;
  ret (newFileId env).

(** The loop every handler and [notifyChat] end with:
    [participants.forEach(participantId => { const s =
    connectedUsers.get(participantId); if (s) io.to(s).emit(event, data) })]. *)
Definition notify_each (participants : list string) (ev : string) (p : Payload) : Handler unit :=
  for_each participants (fun participantId =>
    let* participantSocket := connectedUsers_get participantId in
    match participantSocket with
    | Some s => if truthy s then io_to_emit s ev p else ret tt
    | None => ret tt
    end).

(** The socket the loop delivers to for one participant, if any: the id
    the map holds for it, when that id is truthy. *)
Definition recipient (w : World) (participantId : string) : option string :=
  match connectedUsers w !! participantId with
  | Some s => if truthy s then Some s else None
  | None => None
  end.

(** The ids of the sockets in the presence map are non-empty, as the ids
    socket.io hands out are: the loop then delivers to a participant
    exactly when the map holds an entry for it. *)
Definition socket_ids_truthy (w : World) : Prop :=
  forall u s, connectedUsers w !! u = Some s -> truthy s = true.

(** *** The payloads of the inbound events *)

Record SendMessageData : Type := mkSendMessageData {
  sm_chatId : option string;
  sm_content : option string
}.

Record EditMessageData : Type := mkEditMessageData {
  em_messageId : option string;
  em_content : option string
}.

Record DeleteMessageData : Type := mkDeleteMessageData {
  dm_messageId : option string
}.

Record SendFileData : Type := mkSendFileData {
  sf_chatId : option string;
  sf_filename : option string;
  sf_contentType : option string;
  sf_size : option Z;
  sf_data : option string
}.

(** *** [io.on('connection', ...)]: the body run when a socket connects *)

Definition connection (socket : Socket) : Handler unit :=
  let userId := user_id socket in
  connectedUsers_set userId (socket_id socket) ;;
  try_catch
    (let* userChats := chatModel_getUserChats userId in
     for_each userChats (fun chat =>
       let otherParticipants :=
         filter (fun p => p ≠ userId) (Storage.participants chat) in
       notify_each otherParticipants "user:online" (PUser userId)))
    (ret tt).

(** *** [socket.on('disconnect', ...)] *)

Definition disconnect (socket : Socket) : Handler unit :=
  let userId := user_id socket in
  connectedUsers_delete userId ;;
  try_catch
    (let* userChats := chatModel_getUserChats userId in
     for_each userChats (fun chat =>
       let otherParticipants :=
         filter (fun p => p ≠ userId) (Storage.participants chat) in
       notify_each otherParticipants "user:offline" (PUser userId)))
    (ret tt).

(** *** [socket.on('sendMessage', ...)] *)

Definition sendMessage (socket : Socket) (env : Env) (data : SendMessageData) : Handler unit :=
  let userId := user_id socket in
  try_catch
    (if falsy (sm_chatId data) || falsy (sm_content data) then
       socket_emit socket "error" (PError "Datos incompletos para enviar mensaje")
     else
       let chatId := field (sm_chatId data) in
       let content := field (sm_content data) in
       let* isParticipant := chatModel_isParticipant chatId userId in
       if negb isParticipant then
         socket_emit socket "error" (PError "No eres participante de este chat")
       else
         let messageId := uuidv4 env in
         let message :=
           Message.mk messageId content chatId userId false false false
                      None None (newDate env 0%nat) (newDate env 1%nat) in
         messageModel_createMessage message ;;
         chatModel_updateLastMessageTime env chatId ;;
         let* participants := chatModel_getChatParticipants chatId in
         notify_each participants "chat:message" (PMessage message))
    (socket_emit socket "error" (PError "Error al enviar mensaje")).

(** *** [socket.on('editMessage', ...)] *)

Definition editMessage (socket : Socket) (env : Env) (data : EditMessageData) : Handler unit :=
  let userId := user_id socket in
  try_catch
    (if falsy (em_messageId data) || falsy (em_content data) then
       socket_emit socket "error" (PError "Datos incompletos para editar mensaje")
     else
       let messageId := field (em_messageId data) in
       let content := field (em_content data) in
       let* found := messageModel_getMessageById messageId in
       match found with
       | None => throw  (* [originalMessage.userId] on [undefined] *)
       | Some originalMessage =>
           if bool_decide (Message.userId originalMessage ≠ userId) then
             socket_emit socket "error"
               (PError "No tienes permiso para editar este mensaje")
           else
             let updatedMessage :=
               Message.mk (Message.id originalMessage) content
                 (Message.chatId originalMessage) (Message.userId originalMessage)
                 (Message.read originalMessage) (Message.deleted originalMessage)
                 true
                 (Message.fileId originalMessage) (Message.fileName originalMessage)
                 (Message.createdAt originalMessage) (newDate env 0%nat) in
             messageModel_updateMessage messageId
               (Storage.mkFields (Some content) (Some true) None) ;;
             let* participants :=
               chatModel_getChatParticipants (Message.chatId originalMessage) in
             notify_each participants "chat:message:update" (PMessage updatedMessage)
       end)
    (socket_emit socket "error" (PError "Error al editar mensaje")).

(** *** [socket.on('deleteMessage', ...)] *)

Definition deleteMessage (socket : Socket) (data : DeleteMessageData) : Handler unit :=
  let userId := user_id socket in
  try_catch
    (if falsy (dm_messageId data) then
       socket_emit socket "error" (PError "ID de mensaje requerido")
     else
       let messageId := field (dm_messageId data) in
       let* found := messageModel_getMessageById messageId in
       match found with
       | None => throw  (* [originalMessage.userId] on [undefined] *)
       | Some originalMessage =>
           if bool_decide (Message.userId originalMessage ≠ userId) then
             socket_emit socket "error"
               (PError "No tienes permiso para eliminar este mensaje")
           else
             messageModel_updateMessage messageId
               (Storage.mkFields None None (Some true)) ;;
             let* participants :=
               chatModel_getChatParticipants (Message.chatId originalMessage) in
             notify_each participants "chat:message:delete" (PMessageId messageId)
       end)
    (socket_emit socket "error" (PError "Error al eliminar mensaje")).

(** *** [socket.on('sendFile', ...)] *)

(** [.] of a regular expression without the [s] flag matches every code
    unit but a line terminator: LF and CR in the modelled range. *)
Definition is_line_terminator (c : ascii) : bool :=
  let n := N_of_ascii c in ((n =? 10) || (n =? 13))%N.

(** The string matches [^.*$]. *)
Fixpoint all_dot (s : string) : bool :=
  match s with
  | EmptyString => true
  | String c s' => negb (is_line_terminator c) && all_dot s'
  end.

Fixpoint string_drop (n : nat) (s : string) : string :=
  match n, s with
  | O, _ => s
  | S n', EmptyString => EmptyString
  | S n', String _ s' => string_drop n' s'
  end.

(** [(.+);base64,(.+)$] matched from the start of [s], with the groups the
    greedy match captures: the first group takes the longest run it can. *)
Fixpoint match_groups (s : string) : option (string * string) :=
  match s with
  | EmptyString => None
  | String c s' =>
      if is_line_terminator c then None
      else
        match match_groups s' with
        | Some (g1, g2) => Some (String c g1, g2)
        | None =>
            if String.prefix ";base64," s' then
              let g2 := string_drop 8 s' in
              if truthy g2 && all_dot g2 then Some (String c EmptyString, g2)
              else None
            else None
        end
  end.

(** [fileData.match(/^data:(.+);base64,(.+)$/)]: [None] is the [null] of
    a failed match, [Some (g1, g2)] the array [[whole, g1, g2]] of length
    3 of a successful one. *)
Definition match_data_uri (fileData : string) : option (string * string) :=
  if String.prefix "data:" fileData then match_groups (string_drop 5 fileData)
  else None.

(** [size || buffer.length]: [undefined] and [0] are falsy. *)
Definition or_length (o : option Z) (len : Z) : Z :=
  match o with
  | Some n => if n =? 0 then len else n
  | None => len
  end.

(** The text ['Formato de archivo inv\u00E1lido']. *)
Definition formato_invalido : string :=
  ("Formato de archivo inv" ++ String (ascii_of_N 225) "lido")%string.

Section SendFile.

(** [Buffer.from(base64Data, 'base64')] of the Node runtime. *)
Variable Buffer_from_base64 : string -> list Byte.byte.

Definition sendFile (socket : Socket) (env : Env) (data : SendFileData) : Handler unit :=
  let userId := user_id socket in
  try_catch
    (if falsy (sf_chatId data) || falsy (sf_filename data) || falsy (sf_data data) then
       socket_emit socket "error" (PError "Datos incompletos para enviar archivo")
     else
       let chatId := field (sf_chatId data) in
       let filename := field (sf_filename data) in
       let fileData := field (sf_data data) in
       let* isParticipant := chatModel_isParticipant chatId userId in
       if negb isParticipant then
         socket_emit socket "error" (PError "No eres participante de este chat")
       else
         match match_data_uri fileData with
         | None => socket_emit socket "error" (PError formato_invalido)
         | Some (_, base64Data) =>
             let buffer := Buffer_from_base64 base64Data in
             let* fileId :=
               fileModel_saveFile env
                 (Storage.mkFile filename
                    (or_default (sf_contentType data) "application/octet-stream")
                    (or_length (sf_size data) (Z.of_nat (length buffer)))
                    buffer userId) in
             let messageId := uuidv4 env in
             let message :=
               Message.mk messageId ("Archivo: " ++ filename)%string chatId userId
                          false false false (Some fileId) (Some filename)
                          (newDate env 0%nat) (newDate env 1%nat) in
             messageModel_createMessage message ;;
             chatModel_updateLastMessageTime env chatId ;;
             let* participants := chatModel_getChatParticipants chatId in
             notify_each participants "chat:message" (PMessage message)
         end)
    (socket_emit socket "error" (PError "Error al enviar archivo")).

End SendFile.

(** *** The service object the module returns *)

Definition notifyUser (userId : string) (ev : string) (d : Payload) : Handler unit :=
  let* socketId := connectedUsers_get userId in
  match socketId with
  | Some s => if truthy s then io_to_emit s ev d else ret tt
  | None => ret tt
  end.

Definition notifyChat (chatId : string) (ev : string) (d : Payload) : Handler unit :=
  try_catch
    (let* participants := chatModel_getChatParticipants chatId in
     notify_each participants ev d)
    (ret tt).

(** [connectedUsers.has(userId)] *)
Definition isUserConnected (w : World) (userId : string) : bool :=
  bool_decide (is_Some (connectedUsers w !! userId)).

(** [Array.from(connectedUsers.keys())], in no particular order. *)
Definition getConnectedUsers (w : World) : list string :=
  map fst (map_to_list (connectedUsers w)).

(** *** Channels opening and closing over time *)

Inductive ChannelEvent : Type :=
| Opens (socket : Socket)
| Closes (socket : Socket).

Definition channel_step (ev : ChannelEvent) : Handler unit :=
  match ev with
  | Opens socket => connection socket
  | Closes socket => disconnect socket
  end.

Definition run_channels (evs : list ChannelEvent) : Handler unit :=
  for_each evs channel_step.

(** The presence entry as the spec words it, kept apart from the code's
    map: the handles of the channels of principal [u] that have opened and
    not closed. *)
Definition open_channels (evs : list ChannelEvent) (u : string) : list string :=
  fold_left
    (fun acc ev =>
       match ev with
       | Opens socket =>
           if bool_decide (user_id socket = u) then acc ++ [socket_id socket] else acc
       | Closes socket =>
           if bool_decide (user_id socket = u)
           then filter (fun h => h ≠ socket_id socket) acc
           else acc
       end)
    evs [].

(** The runs in which no principal ever holds two channels at once: a
    channel opens for a principal that has none open, and the channel that
    closes is the open one of its principal. *)
Inductive one_channel_each : list ChannelEvent -> Prop :=
| oce_start : one_channel_each []
| oce_opens (evs : list ChannelEvent) (socket : Socket) :
    one_channel_each evs ->
    open_channels evs (user_id socket) = [] ->
    one_channel_each (evs ++ [Opens socket])
| oce_closes (evs : list ChannelEvent) (socket : Socket) :
    one_channel_each evs ->
    open_channels evs (user_id socket) = [socket_id socket] ->
    one_channel_each (evs ++ [Closes socket]).

End Server.

(** ** The client: the chat context provider *)

Module User.
Record t : Type := mk {
  id : string;
  name : string
}.
End User.

Module Chat.
(** ChatType of src/types/index.ts; an absent or [null] [lastMessage] is
    [None]. *)
Record t : Type := mk {
  id : string;
  name : option string;
  isGroup : bool;
  participants : list string;
  lastMessage : option Message.t;
  createdAt : Z;
  updatedAt : Z
}.

(** [{ ...chat, lastMessage: m }] *)
Definition with_lastMessage (chat : t) (m : option Message.t) : t :=
  mk (id chat) (name chat) (isGroup chat) (participants chat) m
     (createdAt chat) (updatedAt chat).
End Chat.

Module Client.

(** The [useState] cells of the provider. *)
Record State : Type := mkState {
  chats : list Chat.t;
  activeChat : option Chat.t;
  activeChatMessages : list Message.t;
  loading : bool;
  error : option string;
  unreadMessagesCount : Z;
  isConnected : bool
}.

(** What a function of the provider reads through its closure: the
    [currentUser] and the cells as they stood at the render that created
    the function.  Updaters of the form [setX(prev => ...)] read the
    current cell instead. *)
Record Render : Type := mkRender {
  currentUser : option User.t;
  seen : State
}.

(** [socketRef.current]: [None] for [null], else the [connected] flag of
    the socket. *)
Record Machine : Type := mkMachine {
  state : State;
  socketRef : option bool
}.

(** The requests of services/api.ts the provider issues. *)
Inductive RestCall : Type :=
| GetMessages (chatId : string)
| PostMessage (chatId content : string) (fileId : option string)
| PutMessage (messageId content : string)
| DeleteMessageCall (messageId : string)
| MarkAsRead (chatId : string).

(** What leaves the provider. *)
Inductive Effect : Type :=
| EmitSendMessage (d : Server.SendMessageData)      (* [emit('sendMessage', d)] *)
| EmitEditMessage (d : Server.EditMessageData)      (* [emit('editMessage', d)] *)
| EmitDeleteMessage (d : Server.DeleteMessageData)  (* [emit('deleteMessage', d)] *)
| Rest (call : RestCall)                     (* a service call, awaited *)
| Toast (title description : string).

Definition Action (A : Type) : Type := Comp Machine Effect A.

Definition on_state (f : State -> State) : Action unit :=
  modify (fun m => mkMachine (f (state m)) (socketRef m)).

(** The setters, given an updater [prev => ...]. *)
Definition setChats (f : list Chat.t -> list Chat.t) : Action unit :=
  on_state (fun s =>
    mkState (f (chats s)) (activeChat s) (activeChatMessages s) (loading s)
            (error s) (unreadMessagesCount s) (isConnected s)).

Definition setActiveChatMessages (f : list Message.t -> list Message.t) : Action unit :=
  on_state (fun s =>
    mkState (chats s) (activeChat s) (f (activeChatMessages s)) (loading s)
            (error s) (unreadMessagesCount s) (isConnected s)).

Definition setUnreadMessagesCount (f : Z -> Z) : Action unit :=
  on_state (fun s =>
    mkState (chats s) (activeChat s) (activeChatMessages s) (loading s)
            (error s) (f (unreadMessagesCount s)) (isConnected s)).

Definition setLoading (b : bool) : Action unit :=
  on_state (fun s =>
    mkState (chats s) (activeChat s) (activeChatMessages s) b
            (error s) (unreadMessagesCount s) (isConnected s)).

Definition setError (e : option string) : Action unit :=
  on_state (fun s =>
    mkState (chats s) (activeChat s) (activeChatMessages s) (loading s)
            e (unreadMessagesCount s) (isConnected s)).

Definition toast (title description : string) : Action unit :=
  tell (Toast title description).

(** [socketRef.current && socketRef.current.connected] *)
Definition socket_connected : Action bool :=
  let* m := get in ret (default false (socketRef m)).

(** *** [String.prototype.trim] *)

(** White space and line terminators in the modelled range: TAB, LF, VT,
    FF, CR, SP and NBSP. *)
Definition is_white_space (c : ascii) : bool :=
  let n := N_of_ascii c in
  ((n =? 9) || (n =? 10) || (n =? 11) || (n =? 12) || (n =? 13) || (n =? 32)
   || (n =? 160))%N.

Fixpoint trim_start (s : string) : string :=
  match s with
  | EmptyString => EmptyString
  | String c s' => if is_white_space c then trim_start s' else s
  end.

Fixpoint trim_end (s : string) : string :=
  match s with
  | EmptyString => EmptyString
  | String c s' =>
      match trim_end s' with
      | EmptyString => if is_white_space c then EmptyString else String c EmptyString
      | t => String c t
      end
  end.

Definition trim (s : string) : string := trim_end (trim_start s).

(** *** [Array.prototype.sort] with a comparator: a stable sort *)

Fixpoint insert_sorted {A} (cmp : A -> A -> Z) (x : A) (l : list A) : list A :=
  match l with
  | [] => [x]
  | y :: l' => if cmp x y <=? 0 then x :: l else y :: insert_sorted cmp x l'
  end.

Definition sort {A} (cmp : A -> A -> Z) (l : list A) : list A :=
  foldr (insert_sorted cmp) [] l.

(** [new Date(m.createdAt).getTime()] *)
Definition time (m : Message.t) : Z := Message.createdAt m.

(** *** The functions of the provider

    A function that awaits a service call is cut at the [await]: the part
    that runs at once issues the call as a [Rest] effect, and what runs
    when the call settles is a function of its own ([_resolved],
    [_rejected]). *)

(** [recalculateUnreadCount] *)
Definition recalculateUnreadCount (r : Render) : Action unit :=
  match currentUser r with
  | None => ret tt
  | Some u =>
      let count :=
        fold_left
          (fun count chat =>
             match Chat.lastMessage chat with
             | Some lm =>
                 if negb (Message.read lm)
                    && bool_decide (Message.userId lm ≠ User.id u)
                 then count + 1 else count
             | None => count
             end)
          (chats (seen r)) 0 in
      setUnreadMessagesCount (fun _ => count)
  end.

(** [markChatAsRead], up to [await messageService.markAsRead(chatId)] *)
Definition markChatAsRead (r : Render) (chatId : string) : Action unit :=
  if negb (bool_decide (is_Some (currentUser r))) || negb (truthy chatId)
  then ret tt
  else tell (Rest (MarkAsRead chatId)).

Definition mark_read (m : Message.t) : Message.t :=
  Message.mk (Message.id m) (Message.content m) (Message.chatId m)
    (Message.userId m) true (Message.deleted m) (Message.edited m)
    (Message.fileId m) (Message.fileName m)
    (Message.createdAt m) (Message.updatedAt m).

Definition markChatAsRead_resolved (r : Render) (chatId : string) : Action unit :=
  setChats (map (fun chat =>
    match Chat.lastMessage chat with
    | Some lm =>
        if bool_decide (Chat.id chat = chatId)
        then Chat.with_lastMessage chat (Some (mark_read lm))
        else chat
    | None => chat
    end)) ;;
  recalculateUnreadCount r.

(** [loadMessages], up to [await messageService.getMessages(chatId)] *)
Definition loadMessages (r : Render) (chatId : string) : Action unit :=
  setLoading true ;;
  tell (Rest (GetMessages chatId)).

(** ... from the messages it returns up to [await markChatAsRead(chatId)],
    or to the end when there is no user ... *)
Definition loadMessages_resolved (r : Render) (chatId : string)
    (messages : list Message.t) : Action unit :=
  setActiveChatMessages (fun _ => messages) ;;
  match currentUser r with
  | Some _ => markChatAsRead r chatId
  | None => setLoading false
  end.

(** ... and after that [await]. *)
Definition loadMessages_marked : Action unit :=
  setLoading false.

Definition loadMessages_rejected (r : Render) (chatId : string) : Action unit :=
  setError (Some "No se pudieron cargar los mensajes") ;;
  setLoading false.

(** The callback [updateChatWithLastMessage] maps over the chats: the
    chat takes [message] as its last message when it is the chat of the
    message and has no last message or an older one. *)
Definition take_if_newer (message : Message.t) (chat : Chat.t) : Chat.t :=
  if bool_decide (Chat.id chat = Message.chatId message) then
    match Chat.lastMessage chat with
    | None => Chat.with_lastMessage chat (Some message)
    | Some lm =>
        if time message >? time lm
        then Chat.with_lastMessage chat (Some message)
        else chat
    end
  else chat.

(** [updateChatWithLastMessage] *)
Definition updateChatWithLastMessage (message : Message.t) : Action unit :=
  setChats (map (take_if_newer message)).

(** [activeChat && message.chatId === activeChat.id] *)
Definition in_active_chat (r : Render) (message : Message.t) : bool :=
  match activeChat (seen r) with
  | Some c => bool_decide (Message.chatId message = Chat.id c)
  | None => false
  end.

(** [currentUser && message.userId !== currentUser.id] *)
Definition from_someone_else (r : Render) (message : Message.t) : bool :=
  match currentUser r with
  | Some u => bool_decide (Message.userId message ≠ User.id u)
  | None => false
  end.

(** [handleNewMessage], the listener of [chat:message] *)
Definition handleNewMessage (r : Render) (message : Message.t) : Action unit :=
  (if in_active_chat r message then
     setActiveChatMessages (fun prev => prev ++ [message]) ;;
     if from_someone_else r message
     then markChatAsRead r (Message.chatId message)
     else ret tt
   else if from_someone_else r message then
     setUnreadMessagesCount (fun prev => prev + 1) ;;
     toast "Nuevo mensaje"
       ("Tienes un nuevo mensaje en chat " ++ Message.chatId message)%string
   else ret tt) ;;
  updateChatWithLastMessage message.

(** [handleMessageUpdate], the listener of [chat:message:update] *)
Definition handleMessageUpdate (r : Render) (updatedMessage : Message.t) : Action unit :=
  (if in_active_chat r updatedMessage then
     setActiveChatMessages (map (fun msg =>
       if bool_decide (Message.id msg = Message.id updatedMessage)
       then updatedMessage else msg))
   else ret tt) ;;
  updateChatWithLastMessage updatedMessage.

(** The comparator [(a, b) => new Date(b.createdAt).getTime() - new
    Date(a.createdAt).getTime()]. *)
Definition newest_first (a b : Message.t) : Z := time b - time a.

(** The projection [handleMessageDelete] computes for [chat]:
    [activeChatMessages.filter(...).sort(...)[0] || null], on the list its
    closure holds. *)
Definition newLastMessage (r : Render) (messageId : string) (chat : Chat.t)
    : option Message.t :=
  head
    (sort newest_first
       (filter
          (fun msg => Message.id msg ≠ messageId ∧ Message.chatId msg = Chat.id chat)
          (activeChatMessages (seen r)))).

(** The callback [handleMessageDelete] maps over the chats. *)
Definition drop_lastMessage (r : Render) (messageId : string) (chat : Chat.t) : Chat.t :=
  match Chat.lastMessage chat with
  | Some lm =>
      if bool_decide (Message.id lm = messageId)
      then Chat.with_lastMessage chat (newLastMessage r messageId chat)
      else chat
  | None => chat
  end.

(** [handleMessageDelete], the listener of [chat:message:delete] *)
Definition handleMessageDelete (r : Render) (messageId : string) : Action unit :=
  setActiveChatMessages (filter (fun msg => Message.id msg ≠ messageId)) ;;
  setChats (map (drop_lastMessage r messageId)).

(** [sendMessage], up to the [emit] or to
    [await messageService.sendMessage(chatId, content)] *)
Definition sendMessage (r : Render) (chatId content : string) : Action unit :=
  if negb (bool_decide (is_Some (currentUser r)))
     || negb (truthy chatId) || negb (truthy (trim content))
  then ret tt
  else
    try_catch
      (let* connected := socket_connected in
       if connected then
         tell (EmitSendMessage (Server.mkSendMessageData (Some chatId) (Some content)))
       else
         tell (Rest (PostMessage chatId content None)))
      (toast "Error" "No se pudo enviar el mensaje").

Definition sendMessage_resolved (r : Render) (chatId : string) : Action unit :=
  loadMessages r chatId.

Definition sendMessage_rejected : Action unit :=
  toast "Error" "No se pudo enviar el mensaje".

(** [editMessage], up to the [emit] or to
    [await messageService.updateMessage(messageId, content)] *)
Definition editMessage (r : Render) (messageId content : string) : Action unit :=
  if negb (bool_decide (is_Some (currentUser r)))
     || negb (truthy messageId) || negb (truthy (trim content))
  then ret tt
  else
    try_catch
      (let* connected := socket_connected in
       if connected then
         tell (EmitEditMessage (Server.mkEditMessageData (Some messageId) (Some content)))
       else
         tell (Rest (PutMessage messageId content)))
      (toast "Error" "No se pudo editar el mensaje").

Definition editMessage_resolved (r : Render) : Action unit :=
  match activeChat (seen r) with
  | Some c => loadMessages r (Chat.id c)
  | None => ret tt
  end.

Definition editMessage_rejected : Action unit :=
  toast "Error" "No se pudo editar el mensaje".

(** [deleteMessage], up to the [emit] or to
    [await messageService.deleteMessage(messageId)] *)
Definition deleteMessage (r : Render) (messageId : string) : Action unit :=
  if negb (bool_decide (is_Some (currentUser r))) || negb (truthy messageId)
  then ret tt
  else
    try_catch
      (let* connected := socket_connected in
       if connected then
         tell (EmitDeleteMessage (Server.mkDeleteMessageData (Some messageId)))
       else
         tell (Rest (DeleteMessageCall messageId)))
      (toast "Error" "No se pudo eliminar el mensaje").

(** [handleNewChat], the listener of [chat:new] *)
Definition handleNewChat (chat : Chat.t) : Action unit :=
  setChats (fun prev => prev ++ [chat]) ;;
  toast "Nuevo chat"
    ("Se ha creado un nuevo chat: " ++ or_default (Chat.name chat) "Chat privado")%string.

(** The chat events the provider listens to on the socket. *)
Inductive SocketEvent : Type :=
| ChatMessage (message : Message.t)               (* [chat:message] *)
| ChatMessageUpdate (updatedMessage : Message.t)  (* [chat:message:update] *)
| ChatMessageDelete (messageId : string)          (* [chat:message:delete] *)
| ChatNew (chat : Chat.t).                        (* [chat:new] *)

(** The listeners the effect of the provider registers with [socket.on]:
    they call the functions of the render [r] in which the effect ran, and
    the effect runs again only when [currentUser] changes. *)
Definition listener (r : Render) (ev : SocketEvent) : Action unit :=
  match ev with
  | ChatMessage message => handleNewMessage r message
  | ChatMessageUpdate updatedMessage => handleMessageUpdate r updatedMessage
  | ChatMessageDelete messageId => handleMessageDelete r messageId
  | ChatNew chat => handleNewChat chat
  end.

(** The closure of the render that shows the state [s] to user [u]. *)
Definition render (u : option User.t) (s : State) : Render := mkRender u s.

End Client.

(** ** A small deployment, for the examples

    Conversation [c1] between alice and bob holds one message of alice;
    carol is a stranger to it.  Alice has two devices. *)

Module Sample.

Definition c1 : Storage.ChatRow := Storage.mkChat "c1" ["alice"; "bob"] 50.

Definition m1 : Message.t :=
  Message.mk "m1" "hello" "c1" "alice" false false false None None 100 100.

Definition st0 : Storage.t :=
  Storage.mk {[ "c1" := c1 ]} {[ "m1" := m1 ]} ∅.

Definition alice_phone : Server.Socket := Server.mkSocket "s1" "alice".
Definition alice_laptop : Server.Socket := Server.mkSocket "s2" "alice".
Definition bob_phone : Server.Socket := Server.mkSocket "s3" "bob".
Definition carol_phone : Server.Socket := Server.mkSocket "s4" "carol".

(** Nobody connected. *)
Definition w0 : Server.World := Server.mkWorld st0 ∅.

(** Alice (on her phone) and bob connected. *)
Definition w1 : Server.World :=
  Server.mkWorld st0 (<[ "bob" := "s3" ]> {[ "alice" := "s1" ]}).

Definition env0 : Server.Env := Server.mkEnv "m2" (fun _ => 200) 200 "f1".

(** Alice connects with her phone, then with her laptop, then the phone
    drops; bob is connected all along. *)
Definition two_devices : list Server.ChannelEvent :=
  [Server.Opens bob_phone; Server.Opens alice_phone; Server.Opens alice_laptop].

Definition phone_drops : Server.ChannelEvent := Server.Closes alice_phone.

Definition send_hi : Server.SendMessageData :=
  Server.mkSendMessageData (Some "c1") (Some "hi").

Definition edit_m1 : Server.EditMessageData :=
  Server.mkEditMessageData (Some "m1") (Some "bye").

Definition delete_m1 : Server.DeleteMessageData :=
  Server.mkDeleteMessageData (Some "m1").

(** An attachment whose data is no data URI. *)
Definition send_garbage : Server.SendFileData :=
  Server.mkSendFileData (Some "c1") (Some "a.txt") None None (Some "not a data uri").

(** A decoder to run the examples with; no example reaches it. *)
Definition no_bytes (_ : string) : list Byte.byte := [].

(** Alice's client: conversation [c1] is open and shows [m1]; the socket
    is connected. *)
Definition alice : User.t := User.mk "alice" "Alice".

Definition chat1 : Chat.t :=
  Chat.mk "c1" None false ["alice"; "bob"] (Some m1) 0 0.

Definition s0 : Client.State :=
  Client.mkState [chat1] (Some chat1) [m1] false None 0 true.

Definition online : Client.Machine := Client.mkMachine s0 (Some true).

Definition r0 : Client.Render := Client.render (Some alice) s0.

(** A message of bob in [c1], newer than [m1]. *)
Definition m2 : Message.t :=
  Message.mk "m2" "hi" "c1" "bob" false false false None None 200 200.

(** Messages of bob in two other conversations. *)
Definition m3 : Message.t :=
  Message.mk "m3" "hi" "c2" "bob" false false false None None 300 300.

Definition m4 : Message.t :=
  Message.mk "m4" "hi" "c3" "bob" false false false None None 300 300.

(** The closure of the render at which alice logged in: no chat loaded
    yet, none open. *)
Definition r_login : Client.Render :=
  Client.render (Some alice) (Client.mkState [] None [] false None 0 false).

End Sample.

(** ** The client, continued: the chat list of the provider *)

Module Chats.
Import Client.

(** The requests to the chat service of services/api.ts. *)
Inductive ChatCall : Type :=
| GetChats
| CreatePrivateChat (userId : string)
| CreateGroupChat (name : string) (participants : list string)
| LeaveChat (chatId : string).

(** What leaves the provider, the chat service included. *)
Inductive Effect : Type :=
| Provider (e : Client.Effect)
| ChatService (call : ChatCall).

Definition Action (A : Type) : Type := Comp Machine Effect A.

(** A function of the provider that makes no call to the chat service. *)
Definition lift {A} (a : Client.Action A) : Action A :=
  fun m =>
    match a m with
    | (r, m', out) => (r, m', map Provider out)
    end.

(** [setActiveChatState(chat)] *)
Definition setActiveChatState (c : option Chat.t) : Client.Action unit :=
  on_state (fun s =>
    mkState (chats s) c (activeChatMessages s) (loading s)
            (error s) (unreadMessagesCount s) (isConnected s)).

(** The count [loadChats] makes with [userChats.forEach]: the chats whose
    last message is unread and of somebody else. *)
Definition count_unread (u : User.t) (l : list Chat.t) : Z :=
  fold_left
    (fun unreadCount chat =>
       match Chat.lastMessage chat with
       | Some lm =>
           if negb (Message.read lm)
              && bool_decide (Message.userId lm ≠ User.id u)
           then unreadCount + 1 else unreadCount
       | None => unreadCount
       end)
    l 0.

(** The test both counts make on a chat: [chat.lastMessage &&
    !chat.lastMessage.read && chat.lastMessage.userId !== currentUser.id]. *)
Definition has_unread (u : User.t) (chat : Chat.t) : bool :=
  match Chat.lastMessage chat with
  | Some lm => negb (Message.read lm) && bool_decide (Message.userId lm ≠ User.id u)
  | None => false
  end.

(** [loadChats], up to [await chatService.getChats()] *)
Definition loadChats (r : Render) : Action unit :=
  match currentUser r with
  | None => ret tt
  | Some _ =>
      lift (setLoading true) ;;
      tell (ChatService GetChats)
  end.

(** ... and from the chats it returns, for the user [u] the guard saw. *)
Definition loadChats_resolved (u : User.t) (userChats : list Chat.t) : Action unit :=
  let unreadCount := count_unread u userChats in
  lift (setChats (fun _ => userChats)) ;;
  lift (setUnreadMessagesCount (fun _ => unreadCount)) ;;
  lift (setLoading false).

Definition loadChats_rejected : Action unit :=
  lift (setError (Some "No se pudieron cargar los chats")) ;;
  lift (setLoading false).

(** [setActiveChat], up to the [await] inside [loadMessages] *)
Definition setActiveChat (r : Render) (chatId : string) : Action unit :=
  match find (fun c => bool_decide (Chat.id c = chatId)) (chats (seen r)) with
  | Some chat =>
      lift (setActiveChatState (Some chat)) ;;
      lift (loadMessages r chatId)
  | None => ret tt
  end.

(** [findExistingPrivateChat] *)
Definition findExistingPrivateChat (r : Render) (userId : string) : option Chat.t :=
  match currentUser r with
  | None => None
  | Some u =>
      find (fun chat =>
              negb (Chat.isGroup chat)
              && bool_decide (userId ∈ Chat.participants chat)
              && bool_decide (User.id u ∈ Chat.participants chat))
           (chats (seen r))
  end.

(** [createPrivateChat], up to [await chatService.createPrivateChat(userId)]
    or to its [return] *)
Definition createPrivateChat (r : Render) (userId : string) : Action (option Chat.t) :=
  match currentUser r with
  | None => ret None
  | Some _ =>
      match findExistingPrivateChat r userId with
      | Some existingChat =>
          setActiveChat r (Chat.id existingChat) ;;
          ret (Some existingChat)
      | None =>
          lift (setLoading true) ;;
          tell (ChatService (CreatePrivateChat userId)) ;;
          ret None
      end
  end.

(** ... and from the chat the service returns. *)
Definition createPrivateChat_resolved (r : Render) (newChat : Chat.t)
    : Action (option Chat.t) :=
  lift (setChats (fun prev => prev ++ [newChat])) ;;
  setActiveChat r (Chat.id newChat) ;;
  lift (setLoading false) ;;
  ret (Some newChat).

Definition createPrivateChat_rejected : Action (option Chat.t) :=
  lift (setError (Some "No se pudo crear el chat privado")) ;;
  lift (setLoading false) ;;
  ret None.

(** [createGroupChat], up to
    [await chatService.createGroupChat(name, participants)] *)
Definition createGroupChat (r : Render) (name : string) (participants : list string)
    : Action (option Chat.t) :=
  match currentUser r with
  | None => ret None
  | Some _ =>
      lift (setLoading true) ;;
      tell (ChatService (CreateGroupChat name participants)) ;;
      ret None
  end.

Definition createGroupChat_resolved (r : Render) (newChat : Chat.t)
    : Action (option Chat.t) :=
  lift (setChats (fun prev => prev ++ [newChat])) ;;
  setActiveChat r (Chat.id newChat) ;;
  lift (setLoading false) ;;
  ret (Some newChat).

(** [activeChat?.id === chatId] *)
Definition is_active_chat (r : Render) (chatId : string) : bool :=
  match activeChat (seen r) with
  | Some c => bool_decide (Chat.id c = chatId)
  | None => false
  end.

(** [leaveChat], up to [await chatService.leaveChat(chatId)] *)
Definition leaveChat (r : Render) (chatId : string) : Action unit :=
  match currentUser r with
  | None => ret tt
  | Some _ =>
      lift (setLoading true) ;;
      tell (ChatService (LeaveChat chatId))
  end.

(** ... and once the service has answered. *)
Definition leaveChat_resolved (r : Render) (chatId : string) : Action unit :=
  lift (setChats (filter (fun chat => Chat.id chat ≠ chatId))) ;;
  (if is_active_chat r chatId then
     lift (setActiveChatState None) ;;
     lift (setActiveChatMessages (fun _ => []))
   else ret tt) ;;
  lift (setLoading false).

Definition leaveChat_rejected : Action unit :=
  lift (setError (Some "No se pudo abandonar el chat")) ;;
  lift (setLoading false).

(** [getUserChats] and [resetUnreadCount] *)
Definition getUserChats (r : Render) : list Chat.t := chats (seen r).

Definition resetUnreadCount : Client.Action unit :=
  setUnreadMessagesCount (fun _ => 0).

End Chats.

(** ** The utilities of lib/utils.ts *)

Module Utils.

(** Every character of the string is white space. *)
Fixpoint all_white_space (s : string) : bool :=
  match s with
  | EmptyString => true
  | String c s' => Client.is_white_space c && all_white_space s'
  end.

(** [text.substring(0, n)] for an integer [n]: a negative [n] counts as
    0, one beyond the length as the length. *)
Fixpoint string_take (n : nat) (s : string) : string :=
  match n, s with
  | O, _ => EmptyString
  | S _, EmptyString => EmptyString
  | S n', String c s' => String c (string_take n' s')
  end.

(** [truncateText(text, maxLength)], for an integer [maxLength]. *)
Definition truncateText (text : string) (maxLength : Z) : string :=
  if negb (truthy text) then EmptyString
  else if Z.of_nat (String.length text) <=? maxLength then text
  else (string_take (Z.to_nat maxLength) text ++ "...")%string.

(** The class [[^\s@]]: [\s] is the white space of [trim]. *)
Definition email_char (c : ascii) : bool :=
  negb (Client.is_white_space c) && negb (Ascii.eqb c "@").

Fixpoint all_email_chars (s : string) : bool :=
  match s with
  | EmptyString => true
  | String c s' => email_char c && all_email_chars s'
  end.

(** [[^\s@]+\.[^\s@]+$] matched from the start of [s]. *)
Fixpoint match_domain (s : string) : bool :=
  match s with
  | EmptyString => false
  | String c s' =>
      email_char c
      && (match_domain s'
          || match s' with
             | String d rest =>
                 Ascii.eqb d "." && truthy rest && all_email_chars rest
             | EmptyString => false
             end)
  end.

(** [[^\s@]+@[^\s@]+\.[^\s@]+$] matched from the start of [s]. *)
Fixpoint match_email (s : string) : bool :=
  match s with
  | EmptyString => false
  | String c s' =>
      email_char c
      && (match_email s'
          || match s' with
             | String d rest => Ascii.eqb d "@" && match_domain rest
             | EmptyString => false
             end)
  end.

(** [isValidEmail(email)]: [/^[^\s@]+@[^\s@]+\.[^\s@]+$/.test(email)] *)
Definition isValidEmail (email : string) : bool := match_email email.

(** [text.replace(/\n/g, '<br>')] *)
Fixpoint replace_line_feeds (text : string) : string :=
  match text with
  | EmptyString => EmptyString
  | String c s' =>
      if Ascii.eqb c (ascii_of_N 10)
      then ("<br>" ++ replace_line_feeds s')%string
      else String c (replace_line_feeds s')
  end.

(** [formatWithLineBreaks(text)] *)
Definition formatWithLineBreaks (text : string) : string :=
  if negb (truthy text) then EmptyString else replace_line_feeds text.

(** The number of line feeds of a string, and whether it holds a given
    character. *)
Fixpoint line_feeds (s : string) : nat :=
  match s with
  | EmptyString => O
  | String c s' =>
      ((if Ascii.eqb c (ascii_of_N 10) then 1 else 0) + line_feeds s')%nat
  end.

Fixpoint has_char (x : ascii) (s : string) : bool :=
  match s with
  | EmptyString => false
  | String c s' => Ascii.eqb c x || has_char x s'
  end.

End Utils.

(** ** What a run of a server handler may look like *)

Module Runs.
Import Server.

(** The run [h w] rejected the event: one [error] on the originating
    socket, the world as before. *)
Definition rejected (socket : Socket) (h : Handler unit) (w : World) : Prop :=
  exists msg,
    h w = (Returned tt, w, [mkEmission (socket_id socket) "error" (PError msg)]).

(** The run [h w] went through: it returned, left the presence map alone,
    and delivered nothing but [ev] events, each to a socket of the
    presence map. *)
Definition fanned_out (ev : string) (h : Handler unit) (w : World) : Prop :=
  outcome h w = Returned tt
  /\ connectedUsers (state_after h w) = connectedUsers w
  /\ forall e, e ∈ emitted h w ->
       event e = ev /\ exists u, connectedUsers w !! u = Some (target e).

End Runs.

(** ** More of the small deployment *)

Module Scenario.

(** A well-formed data URI. *)
Definition png : string := "data:image/png;base64,AAAA".

Definition send_png : Server.SendFileData :=
  Server.mkSendFileData (Some "c1") (Some "a.png") None None (Some png).

(** A payload of the shape the pattern asks for whose data part is no
    base64 text, and the attachment alice sends with it. *)
Definition not_base64 : string := "data:a;base64,b;base64,".

Definition send_not_base64 : Server.SendFileData :=
  Server.mkSendFileData (Some "c1") (Some "a.txt") None None (Some not_base64).

(** Three bytes for every payload. *)
Definition three_bytes (_ : string) : list Byte.byte :=
  [Byte.x00; Byte.x01; Byte.x02].

(** An edit of a message nobody stored. *)
Definition edit_unknown : Server.EditMessageData :=
  Server.mkEditMessageData (Some "nope") (Some "bye").

Definition delete_unknown : Server.DeleteMessageData :=
  Server.mkDeleteMessageData (Some "nope").

(** Alice's client with the socket down. *)
Definition offline : Client.Machine := Client.mkMachine Sample.s0 (Some false).

(** [m1] after an edit: same id and creation time. *)
Definition m1_edited : Message.t :=
  Message.mk "m1" "hello!" "c1" "alice" false false true None None 100 150.

(** A private chat with carol the service has just created. *)
Definition chat2 : Chat.t :=
  Chat.mk "c2" None false ["alice"; "carol"] None 0 0.

(** A last message of bob nobody has read. *)
Definition chat1_unread : Chat.t :=
  Chat.mk "c1" None false ["alice"; "bob"] (Some Sample.m2) 0 0.

End Scenario.

(** * Properties *)

(** ** Running a computation *)

Lemma bind_run {St Out A B} (m : Comp St Out A) (k : A -> Comp St Out B) w a w1 out1 :
  m w = (Returned a, w1, out1) ->
  bind m k w = (let '(r, w2, out2) := k a w1 in (r, w2, out1 ++ out2)).
Proof. intros H. unfold bind. rewrite H. reflexivity. Qed.

Lemma try_catch_returned {St Out A} (m h : Comp St Out A) w a w1 out1 :
  m w = (Returned a, w1, out1) -> try_catch m h w = (Returned a, w1, out1).
Proof. intros H. unfold try_catch. rewrite H. reflexivity. Qed.

Lemma falsy_false (o : option string) :
  falsy o = false -> exists s, o = Some s /\ truthy s = true.
Proof.
  destruct o as [s|]; simpl; [|discriminate].
  intros H. exists s. split; [reflexivity|].
  destruct (truthy s); [reflexivity|discriminate].
Qed.

(** ** The server *)

Module ServerFacts.
Import Server.

Lemma notify_one_run (ev : string) (p : Payload) (u : string) (w : World) :
  (let* participantSocket := connectedUsers_get u in
   match participantSocket with
   | Some s => if truthy s then io_to_emit s ev p else ret tt
   | None => ret tt
   end) w
  = (Returned tt, w,
     match recipient w u with
     | Some s => [mkEmission s ev p]
     | None => []
     end).
Proof.
  unfold bind, connectedUsers_get, bind, get, ret, recipient. cbn.
  destruct (connectedUsers w !! u) as [s|]; [|reflexivity].
  destruct (truthy s); reflexivity.
Qed.

Lemma notify_each_run (participants : list string) (ev : string) (p : Payload) (w : World) :
  notify_each participants ev p w
  = (Returned tt, w,
     map (fun s => mkEmission s ev p) (omap (recipient w) participants)).
Proof.
  unfold notify_each.
  induction participants as [|u l IH]; [reflexivity|].
  cbn [for_each].
  rewrite (bind_run _ _ _ _ _ _ (notify_one_run ev p u w)), IH.
  cbn [omap list_omap]. destruct (recipient w u); reflexivity.
Qed.

Lemma recipient_same_map (w w' : World) (u : string) :
  connectedUsers w' = connectedUsers w -> recipient w' u = recipient w u.
Proof. intros H. unfold recipient. rewrite H. reflexivity. Qed.

Lemma omap_recipient_same_map (w w' : World) (l : list string) :
  connectedUsers w' = connectedUsers w -> omap (recipient w') l = omap (recipient w) l.
Proof.
  intros H. induction l as [|u l IH]; [reflexivity|].
  cbn. rewrite (recipient_same_map w w' u H), IH. reflexivity.
Qed.

(** Creating a message and touching a conversation leave every
    participant list alone. *)
Lemma participants_after_send (st : Storage.t) (m : Message.t) (c c' : string) (now : Z) :
  Storage.getChatParticipants
    (Storage.updateLastMessageTime (Storage.createMessage st m) c now) c'
  = Storage.getChatParticipants st c'.
Proof.
  unfold Storage.getChatParticipants, Storage.updateLastMessageTime,
    Storage.createMessage. cbn.
  rewrite lookup_alter. case_decide as E.
  - subst c'. destruct (Storage.chats st !! c); reflexivity.
  - reflexivity.
Qed.

(** What a send that passes both checks does. *)
Lemma sendMessage_accepted (socket : Socket) (env : Env) (data : SendMessageData)
    (w : World) (c body : string) :
  sm_chatId data = Some c -> sm_content data = Some body ->
  truthy c = true -> truthy body = true ->
  Storage.isParticipant (store w) c (user_id socket) = true ->
  let message :=
    Message.mk (uuidv4 env) body c (user_id socket) false false false None None
               (newDate env 0%nat) (newDate env 1%nat) in
  sendMessage socket env data w
  = (Returned tt,
     mkWorld (Storage.updateLastMessageTime
                (Storage.createMessage (store w) message) c (dbNow env))
             (connectedUsers w),
     map (fun s => mkEmission s "chat:message" (PMessage message))
         (omap (recipient w) (Storage.getChatParticipants (store w) c))).
Proof.
  intros Ec Eb Tc Tb Hp message. unfold sendMessage.
  rewrite Ec, Eb. cbn [falsy field default]. rewrite Tc, Tb. cbn [negb orb].
  apply try_catch_returned.
  unfold chatModel_isParticipant, get_store.
  unfold bind at 1. unfold bind at 1. unfold bind at 1. cbn [get ret].
  cbn. rewrite Hp. cbn.
  rewrite notify_each_run.
  rewrite participants_after_send.
  f_equal.
Qed.

(** C2. A send whose sender is not a participant of the target
    conversation answers one [error] event on the originating socket and
    nothing else: the world (stored messages, conversation timestamps,
    presence map) is the one before and no [chat:message] goes out.  With
    both fields present the text is that of the participation check. *)
Theorem C2_send_by_non_participant_rejected
    (socket : Socket) (env : Env) (data : SendMessageData) (w : World) :
  (forall c, sm_chatId data = Some c ->
             Storage.isParticipant (store w) c (user_id socket) = false) ->
  exists msg,
    sendMessage socket env data w
      = (Returned tt, w, [mkEmission (socket_id socket) "error" (PError msg)])
    /\ (falsy (sm_chatId data) = false -> falsy (sm_content data) = false ->
        msg = "No eres participante de este chat").
Proof.
  intros Hnot. unfold sendMessage.
  destruct (falsy (sm_chatId data)) eqn:Hc; simpl.
  { eexists. split; [reflexivity|]. discriminate. }
  destruct (falsy (sm_content data)) eqn:Hb; simpl.
  { eexists. split; [reflexivity|]. discriminate. }
  destruct (falsy_false _ Hc) as (c & Ec & _).
  eexists. split; [|reflexivity].
  unfold try_catch, bind, chatModel_isParticipant, get_store, bind, get, ret.
  cbn. rewrite Ec. cbn. rewrite (Hnot c Ec). reflexivity.
Qed.

Lemma recipient_connected (w : World) (u : string) :
  socket_ids_truthy w ->
  recipient w u = connectedUsers w !! u.
Proof.
  intros Hwf. unfold recipient.
  destruct (connectedUsers w !! u) as [s|] eqn:E; [|reflexivity].
  rewrite (Hwf u s E). reflexivity.
Qed.

Lemma isUserConnected_lookup (w : World) (u : string) :
  isUserConnected w u = true <-> exists s, connectedUsers w !! u = Some s.
Proof.
  unfold isUserConnected. rewrite bool_decide_eq_true. reflexivity.
Qed.

Lemma length_omap_recipient (w : World) (l : list string) :
  socket_ids_truthy w ->
  length (omap (recipient w) l)
  = length (filter (fun u => isUserConnected w u = true) l).
Proof.
  intros Hwf. induction l as [|u l IH]; [reflexivity|].
  cbn [omap list_omap]. rewrite filter_cons.
  rewrite (recipient_connected w u Hwf).
  destruct (decide (isUserConnected w u = true)) as [Hc|Hc].
  - apply isUserConnected_lookup in Hc as [s Hs]. rewrite Hs. cbn. rewrite IH. reflexivity.
  - destruct (connectedUsers w !! u) as [s|] eqn:E; [|exact IH].
    exfalso. apply Hc. apply isUserConnected_lookup. eauto.
Qed.

(** What a send that passes the checks delivers, read off the presence
    map: [chat:message], carrying the created message, goes to the socket
    the map holds for a participant and nowhere else; every participant
    in the map gets it; there are as many deliveries as participants in
    the map; and the world after the send differs from the one before by
    the stored message and the touched conversation only. *)
Lemma fanout_follows_the_map
    (socket : Socket) (env : Env) (data : SendMessageData) (w : World)
    (c body : string) :
  sm_chatId data = Some c -> sm_content data = Some body ->
  truthy c = true -> truthy body = true ->
  Storage.isParticipant (store w) c (user_id socket) = true ->
  socket_ids_truthy w ->
  let message :=
    Message.mk (uuidv4 env) body c (user_id socket) false false false None None
               (newDate env 0%nat) (newDate env 1%nat) in
  let participants := Storage.getChatParticipants (store w) c in
  let out := emitted (sendMessage socket env data) w in
  outcome (sendMessage socket env data) w = Returned tt
  /\ (forall e, e ∈ out ->
        event e = "chat:message" /\ payload e = PMessage message
        /\ exists u, u ∈ participants /\ connectedUsers w !! u = Some (target e))
  /\ (forall u s, u ∈ participants -> connectedUsers w !! u = Some s ->
        mkEmission s "chat:message" (PMessage message) ∈ out)
  /\ user_id socket ∈ participants
  /\ length out
     = length (filter (fun u => isUserConnected w u = true) participants)
  /\ state_after (sendMessage socket env data) w
     = mkWorld (Storage.updateLastMessageTime
                  (Storage.createMessage (store w) message) c (dbNow env))
               (connectedUsers w).
Proof.
  intros Ec Eb Tc Tb Hp Hwf message participants out.
  pose proof (sendMessage_accepted socket env data w c body Ec Eb Tc Tb Hp) as Hrun.
  cbv zeta in Hrun. fold message in Hrun. fold participants in Hrun.
  assert (Hout : out = map (fun s => mkEmission s "chat:message" (PMessage message))
                           (omap (recipient w) participants)).
  { unfold out, emitted. rewrite Hrun. reflexivity. }
  split. { unfold outcome. rewrite Hrun. reflexivity. }
  split.
  { intros e He. rewrite Hout in He.
    apply list_elem_of_fmap in He as (s & -> & Hs).
    apply list_elem_of_omap in Hs as (u & Hu & Hr).
    rewrite (recipient_connected w u Hwf) in Hr.
    cbn. split; [reflexivity|]. split; [reflexivity|]. eauto. }
  split.
  { intros u s Hu Hs. rewrite Hout.
    apply list_elem_of_fmap. exists s. split; [reflexivity|].
    apply list_elem_of_omap. exists u. split; [exact Hu|].
    rewrite (recipient_connected w u Hwf). exact Hs. }
  split.
  { unfold Storage.isParticipant in Hp. apply bool_decide_eq_true in Hp. exact Hp. }
  split.
  { rewrite Hout, length_map. apply length_omap_recipient. exact Hwf. }
  unfold state_after. rewrite Hrun. reflexivity.
Qed.

Lemma editMessage_incomplete (socket : Socket) (env : Env) (data : EditMessageData) (w : World) :
  falsy (em_messageId data) || falsy (em_content data) = true ->
  editMessage socket env data w
  = (Returned tt, w,
     [mkEmission (socket_id socket) "error"
        (PError "Datos incompletos para editar mensaje")]).
Proof. intros H. unfold editMessage. rewrite H. reflexivity. Qed.

Lemma editMessage_denied (socket : Socket) (env : Env) (data : EditMessageData) (w : World)
    (m : Message.t) :
  falsy (em_messageId data) || falsy (em_content data) = false ->
  Storage.getMessageById (store w) (field (em_messageId data)) = Some m ->
  Message.userId m <> user_id socket ->
  editMessage socket env data w
  = (Returned tt, w,
     [mkEmission (socket_id socket) "error"
        (PError "No tienes permiso para editar este mensaje")]).
Proof.
  intros H Hm Hne. unfold editMessage. rewrite H.
  apply try_catch_returned.
  unfold messageModel_getMessageById, get_store.
  unfold bind at 1. unfold bind at 1. cbn [get ret].
  cbn. rewrite Hm. rewrite (bool_decide_eq_true_2 _ Hne). reflexivity.
Qed.

(** C7. An edit asked by somebody who is not the author of the stored
    message answers one [error] event on the originating socket and
    nothing else: the world is the one before, so the stored message keeps
    its body and its [edited] flag, and no [chat:message:update] goes out.
    With both fields present the text is that of the authorship check. *)
Theorem C7_edit_by_non_author_rejected
    (socket : Socket) (env : Env) (data : EditMessageData) (w : World)
    (mid : string) (m : Message.t) :
  em_messageId data = Some mid ->
  Storage.getMessageById (store w) mid = Some m ->
  Message.userId m <> user_id socket ->
  exists msg,
    editMessage socket env data w
      = (Returned tt, w, [mkEmission (socket_id socket) "error" (PError msg)])
    /\ Storage.getMessageById (store (state_after (editMessage socket env data) w)) mid
       = Some m
    /\ (falsy (em_messageId data) = false -> falsy (em_content data) = false ->
        msg = "No tienes permiso para editar este mensaje").
Proof.
  intros Em Hm Hne.
  destruct (falsy (em_messageId data) || falsy (em_content data)) eqn:H.
  - pose proof (editMessage_incomplete socket env data w H) as Hrun.
    eexists. split; [exact Hrun|]. split.
    + unfold state_after. rewrite Hrun. exact Hm.
    + intros H1 H2. rewrite H1, H2 in H. discriminate.
  - assert (Hm' : Storage.getMessageById (store w) (field (em_messageId data)) = Some m)
      by (rewrite Em; exact Hm).
    pose proof (editMessage_denied socket env data w m H Hm' Hne) as Hrun.
    eexists. split; [exact Hrun|]. split; [|reflexivity].
    unfold state_after. rewrite Hrun. exact Hm.
Qed.

Lemma deleteMessage_by_author (socket : Socket) (data : DeleteMessageData) (w : World)
    (mid : string) (m : Message.t) :
  dm_messageId data = Some mid -> truthy mid = true ->
  Storage.getMessageById (store w) mid = Some m ->
  Message.userId m = user_id socket ->
  deleteMessage socket data w
  = (Returned tt,
     mkWorld (Storage.updateMessage (store w) mid (Storage.mkFields None None (Some true)))
             (connectedUsers w),
     map (fun s => mkEmission s "chat:message:delete" (PMessageId mid))
         (omap (recipient w)
               (Storage.getChatParticipants (store w) (Message.chatId m)))).
Proof.
  intros Em Tm Hm Hu. unfold deleteMessage.
  rewrite Em. cbn [falsy field default]. rewrite Tm. cbn [negb].
  apply try_catch_returned.
  unfold messageModel_getMessageById, get_store.
  unfold bind at 1. unfold bind at 1. cbn [get ret].
  cbn. unfold Storage.getMessageById in Hm. rewrite Hm.
  rewrite bool_decide_eq_false_2 by (intros Hne; apply Hne; exact Hu).
  cbn. rewrite notify_each_run. reflexivity.
Qed.

(** Setting the [deleted] flag keeps the row, and every other field of
    it. *)
Lemma getMessageById_after_delete (st : Storage.t) (mid : string) (m : Message.t) :
  Storage.getMessageById st mid = Some m ->
  Storage.getMessageById
    (Storage.updateMessage st mid (Storage.mkFields None None (Some true))) mid
  = Some (Message.mk (Message.id m) (Message.content m) (Message.chatId m)
            (Message.userId m) (Message.read m) true (Message.edited m)
            (Message.fileId m) (Message.fileName m)
            (Message.createdAt m) (Message.updatedAt m)).
Proof.
  unfold Storage.getMessageById, Storage.updateMessage. cbn. intros Hm.
  rewrite lookup_alter_eq, Hm. reflexivity.
Qed.

Lemma updateMessage_delete_twice (st : Storage.t) (mid : string) :
  let f := Storage.mkFields None None (Some true) in
  Storage.updateMessage (Storage.updateMessage st mid f) mid f
  = Storage.updateMessage st mid f.
Proof.
  cbv zeta. unfold Storage.updateMessage. cbn. f_equal.
  apply map_eq. intros i.
  destruct (decide (mid = i)) as [->|Hne].
  - rewrite !lookup_alter_eq. destruct (Storage.messages st !! i); reflexivity.
  - rewrite !lookup_alter_ne by exact Hne. reflexivity.
Qed.

(** C5, as the handler has it.  A delete by the author keeps the stored
    message and sets its [deleted] flag, and delivers
    [chat:message:delete] to the participants in the presence map.  A
    second delete of the same message by the same author raises no
    [error] and leaves the world as the first one left it, and delivers
    [chat:message:delete] to the same sockets once more. *)
Theorem C5_delete_twice_by_author
    (socket : Socket) (data : DeleteMessageData) (w : World)
    (mid : string) (m : Message.t) :
  dm_messageId data = Some mid -> truthy mid = true ->
  Storage.getMessageById (store w) mid = Some m ->
  Message.userId m = user_id socket ->
  let w1 := state_after (deleteMessage socket data) w in
  let deliveries :=
    map (fun s => mkEmission s "chat:message:delete" (PMessageId mid))
        (omap (recipient w)
              (Storage.getChatParticipants (store w) (Message.chatId m))) in
  (exists m1, Storage.getMessageById (store w1) mid = Some m1
              /\ Message.deleted m1 = true
              /\ Message.content m1 = Message.content m
              /\ Message.userId m1 = Message.userId m
              /\ Message.chatId m1 = Message.chatId m)
  /\ deleteMessage socket data w = (Returned tt, w1, deliveries)
  /\ deleteMessage socket data w1 = (Returned tt, w1, deliveries)
  /\ (forall e, e ∈ deliveries -> event e = "chat:message:delete").
Proof.
  intros Em Tm Hm Hu w1 deliveries.
  pose proof (deleteMessage_by_author socket data w mid m Em Tm Hm Hu) as Hrun.
  assert (Hw1 : w1 = mkWorld (Storage.updateMessage (store w) mid
                                (Storage.mkFields None None (Some true)))
                             (connectedUsers w)).
  { unfold w1, state_after. rewrite Hrun. reflexivity. }
  clearbody w1. subst w1.
  pose proof (getMessageById_after_delete (store w) mid m Hm) as Hm1.
  split.
  { eexists. cbn [store]. split; [exact Hm1|]. cbn. auto. }
  split. { exact Hrun. }
  split.
  { rewrite (deleteMessage_by_author socket data
               (mkWorld (Storage.updateMessage (store w) mid
                           (Storage.mkFields None None (Some true)))
                        (connectedUsers w))
               mid _ Em Tm Hm1 Hu).
    cbn [store connectedUsers Message.chatId].
    rewrite updateMessage_delete_twice.
    unfold deliveries. f_equal. }
  intros e He. unfold deliveries in He.
  apply list_elem_of_fmap in He as (s & -> & _). reflexivity.
Qed.

(** *** The data URI pattern *)

Lemma append_cons (c : ascii) (a b : string) :
  (String c a ++ b)%string = String c (a ++ b)%string.
Proof. reflexivity. Qed.

Lemma append_empty (b : string) : (EmptyString ++ b)%string = b.
Proof. reflexivity. Qed.

Lemma prefix_drop (p s : string) :
  String.prefix p s = true -> s = (p ++ string_drop (String.length p) s)%string.
Proof.
  revert s. induction p as [|c p IH]; intros s H; [reflexivity|].
  destruct s as [|d s]; [discriminate|]. cbn in H.
  destruct (ascii_dec c d) as [->|]; [|discriminate].
  rewrite append_cons. cbn [String.length string_drop]. f_equal. apply IH. exact H.
Qed.

Lemma all_dot_app (a b : string) :
  all_dot (a ++ b)%string = all_dot a && all_dot b.
Proof.
  induction a as [|c a IH]; [reflexivity|].
  rewrite append_cons. cbn [all_dot]. rewrite IH, andb_assoc. reflexivity.
Qed.

(** A match splits the string around [;base64,] into two non-empty
    groups free of line terminators ... *)
Lemma match_groups_sound (s a b : string) :
  match_groups s = Some (a, b) ->
  s = (a ++ ";base64," ++ b)%string
  /\ a <> EmptyString /\ b <> EmptyString
  /\ all_dot a = true /\ all_dot b = true.
Proof.
  revert a b. induction s as [|c s IH]; intros a b H; [discriminate|].
  cbn [match_groups] in H.
  destruct (is_line_terminator c) eqn:Hc; [discriminate|].
  destruct (match_groups s) as [[g1 g2]|] eqn:Hs.
  - injection H as <- <-.
    destruct (IH g1 g2 eq_refl) as (E & _ & Hb & Ha1 & Hb1).
    split; [rewrite append_cons; f_equal; exact E|]. split; [discriminate|].
    split; [exact Hb|]. split; [|exact Hb1].
    cbn [all_dot]. rewrite Hc, Ha1. reflexivity.
  - destruct (String.prefix ";base64," s) eqn:Hp; [|discriminate].
    remember (string_drop 8 s) as g eqn:Eg.
    destruct (truthy g && all_dot g) eqn:Hg; [|discriminate].
    injection H as <- <-.
    apply andb_true_iff in Hg as [Ht Hd].
    split.
    { rewrite append_cons, append_empty. f_equal.
      rewrite Eg. exact (prefix_drop _ _ Hp). }
    split; [discriminate|].
    split; [intros E; rewrite E in Ht; discriminate|].
    split; [cbn [all_dot]; rewrite Hc; reflexivity|exact Hd].
Qed.

(** ... and every such string matches. *)
Lemma match_groups_complete (a b : string) :
  a <> EmptyString -> b <> EmptyString ->
  all_dot a = true -> all_dot b = true ->
  is_Some (match_groups (a ++ ";base64," ++ b)%string).
Proof.
  intros Ha Hb Da Db. induction a as [|c a IH]; [congruence|].
  cbn in Da. apply andb_true_iff in Da as [Hc Da].
  apply negb_true_iff in Hc.
  rewrite append_cons. cbn [match_groups]. rewrite Hc.
  destruct (match_groups (a ++ ";base64," ++ b)%string) as [[g1 g2]|] eqn:Hs;
    [eexists; reflexivity|].
  destruct a as [|d a].
  - rewrite append_empty.
    change (";base64," ++ b)%string
      with (String ";" (String "b" (String "a" (String "s" (String "e"
             (String "6" (String "4" (String "," b)))))))).
    cbn [String.prefix string_drop].
    repeat (destruct (ascii_dec _ _) as [_|Hne]; [|exfalso; apply Hne; reflexivity]).
    assert (String.prefix EmptyString b = true) as -> by (destruct b; reflexivity).
    assert (truthy b = true) as ->
      by (destruct b; [congruence|reflexivity]).
    rewrite Db. eexists; reflexivity.
  - destruct (IH ltac:(discriminate) Da) as [x Hx]. congruence.
Qed.

Lemma match_data_uri_sound (s a b : string) :
  match_data_uri s = Some (a, b) ->
  s = ("data:" ++ a ++ ";base64," ++ b)%string
  /\ a <> EmptyString /\ b <> EmptyString
  /\ all_dot a = true /\ all_dot b = true.
Proof.
  unfold match_data_uri. destruct (String.prefix "data:" s) eqn:Hp; [|discriminate].
  intros H. destruct (match_groups_sound _ _ _ H) as (E & R).
  split; [|exact R].
  rewrite (prefix_drop _ _ Hp) at 1. cbn [String.length]. rewrite <- E. reflexivity.
Qed.

Lemma match_data_uri_complete (a b : string) :
  a <> EmptyString -> b <> EmptyString ->
  all_dot a = true -> all_dot b = true ->
  is_Some (match_data_uri ("data:" ++ a ++ ";base64," ++ b)%string).
Proof.
  intros Ha Hb Da Db. unfold match_data_uri.
  change ("data:" ++ a ++ ";base64," ++ b)%string
    with (String "d" (String "a" (String "t" (String "a" (String ":"
           (a ++ ";base64," ++ b)%string))))).
  cbn [String.prefix string_drop].
  repeat (destruct (ascii_dec _ _) as [_|Hne]; [|exfalso; apply Hne; reflexivity]).
  assert (String.prefix EmptyString (a ++ ";base64," ++ b)%string = true) as ->
    by (destruct (a ++ ";base64," ++ b)%string; reflexivity).
  apply match_groups_complete; assumption.
Qed.

Section SendFileFacts.

Variable Buffer_from_base64 : string -> list Byte.byte.

Lemma sendFile_incomplete (socket : Socket) (env : Env) (data : SendFileData) (w : World) :
  falsy (sf_chatId data) || falsy (sf_filename data) || falsy (sf_data data) = true ->
  sendFile Buffer_from_base64 socket env data w
  = (Returned tt, w,
     [mkEmission (socket_id socket) "error"
        (PError "Datos incompletos para enviar archivo")]).
Proof. intros H. unfold sendFile. rewrite H. reflexivity. Qed.

Lemma sendFile_not_participant (socket : Socket) (env : Env) (data : SendFileData) (w : World) :
  falsy (sf_chatId data) || falsy (sf_filename data) || falsy (sf_data data) = false ->
  Storage.isParticipant (store w) (field (sf_chatId data)) (user_id socket) = false ->
  sendFile Buffer_from_base64 socket env data w
  = (Returned tt, w,
     [mkEmission (socket_id socket) "error"
        (PError "No eres participante de este chat")]).
Proof.
  intros H Hp. unfold sendFile. rewrite H.
  apply try_catch_returned.
  unfold chatModel_isParticipant, get_store.
  unfold bind at 1. unfold bind at 1. cbn [get ret].
  cbn. rewrite Hp. reflexivity.
Qed.

Lemma sendFile_bad_format (socket : Socket) (env : Env) (data : SendFileData) (w : World) :
  falsy (sf_chatId data) || falsy (sf_filename data) || falsy (sf_data data) = false ->
  Storage.isParticipant (store w) (field (sf_chatId data)) (user_id socket) = true ->
  match_data_uri (field (sf_data data)) = None ->
  sendFile Buffer_from_base64 socket env data w
  = (Returned tt, w,
     [mkEmission (socket_id socket) "error" (PError formato_invalido)]).
Proof.
  intros H Hp Hm. unfold sendFile. rewrite H.
  apply try_catch_returned.
  unfold chatModel_isParticipant, get_store.
  unfold bind at 1. unfold bind at 1. cbn [get ret].
  cbn. rewrite Hp. cbn. rewrite Hm. reflexivity.
Qed.

(** C6, for the pattern.  A [sendFile] whose data does not match the
    data URI pattern (or is missing) answers one [error] event on the
    originating socket and nothing else: no [chat:message] goes out and
    the world is the one before, so no file is saved, no message created
    and no conversation touched.  When the fields are there and the sender
    is a participant, the text is that of the format check.  The pattern
    is all the handler looks at: whether the data part is base64 is never
    checked. *)
Theorem C6_undecodable_attachment_rejected
    (socket : Socket) (env : Env) (data : SendFileData) (w : World) :
  (forall d, sf_data data = Some d -> match_data_uri d = None) ->
  exists msg,
    sendFile Buffer_from_base64 socket env data w
      = (Returned tt, w, [mkEmission (socket_id socket) "error" (PError msg)])
    /\ (falsy (sf_chatId data) || falsy (sf_filename data) || falsy (sf_data data)
          = false ->
        Storage.isParticipant (store w) (field (sf_chatId data)) (user_id socket)
          = true ->
        msg = formato_invalido).
Proof.
  intros Hbad.
  destruct (falsy (sf_chatId data) || falsy (sf_filename data) || falsy (sf_data data))
    eqn:H.
  { eexists. split; [apply sendFile_incomplete; exact H|]. discriminate. }
  destruct (Storage.isParticipant (store w) (field (sf_chatId data)) (user_id socket))
    eqn:Hp.
  2:{ eexists. split; [apply sendFile_not_participant; assumption|]. discriminate. }
  exists formato_invalido. split; [|reflexivity].
  apply sendFile_bad_format; [exact H|exact Hp|].
  apply orb_false_iff in H as [_ Hd].
  destruct (falsy_false _ Hd) as (d & Ed & _).
  rewrite Ed. cbn [field default]. apply Hbad. exact Ed.
Qed.

End SendFileFacts.

(** The socket ids of the sample deployment are non-empty. *)
Lemma sample_socket_ids_truthy : socket_ids_truthy Sample.w1.
Proof.
  intros u s. unfold Sample.w1. cbn [connectedUsers].
  rewrite lookup_insert. case_decide.
  - intros [= <-]. reflexivity.
  - rewrite lookup_singleton. case_decide; [|discriminate].
    intros [= <-]. reflexivity.
Qed.

(** *** Presence *)

(** The announcement loops deliver and change nothing. *)
Lemma announce_run (chats : list Storage.ChatRow) (userId ev : string) (w : World) :
  for_each chats (fun chat =>
    notify_each (filter (fun p => p ≠ userId) (Storage.participants chat))
                ev (PUser userId)) w
  = (Returned tt, w,
     concat (map (fun chat =>
       map (fun s => mkEmission s ev (PUser userId))
           (omap (recipient w)
                 (filter (fun p => p ≠ userId) (Storage.participants chat))))
       chats)).
Proof.
  induction chats as [|chat l IH]; [reflexivity|].
  cbn [for_each].
  rewrite (bind_run _ _ _ _ _ _ (notify_each_run _ ev (PUser userId) w)), IH.
  reflexivity.
Qed.

Lemma connection_run (socket : Socket) (w : World) :
  let w' := mkWorld (store w) (<[user_id socket := socket_id socket]> (connectedUsers w)) in
  connection socket w
  = (Returned tt, w',
     concat (map (fun chat =>
       map (fun s => mkEmission s "user:online" (PUser (user_id socket)))
           (omap (recipient w')
                 (filter (fun p => p ≠ user_id socket) (Storage.participants chat))))
       (Storage.getUserChats (store w) (user_id socket)))).
Proof.
  cbv zeta. unfold connection, connectedUsers_set.
  unfold bind at 1. cbn [modify].
  erewrite try_catch_returned; [reflexivity|].
  unfold chatModel_getUserChats, get_store.
  unfold bind at 1. unfold bind at 1. cbn [get ret bind]. cbn [store].
  rewrite announce_run. reflexivity.
Qed.

Lemma disconnect_run (socket : Socket) (w : World) :
  let w' := mkWorld (store w) (delete (user_id socket) (connectedUsers w)) in
  disconnect socket w
  = (Returned tt, w',
     concat (map (fun chat =>
       map (fun s => mkEmission s "user:offline" (PUser (user_id socket)))
           (omap (recipient w')
                 (filter (fun p => p ≠ user_id socket) (Storage.participants chat))))
       (Storage.getUserChats (store w) (user_id socket)))).
Proof.
  cbv zeta. unfold disconnect, connectedUsers_delete.
  unfold bind at 1. cbn [modify].
  erewrite try_catch_returned; [reflexivity|].
  unfold chatModel_getUserChats, get_store.
  unfold bind at 1. unfold bind at 1. cbn [get ret bind]. cbn [store].
  rewrite announce_run. reflexivity.
Qed.

(** Once a channel of a principal has opened, the principal is in the
    map ... *)
Lemma connection_marks_present (socket : Socket) (w : World) :
  isUserConnected (state_after (connection socket) w) (user_id socket) = true.
Proof.
  unfold state_after. rewrite connection_run. cbn.
  apply isUserConnected_lookup. exists (socket_id socket).
  cbn. apply lookup_insert_eq.
Qed.

(** ... and once any channel of the principal has closed, it is out of
    the map, whatever else is open. *)
Lemma disconnect_marks_absent (socket : Socket) (w : World) :
  isUserConnected (state_after (disconnect socket) w) (user_id socket) = false.
Proof.
  unfold state_after. rewrite disconnect_run. cbn.
  unfold isUserConnected. apply bool_decide_eq_false. cbn.
  rewrite lookup_delete_eq. intros [x Hx]. discriminate.
Qed.

Lemma channel_step_run (ev : ChannelEvent) (w : World) :
  outcome (channel_step ev) w = Returned tt
  /\ store (state_after (channel_step ev) w) = store w
  /\ connectedUsers (state_after (channel_step ev) w)
     = match ev with
       | Opens socket => <[user_id socket := socket_id socket]> (connectedUsers w)
       | Closes socket => delete (user_id socket) (connectedUsers w)
       end.
Proof.
  unfold outcome, state_after. destruct ev as [socket|socket]; cbn [channel_step].
  - rewrite connection_run. repeat split.
  - rewrite disconnect_run. repeat split.
Qed.

Lemma run_channels_snoc (evs : list ChannelEvent) (ev : ChannelEvent) (w : World) :
  outcome (run_channels evs) w = Returned tt
  /\ state_after (run_channels (evs ++ [ev])) w
     = state_after (channel_step ev) (state_after (run_channels evs) w).
Proof.
  unfold run_channels. revert w.
  induction evs as [|e evs IH]; intros w.
  - split; [reflexivity|]. cbn [app for_each].
    unfold state_after, bind. cbn.
    destruct (channel_step ev w) as [[r w1] out1]. destruct r; reflexivity.
  - destruct (channel_step_run e w) as (Hret & _).
    destruct (channel_step e w) as [[r w1] out1] eqn:E.
    unfold outcome in Hret. rewrite E in Hret. cbn in Hret. subst r.
    destruct (IH w1) as [IH1 IH2].
    cbn [app for_each]. unfold outcome, state_after in *.
    rewrite !(bind_run _ _ _ _ _ _ E).
    destruct (for_each evs channel_step w1) as [[r2 w2] out2].
    destruct (for_each (evs ++ [ev]) channel_step w1) as [[r3 w3] out3].
    cbn in *. split; [exact IH1|exact IH2].
Qed.

Lemma open_channels_snoc (evs : list ChannelEvent) (ev : ChannelEvent) (u : string) :
  open_channels (evs ++ [ev]) u
  = match ev with
    | Opens socket =>
        if bool_decide (user_id socket = u)
        then open_channels evs u ++ [socket_id socket]
        else open_channels evs u
    | Closes socket =>
        if bool_decide (user_id socket = u)
        then filter (fun h => h ≠ socket_id socket) (open_channels evs u)
        else open_channels evs u
    end.
Proof. unfold open_channels. rewrite fold_left_app. reflexivity. Qed.

(** As long as no principal holds two channels at once, the map is the
    presence entry of the spec: it holds for each principal the handle of
    its open channel, and [isUserConnected] tells whether there is one. *)
Lemma presence_map_with_one_channel_each (evs : list ChannelEvent) (w : World) :
  connectedUsers w = ∅ ->
  one_channel_each evs ->
  forall u,
    connectedUsers (state_after (run_channels evs) w) !! u
    = head (open_channels evs u).
Proof.
  intros Hw Hevs. induction Hevs as [|evs socket _ IH Hnone|evs socket _ IH Hone];
    intros u.
  - cbn. rewrite Hw. apply lookup_empty.
  - destruct (run_channels_snoc evs (Opens socket) w) as [_ ->].
    destruct (channel_step_run (Opens socket) (state_after (run_channels evs) w))
      as (_ & _ & ->).
    rewrite open_channels_snoc. case_bool_decide as E.
    + subst u. rewrite Hnone. cbn. apply lookup_insert_eq.
    + rewrite lookup_insert_ne by exact E. apply IH.
  - destruct (run_channels_snoc evs (Closes socket) w) as [_ ->].
    destruct (channel_step_run (Closes socket) (state_after (run_channels evs) w))
      as (_ & _ & ->).
    rewrite open_channels_snoc. case_bool_decide as E.
    + subst u. rewrite Hone. cbn.
      rewrite decide_False by (intros H; apply H; reflexivity).
      cbn. apply lookup_delete_eq.
    + rewrite lookup_delete_ne by exact E. apply IH.
Qed.

(** The events a closing channel sends out. *)
Lemma disconnect_emitted (socket : Socket) (w : World) :
  (forall e, e ∈ emitted (disconnect socket) w ->
     event e = "user:offline" /\ payload e = PUser (user_id socket))
  /\ (forall chat p s,
        chat ∈ Storage.getUserChats (store w) (user_id socket) ->
        p ∈ Storage.participants chat -> p <> user_id socket ->
        connectedUsers w !! p = Some s -> truthy s = true ->
        mkEmission s "user:offline" (PUser (user_id socket))
          ∈ emitted (disconnect socket) w).
Proof.
  unfold emitted. rewrite disconnect_run. cbn [snd]. split.
  - intros e He. apply list_elem_of_In, in_concat in He as (l & Hl & He).
    apply in_map_iff in Hl as (chat & <- & _).
    apply in_map_iff in He as (s & <- & _). split; reflexivity.
  - intros chat p s Hchat Hp Hne Hs Ht.
    apply list_elem_of_In, in_concat. eexists. split.
    + apply in_map_iff. exists chat. split; [reflexivity|].
      apply list_elem_of_In. exact Hchat.
    + apply in_map_iff. exists s. split; [reflexivity|].
      apply list_elem_of_In, list_elem_of_omap. exists p. split.
      * apply list_elem_of_filter. split; assumption.
      * unfold recipient. cbn [connectedUsers].
        rewrite lookup_delete_ne by (intros E; apply Hne; symmetry; exact E).
        rewrite Hs, Ht. reflexivity.
Qed.

(** On such a run a principal never has more than one open channel ... *)
Lemma open_channels_at_most_one (evs : list ChannelEvent) :
  one_channel_each evs ->
  forall u, open_channels evs u = [] \/ exists s, open_channels evs u = [s].
Proof.
  induction 1 as [|evs socket _ IH Hnone|evs socket _ IH Hone]; intros u.
  - left. reflexivity.
  - rewrite open_channels_snoc. case_bool_decide as E; [|apply IH].
    subst u. rewrite Hnone. right. eexists. reflexivity.
  - rewrite open_channels_snoc. case_bool_decide as E; [|apply IH].
    subst u. rewrite Hone. left. cbn.
    rewrite decide_False by (intros H; apply H; reflexivity). reflexivity.
Qed.

(** ... and every open channel is one that has opened. *)
Lemma open_channels_opened (evs : list ChannelEvent) (u h : string) :
  h ∈ open_channels evs u ->
  exists socket, Opens socket ∈ evs /\ socket_id socket = h.
Proof.
  induction evs as [|ev evs IH] using rev_ind; [intros H; inversion H|].
  rewrite open_channels_snoc. intros H.
  assert (Hold : h ∈ open_channels evs u ->
                 exists socket, Opens socket ∈ evs ++ [ev] /\ socket_id socket = h).
  { intros Hh. destruct (IH Hh) as (socket & Hin & Hid).
    exists socket. split; [apply elem_of_app; left; exact Hin|exact Hid]. }
  destruct ev as [socket|socket]; case_bool_decide; try (apply Hold; exact H).
  - apply elem_of_app in H as [H|H]; [apply Hold; exact H|].
    apply list_elem_of_singleton in H. subst h.
    exists socket. split; [|reflexivity].
    apply elem_of_app. right. apply list_elem_of_singleton. reflexivity.
  - apply list_elem_of_filter in H as [_ H]. apply Hold. exact H.
Qed.

(** C3, on the runs of C1.  On a run that starts with nobody connected
    and on which no principal ever holds two channels at once, a send
    that passes the checks delivers [chat:message], carrying the created
    message, exactly to the participants of the conversation that are
    present: every delivery goes to the open channel of a participant;
    every participant with an open channel -- the sender, a participant,
    among them -- gets it on that channel; there are as many deliveries as
    participants with an open channel.  For a participant without one
    nothing is delivered and nothing is kept for later: the world after
    the send differs from the one before by the stored message and the
    touched conversation only.  Socket ids are non-empty, as the ids
    socket.io hands out are. *)
Theorem C3_fanout_reaches_present_participants
    (evs : list ChannelEvent) (w0 : World)
    (socket : Socket) (env : Env) (data : SendMessageData) (c body : string) :
  connectedUsers w0 = ∅ ->
  one_channel_each evs ->
  (forall s, Opens s ∈ evs -> truthy (socket_id s) = true) ->
  let w := state_after (run_channels evs) w0 in
  sm_chatId data = Some c -> sm_content data = Some body ->
  truthy c = true -> truthy body = true ->
  Storage.isParticipant (store w) c (user_id socket) = true ->
  let message :=
    Message.mk (uuidv4 env) body c (user_id socket) false false false None None
               (newDate env 0%nat) (newDate env 1%nat) in
  let participants := Storage.getChatParticipants (store w) c in
  let out := emitted (sendMessage socket env data) w in
  outcome (sendMessage socket env data) w = Returned tt
  /\ (forall e, e ∈ out ->
        event e = "chat:message" /\ payload e = PMessage message
        /\ exists u, u ∈ participants /\ open_channels evs u = [target e])
  /\ (forall u s, u ∈ participants -> s ∈ open_channels evs u ->
        mkEmission s "chat:message" (PMessage message) ∈ out)
  /\ user_id socket ∈ participants
  /\ length out
     = length (filter (fun u => open_channels evs u ≠ []) participants)
  /\ state_after (sendMessage socket env data) w
     = mkWorld (Storage.updateLastMessageTime
                  (Storage.createMessage (store w) message) c (dbNow env))
               (connectedUsers w).
Proof.
  intros Hw0 Hevs Hids w Ec Eb Tc Tb Hp message participants out.
  pose proof (presence_map_with_one_channel_each evs w0 Hw0 Hevs) as Hmap.
  fold w in Hmap.
  assert (Hone : forall u s, connectedUsers w !! u = Some s <-> open_channels evs u = [s]).
  { intros u s. rewrite Hmap.
    destruct (open_channels_at_most_one evs Hevs u) as [E|[s' E]]; rewrite E; cbn.
    - split; discriminate.
    - split; intros [= ->]; reflexivity. }
  assert (Hwf : socket_ids_truthy w).
  { intros u s Hs. apply Hone in Hs.
    destruct (open_channels_opened evs u s) as (sk & Hin & <-).
    - rewrite Hs. apply list_elem_of_here.
    - apply Hids. exact Hin. }
  destruct (fanout_follows_the_map socket env data w c body Ec Eb Tc Tb Hp Hwf)
    as (Hret & Honly & Hall & Hsender & Hlen & Hst).
  fold message participants out in Honly, Hall, Hsender, Hlen, Hst.
  split; [exact Hret|]. split.
  { intros e He. destruct (Honly e He) as (Hev & Hpay & u & Hu & Hs).
    split; [exact Hev|]. split; [exact Hpay|].
    exists u. split; [exact Hu|]. apply Hone. exact Hs. }
  split.
  { intros u s Hu Hs. apply (Hall u s Hu). apply Hone.
    destruct (open_channels_at_most_one evs Hevs u) as [E|[s' E]]; rewrite E in Hs.
    - inversion Hs.
    - apply list_elem_of_singleton in Hs. subst s'. exact E. }
  split; [exact Hsender|]. split; [|exact Hst].
  rewrite Hlen. f_equal. apply list_filter_iff. intros u.
  rewrite isUserConnected_lookup. split.
  - intros [s Hs]. apply Hone in Hs. rewrite Hs. discriminate.
  - intros Hne. destruct (open_channels_at_most_one evs Hevs u) as [E|[s E]];
      [contradiction|]. exists s. apply Hone. exact E.
Qed.

(** C1, as the map has it.  On a run that starts with nobody connected
    and on which no principal ever holds two channels at once, a principal
    is present ([isUserConnected]) exactly when it has an open channel;
    and when the channel of a principal closes, the principal is absent
    and [user:offline] for it, and nothing else, goes to the other
    participants of its conversations that are in the map. *)
Theorem C1_presence_with_one_channel_each (evs : list ChannelEvent) (w : World) :
  connectedUsers w = ∅ ->
  one_channel_each evs ->
  let w' := state_after (run_channels evs) w in
  (forall u, isUserConnected w' u = true <-> open_channels evs u <> [])
  /\ (forall socket,
        open_channels evs (user_id socket) = [socket_id socket] ->
        let closing := channel_step (Closes socket) in
        isUserConnected (state_after closing w') (user_id socket) = false
        /\ (forall e, e ∈ emitted closing w' ->
              event e = "user:offline" /\ payload e = PUser (user_id socket))
        /\ (forall chat p s,
              chat ∈ Storage.getUserChats (store w') (user_id socket) ->
              p ∈ Storage.participants chat -> p <> user_id socket ->
              connectedUsers w' !! p = Some s -> truthy s = true ->
              mkEmission s "user:offline" (PUser (user_id socket))
                ∈ emitted closing w')).
Proof.
  intros Hw Hevs w'. split.
  - intros u. rewrite isUserConnected_lookup.
    unfold w'. rewrite (presence_map_with_one_channel_each evs w Hw Hevs u).
    rewrite <- head_is_Some. reflexivity.
  - intros socket _ closing. unfold closing. cbn [channel_step].
    split; [apply disconnect_marks_absent|].
    apply disconnect_emitted.
Qed.

(** C1 with bob and alice, one channel each: both are present. *)
Lemma C1_witness :
  forallb (isUserConnected
             (state_after (run_channels [Opens Sample.bob_phone; Opens Sample.alice_phone])
                          Sample.w0))
          ["alice"; "bob"] = true.
Proof.
  assert (Hrun : one_channel_each [Opens Sample.bob_phone; Opens Sample.alice_phone]).
  { apply (oce_opens [Opens Sample.bob_phone] Sample.alice_phone); [|reflexivity].
    apply (oce_opens [] Sample.bob_phone); [|reflexivity].
    apply oce_start. }
  destruct (C1_presence_with_one_channel_each _ Sample.w0 eq_refl Hrun) as [Hpresent _].
  cbn [forallb].
  rewrite (proj2 (Hpresent "alice")) by (vm_compute; discriminate).
  rewrite (proj2 (Hpresent "bob")) by (vm_compute; discriminate).
  reflexivity.
Defined.

(** C1 as stated fails with two channels of one principal.  Alice opens a
    channel from her phone and one from her laptop, and the phone's channel
    closes: her laptop's channel is still open, yet [isUserConnected]
    answers false for her and bob is told [user:offline]. *)
Lemma C1_non_final_disconnect_marks_absent :
  let before := state_after (run_channels Sample.two_devices) Sample.w0 in
  let after := state_after (channel_step Sample.phone_drops) before in
  open_channels (Sample.two_devices ++ [Sample.phone_drops]) "alice" = ["s2"]
  /\ isUserConnected before "alice" = true
  /\ isUserConnected after "alice" = false
  /\ emitted (channel_step Sample.phone_drops) before
     = [mkEmission "s3" "user:offline" (PUser "alice")].
Proof. vm_compute. repeat split. Qed.

(** C2 at carol, a stranger to the conversation. *)
Lemma C2_witness :
  exists msg,
    sendMessage Sample.carol_phone Sample.env0 Sample.send_hi Sample.w1
      = (Returned tt, Sample.w1, [mkEmission "s4" "error" (PError msg)])
    /\ (falsy (sm_chatId Sample.send_hi) = false ->
        falsy (sm_content Sample.send_hi) = false ->
        msg = "No eres participante de este chat").
Proof.
  apply (C2_send_by_non_participant_rejected
           Sample.carol_phone Sample.env0 Sample.send_hi Sample.w1).
  intros c [= <-]. vm_compute. reflexivity.
Defined.

(** C3 at alice, with bob and herself connected, one channel each. *)
Lemma C3_witness :
  length (emitted (sendMessage Sample.alice_phone Sample.env0 Sample.send_hi)
            (state_after (run_channels [Opens Sample.bob_phone; Opens Sample.alice_phone])
                         Sample.w0))
  = 2%nat.
Proof.
  assert (Hrun : one_channel_each [Opens Sample.bob_phone; Opens Sample.alice_phone]).
  { apply (oce_opens [Opens Sample.bob_phone] Sample.alice_phone); [|reflexivity].
    apply (oce_opens [] Sample.bob_phone); [|reflexivity].
    apply oce_start. }
  assert (Hids : forall s, Opens s ∈ [Opens Sample.bob_phone; Opens Sample.alice_phone] ->
                           truthy (socket_id s) = true).
  { intros s Hs. apply list_elem_of_In in Hs. cbn in Hs.
    destruct Hs as [[= <-]|[[= <-]|[]]]; reflexivity. }
  destruct (C3_fanout_reaches_present_participants
              [Opens Sample.bob_phone; Opens Sample.alice_phone] Sample.w0
              Sample.alice_phone Sample.env0 Sample.send_hi "c1" "hi"
              eq_refl Hrun Hids eq_refl eq_refl eq_refl eq_refl eq_refl)
    as (_ & _ & _ & _ & Hlen & _).
  rewrite Hlen. vm_compute. reflexivity.
Defined.

(** C3 as stated fails with two channels of one principal.  After alice's
    phone has dropped her laptop's channel is still open, and she is a
    participant of [c1]; yet the message she sends from the laptop goes to
    bob alone. *)
Lemma C3_open_channel_gets_nothing :
  let w := state_after (run_channels (Sample.two_devices ++ [Sample.phone_drops]))
                       Sample.w0 in
  open_channels (Sample.two_devices ++ [Sample.phone_drops]) "alice" = ["s2"]
  /\ Storage.isParticipant (store w) "c1" "alice" = true
  /\ emitted (sendMessage Sample.alice_laptop Sample.env0 Sample.send_hi) w
     = [mkEmission "s3" "chat:message"
          (PMessage (Message.mk "m2" "hi" "c1" "alice" false false false
                       None None 200 200))].
Proof. vm_compute. repeat split. Qed.

(** C5 at alice, the author of [m1]. *)
Lemma C5_witness :
  let w1 := state_after (deleteMessage Sample.alice_phone Sample.delete_m1) Sample.w1 in
  deleteMessage Sample.alice_phone Sample.delete_m1 w1
  = (Returned tt, w1,
     [mkEmission "s1" "chat:message:delete" (PMessageId "m1");
      mkEmission "s3" "chat:message:delete" (PMessageId "m1")]).
Proof.
  destruct (C5_delete_twice_by_author
              Sample.alice_phone Sample.delete_m1 Sample.w1 "m1" Sample.m1
              eq_refl eq_refl eq_refl eq_refl)
    as (_ & _ & Hsecond & _).
  exact Hsecond.
Defined.

(** C5 as stated fails: the second delete of [m1] by alice delivers
    [chat:message:delete] again. *)
Lemma C5_second_delete_emits_again :
  ~ (forall e,
       e ∈ emitted (deleteMessage Sample.alice_phone Sample.delete_m1)
             (state_after (deleteMessage Sample.alice_phone Sample.delete_m1) Sample.w1) ->
       event e <> "chat:message:delete").
Proof.
  intros H.
  apply (H (mkEmission "s3" "chat:message:delete" (PMessageId "m1"))); [|reflexivity].
  vm_compute. apply list_elem_of_further, list_elem_of_here.
Qed.

(** C6 at a payload that is no data URI. *)
Lemma C6_witness :
  exists msg,
    sendFile Sample.no_bytes Sample.alice_phone Sample.env0 Sample.send_garbage Sample.w1
      = (Returned tt, Sample.w1, [mkEmission "s1" "error" (PError msg)])
    /\ (falsy (sf_chatId Sample.send_garbage) || falsy (sf_filename Sample.send_garbage)
          || falsy (sf_data Sample.send_garbage) = false ->
        Storage.isParticipant (store Sample.w1) (field (sf_chatId Sample.send_garbage))
          (user_id Sample.alice_phone) = true ->
        msg = formato_invalido).
Proof.
  apply (C6_undecodable_attachment_rejected
           Sample.no_bytes Sample.alice_phone Sample.env0 Sample.send_garbage Sample.w1).
  intros d [= <-]. vm_compute. reflexivity.
Defined.

(** C6 as stated fails: the data part of [not_base64] is no base64 text,
    yet the payload has the shape of the pattern and alice's attachment
    is taken, whatever the decoder makes of it: no run ends in an [error]
    with the world as before, and with the decoder of the examples the
    file and the message are stored and [chat:message] goes to alice and
    bob. *)
Lemma C6_data_that_is_no_base64_is_stored :
  match_data_uri Scenario.not_base64 = Some ("a", "b;base64,")
  /\ ~ (exists Buffer_from_base64 msg,
          sendFile Buffer_from_base64 Sample.alice_phone Sample.env0
            Scenario.send_not_base64 Sample.w1
          = (Returned tt, Sample.w1, [mkEmission "s1" "error" (PError msg)]))
  /\ (let run := sendFile Scenario.three_bytes Sample.alice_phone Sample.env0
                   Scenario.send_not_base64 in
      map (fun e => (target e, event e)) (emitted run Sample.w1)
      = [("s1", "chat:message"); ("s3", "chat:message")]
      /\ is_Some (Storage.files (store (state_after run Sample.w1)) !! "f1")
      /\ is_Some (Storage.getMessageById (store (state_after run Sample.w1)) "m2")).
Proof.
  split; [vm_compute; reflexivity|]. split.
  - intros (decode & msg & H).
    apply (f_equal snd) in H. vm_compute in H. discriminate H.
  - cbv zeta. split; [vm_compute; reflexivity|].
    split; vm_compute; eexists; reflexivity.
Qed.

(** C7 at bob, who asks to edit alice's [m1]. *)
Lemma C7_witness :
  exists msg,
    editMessage Sample.bob_phone Sample.env0 Sample.edit_m1 Sample.w1
      = (Returned tt, Sample.w1, [mkEmission "s3" "error" (PError msg)])
    /\ Storage.getMessageById
         (store (state_after (editMessage Sample.bob_phone Sample.env0 Sample.edit_m1)
                   Sample.w1)) "m1"
       = Some Sample.m1
    /\ (falsy (em_messageId Sample.edit_m1) = false ->
        falsy (em_content Sample.edit_m1) = false ->
        msg = "No tienes permiso para editar este mensaje").
Proof.
  apply (C7_edit_by_non_author_rejected
           Sample.bob_phone Sample.env0 Sample.edit_m1 Sample.w1 "m1" Sample.m1).
  - reflexivity.
  - vm_compute. reflexivity.
  - vm_compute. discriminate.
Defined.

End ServerFacts.

(** ** The client *)

Module ClientFacts.
Import Client.

Lemma bind_unit_run {St Out B} (m : Comp St Out unit) (k : Comp St Out B) w w1 out1 :
  m w = (Returned tt, w1, out1) ->
  (m ;; k) w = (let '(r, w2, out2) := k w1 in (r, w2, out1 ++ out2)).
Proof. intros H. unfold bind. rewrite H. reflexivity. Qed.

(** *** The guards of the send calls *)

(** C10. With content that trims to the empty string, or without a
    user, [sendMessage] and [editMessage] return at once: nothing is
    emitted on the socket, no service call is issued, no toast shown, and
    the cells and the socket reference are as before. *)
Theorem C10_blank_send_and_edit_do_nothing
    (r : Render) (chatId messageId content : string) (m : Machine) :
  trim content = EmptyString \/ currentUser r = None ->
  sendMessage r chatId content m = (Returned tt, m, [])
  /\ editMessage r messageId content m = (Returned tt, m, []).
Proof.
  intros H. unfold sendMessage, editMessage.
  destruct H as [H|H]; rewrite H; cbn [truthy String.eqb negb orb].
  - rewrite !orb_true_r. split; reflexivity.
  - rewrite bool_decide_eq_false_2 by (intros [x Hx]; discriminate).
    split; reflexivity.
Qed.

(** C10 at a content of blanks. *)
Lemma C10_witness :
  sendMessage Sample.r0 "c1" "  " Sample.online = (Returned tt, Sample.online, [])
  /\ editMessage Sample.r0 "m1" "  " Sample.online = (Returned tt, Sample.online, []).
Proof.
  apply (C10_blank_send_and_edit_do_nothing Sample.r0 "c1" "m1" "  " Sample.online).
  left. reflexivity.
Defined.

(** What a send does over a connected socket: the event goes out and
    nothing else happens. *)
Lemma sendMessage_connected (r : Render) (u : User.t) (chatId content : string) (m : Machine) :
  currentUser r = Some u -> truthy chatId = true -> truthy (trim content) = true ->
  socketRef m = Some true ->
  sendMessage r chatId content m
  = (Returned tt, m,
     [EmitSendMessage (Server.mkSendMessageData (Some chatId) (Some content))]).
Proof.
  intros Hu Hc Ht Hs. unfold sendMessage.
  rewrite Hu, Hc, Ht.
  rewrite bool_decide_eq_true_2 by eauto. cbn [negb orb].
  apply try_catch_returned.
  unfold socket_connected, bind, get, ret. cbn. rewrite Hs. reflexivity.
Qed.

(** *** [chat:message] *)

Lemma in_active_chat_spec (r : Render) (message : Message.t) :
  in_active_chat r message = true
  <-> exists c, activeChat (seen r) = Some c /\ Message.chatId message = Chat.id c.
Proof.
  unfold in_active_chat. destruct (activeChat (seen r)) as [c|].
  - rewrite bool_decide_eq_true. split; [eauto|]. intros (c' & [= <-] & H). exact H.
  - split; [discriminate|]. intros (c & H & _). discriminate.
Qed.

(** The cells after [handleNewMessage]. *)
Lemma handleNewMessage_run (r : Render) (message : Message.t) (m : Machine) :
  let s := state m in
  outcome (handleNewMessage r message) m = Returned tt
  /\ state_after (handleNewMessage r message) m
     = mkMachine
         (mkState
            (map (take_if_newer message) (chats s))
            (activeChat s)
            (if in_active_chat r message
             then activeChatMessages s ++ [message]
             else activeChatMessages s)
            (loading s) (error s)
            (if in_active_chat r message then unreadMessagesCount s
             else if from_someone_else r message then unreadMessagesCount s + 1
             else unreadMessagesCount s)
            (isConnected s))
         (socketRef m).
Proof.
  cbv zeta. unfold handleNewMessage, outcome, state_after.
  destruct (in_active_chat r message); destruct (from_someone_else r message);
    unfold markChatAsRead;
    try destruct (negb (bool_decide (is_Some (currentUser r)))
                  || negb (truthy (Message.chatId message)));
    split; reflexivity.
Qed.

Lemma take_if_newer_cases (message : Message.t) (chat : Chat.t) :
  (Chat.id chat <> Message.chatId message -> take_if_newer message chat = chat)
  /\ (Chat.id chat = Message.chatId message -> Chat.lastMessage chat = None ->
      take_if_newer message chat = Chat.with_lastMessage chat (Some message))
  /\ (forall lm, Chat.id chat = Message.chatId message ->
        Chat.lastMessage chat = Some lm -> time lm < time message ->
        take_if_newer message chat = Chat.with_lastMessage chat (Some message))
  /\ (forall lm, Chat.id chat = Message.chatId message ->
        Chat.lastMessage chat = Some lm -> time message <= time lm ->
        take_if_newer message chat = chat).
Proof.
  unfold take_if_newer. repeat split.
  - intros H. rewrite bool_decide_eq_false_2 by exact H. reflexivity.
  - intros H E. rewrite bool_decide_eq_true_2 by exact H. rewrite E. reflexivity.
  - intros lm H E Hlt. rewrite bool_decide_eq_true_2 by exact H. rewrite E.
    destruct (Z.gtb_spec (time message) (time lm)); [reflexivity|lia].
  - intros lm H E Hle. rewrite bool_decide_eq_true_2 by exact H. rewrite E.
    destruct (Z.gtb_spec (time message) (time lm)); [lia|reflexivity].
Qed.

Lemma from_someone_else_spec (r : Render) (message : Message.t) :
  from_someone_else r message = true
  <-> exists u, currentUser r = Some u /\ Message.userId message <> User.id u.
Proof.
  unfold from_someone_else. destruct (currentUser r) as [u|].
  - rewrite bool_decide_eq_true. split; [eauto|]. intros (u' & [= <-] & H). exact H.
  - split; [discriminate|]. intros (u & H & _). discriminate.
Qed.

(** C8, as the provider has it.  When [chat:message] arrives at a
    listener whose closure holds the conversation that is open:
    a message of the open conversation is appended to the message view
    (and the unread counter stays);
    any other message leaves the view alone and adds one to the unread
    counter of the provider, unless its author is the user or there is no
    user;
    and in both cases each chat keeps its place in the list, and takes the
    message as its last message exactly when it is the chat of the message
    and holds no last message or one created earlier; otherwise the chat
    is as before.
    The unread counter is the one cell [unreadMessagesCount], whatever the
    conversation.  Nothing is said of a listener whose closure holds
    another open conversation than the cells do. *)
Theorem C8_message_created_reconciled
    (r : Render) (message : Message.t) (m : Machine) :
  activeChat (seen r) = activeChat (state m) ->
  let s := state m in
  let s' := state (state_after (handleNewMessage r message) m) in
  let of_open_chat :=
    exists c, activeChat s = Some c /\ Message.chatId message = Chat.id c in
  outcome (handleNewMessage r message) m = Returned tt
  /\ (of_open_chat ->
        activeChatMessages s' = activeChatMessages s ++ [message]
        /\ unreadMessagesCount s' = unreadMessagesCount s)
  /\ (~ of_open_chat ->
        activeChatMessages s' = activeChatMessages s
        /\ ((exists u, currentUser r = Some u /\ Message.userId message <> User.id u) ->
            unreadMessagesCount s' = unreadMessagesCount s + 1)
        /\ ((exists u, currentUser r = Some u /\ Message.userId message = User.id u) ->
            unreadMessagesCount s' = unreadMessagesCount s)
        /\ (currentUser r = None ->
            unreadMessagesCount s' = unreadMessagesCount s))
  /\ length (chats s') = length (chats s)
  /\ (forall i chat, chats s !! i = Some chat ->
        exists chat', chats s' !! i = Some chat'
        /\ (Chat.id chat <> Message.chatId message -> chat' = chat)
        /\ (Chat.id chat = Message.chatId message -> Chat.lastMessage chat = None ->
            chat' = Chat.with_lastMessage chat (Some message))
        /\ (forall lm, Chat.id chat = Message.chatId message ->
              Chat.lastMessage chat = Some lm -> time lm < time message ->
              chat' = Chat.with_lastMessage chat (Some message))
        /\ (forall lm, Chat.id chat = Message.chatId message ->
              Chat.lastMessage chat = Some lm -> time message <= time lm ->
              chat' = chat)).
Proof.
  intros Hopen s s' of_open_chat.
  destruct (handleNewMessage_run r message m) as [Hret Hst].
  cbv zeta in Hst. fold s in Hst.
  assert (Hin : in_active_chat r message = true <-> of_open_chat).
  { rewrite in_active_chat_spec, Hopen. reflexivity. }
  split; [exact Hret|].
  split.
  { intros Ha. apply Hin in Ha. unfold s'. rewrite Hst. cbn. rewrite Ha.
    split; reflexivity. }
  split.
  { intros Ha.
    assert (Hf : in_active_chat r message = false).
    { destruct (in_active_chat r message); [|reflexivity].
      exfalso. apply Ha, Hin. reflexivity. }
    unfold s'. rewrite Hst. cbn. rewrite Hf.
    split; [reflexivity|]. split; [|split].
    - intros H. apply from_someone_else_spec in H. rewrite H. reflexivity.
    - intros (u & Hu & H). unfold from_someone_else. rewrite Hu.
      rewrite bool_decide_eq_false_2 by (intros Hne; apply Hne; exact H). reflexivity.
    - intros Hu. unfold from_someone_else. rewrite Hu. reflexivity. }
  split.
  { unfold s'. rewrite Hst. cbn. apply length_map. }
  intros i chat Hi. exists (take_if_newer message chat). split.
  { unfold s'. rewrite Hst. cbn. rewrite list_lookup_fmap, Hi. reflexivity. }
  apply take_if_newer_cases.
Qed.

(** C8 as stated fails: no counter is kept per conversation.  A
    counter of a conversation would go up by one with a message of that
    conversation and stay with a message of another one; the messages [m3]
    of [c2] and [m4] of [c3] leave alice's client in the same state. *)
Lemma C8_no_unread_counter_per_conversation :
  ~ (exists unread : State -> string -> Z,
       forall message : Message.t,
         in_active_chat Sample.r0 message = false ->
         Message.userId message <> User.id Sample.alice ->
         let s' := state (state_after (handleNewMessage Sample.r0 message) Sample.online) in
         unread s' (Message.chatId message)
         = unread Sample.s0 (Message.chatId message) + 1
         /\ (forall c, c <> Message.chatId message -> unread s' c = unread Sample.s0 c)).
Proof.
  intros [unread H].
  assert (Hsame :
    state (state_after (handleNewMessage Sample.r0 Sample.m3) Sample.online)
    = state (state_after (handleNewMessage Sample.r0 Sample.m4) Sample.online))
    by reflexivity.
  destruct (H Sample.m3 eq_refl ltac:(discriminate)) as [H3 _].
  destruct (H Sample.m4 eq_refl ltac:(discriminate)) as [_ H4].
  specialize (H4 "c2" ltac:(discriminate)).
  cbv zeta in H3, H4. rewrite <- Hsame in H4.
  change (Message.chatId Sample.m3) with "c2" in H3.
  rewrite H4 in H3. lia.
Qed.

(** The listener reads the open conversation of the render it was
    registered in: registered at login and run when [c1] is open, it takes
    bob's [m2] for a message of a conversation that is not open. *)
Lemma listener_reads_its_render :
  let s' := state (state_after (listener Sample.r_login (ChatMessage Sample.m2))
                     Sample.online) in
  activeChatMessages s' = [Sample.m1] /\ unreadMessagesCount s' = 1.
Proof. split; reflexivity. Qed.

(** C8 at bob's [m2] arriving while [c1] is open. *)
Lemma C8_witness :
  activeChatMessages (state (state_after (handleNewMessage Sample.r0 Sample.m2) Sample.online))
  = [Sample.m1; Sample.m2].
Proof.
  destruct (C8_message_created_reconciled Sample.r0 Sample.m2 Sample.online eq_refl)
    as (_ & Happ & _).
  rewrite (proj1 (Happ (ex_intro _ Sample.chat1 (conj eq_refl eq_refl)))). reflexivity.
Defined.

(** *** Sorting by creation time, newest first *)

Lemma insert_sorted_perm {A} (cmp : A -> A -> Z) (x : A) (l : list A) :
  insert_sorted cmp x l ≡ₚ x :: l.
Proof.
  induction l as [|y l IH]; [reflexivity|].
  cbn. destruct (cmp x y <=? 0); [reflexivity|].
  rewrite IH. apply Permutation_swap.
Qed.

Lemma sort_perm {A} (cmp : A -> A -> Z) (l : list A) : sort cmp l ≡ₚ l.
Proof.
  induction l as [|x l IH]; [reflexivity|].
  cbn. rewrite insert_sorted_perm, IH. reflexivity.
Qed.

Lemma insert_sorted_newest_first (x : Message.t) (l : list Message.t) :
  Sorted (fun a b => time b <= time a) l ->
  Sorted (fun a b => time b <= time a) (insert_sorted newest_first x l).
Proof.
  induction 1 as [|y l Hs IH Hhd]; [repeat constructor|].
  cbn. unfold newest_first at 1.
  destruct (Z.leb_spec (time y - time x) 0) as [Hle|Hgt].
  - constructor; [constructor; assumption|]. constructor. lia.
  - constructor; [exact IH|].
    destruct l as [|z l]; cbn.
    + constructor. lia.
    + unfold newest_first at 1.
      destruct (Z.leb_spec (time z - time x) 0); constructor; [lia|].
      inversion Hhd; assumption.
Qed.

Lemma sort_newest_first_sorted (l : list Message.t) :
  Sorted (fun a b => time b <= time a) (sort newest_first l).
Proof.
  induction l as [|x l IH]; [constructor|].
  cbn. apply insert_sorted_newest_first. exact IH.
Qed.

Lemma head_insert_sorted {A} (cmp : A -> A -> Z) (x : A) (l : list A) :
  head (insert_sorted cmp x l)
  = match head l with
    | None => Some x
    | Some y => if cmp x y <=? 0 then Some x else Some y
    end.
Proof.
  destruct l as [|y l]; [reflexivity|].
  cbn. destruct (cmp x y <=? 0); reflexivity.
Qed.

(** The head of the sorted list is a newest message of the list; there is
    none only when the list is empty. *)
Lemma head_sort_newest (l : list Message.t) :
  match head (sort newest_first l) with
  | Some n => n ∈ l /\ forall x, x ∈ l -> time x <= time n
  | None => l = []
  end.
Proof.
  induction l as [|x l IH]; [reflexivity|].
  cbn [sort foldr]. rewrite head_insert_sorted.
  fold (sort newest_first l).
  destruct (head (sort newest_first l)) as [y|].
  - destruct IH as [Hy Hmax]. unfold newest_first.
    destruct (Z.leb_spec (time y - time x) 0) as [Hle|Hgt].
    + split; [apply list_elem_of_here|].
      intros z Hz. apply elem_of_cons in Hz as [->|Hz]; [lia|].
      specialize (Hmax z Hz). lia.
    + split; [apply list_elem_of_further; exact Hy|].
      intros z Hz. apply elem_of_cons in Hz as [->|Hz]; [lia|].
      exact (Hmax z Hz).
  - subst l. split; [apply list_elem_of_here|].
    intros z Hz. apply elem_of_cons in Hz as [->|Hz]; [lia|].
    inversion Hz.
Qed.

(** *** [chat:message:delete] *)

Lemma handleMessageDelete_run (r : Render) (messageId : string) (m : Machine) :
  let s := state m in
  outcome (handleMessageDelete r messageId) m = Returned tt
  /\ state_after (handleMessageDelete r messageId) m
     = mkMachine
         (mkState
            (map (drop_lastMessage r messageId) (chats s))
            (activeChat s)
            (filter (fun msg => Message.id msg ≠ messageId) (activeChatMessages s))
            (loading s) (error s) (unreadMessagesCount s) (isConnected s))
         (socketRef m).
Proof. split; reflexivity. Qed.

(** What [newLastMessage] picks. *)
Lemma newLastMessage_newest (r : Render) (messageId : string) (chat : Chat.t) :
  let loaded := activeChatMessages (seen r) in
  match newLastMessage r messageId chat with
  | Some n =>
      n ∈ loaded /\ Message.id n <> messageId /\ Message.chatId n = Chat.id chat
      /\ forall x, x ∈ loaded -> Message.id x <> messageId ->
                   Message.chatId x = Chat.id chat -> time x <= time n
  | None =>
      forall x, x ∈ loaded -> Message.id x <> messageId ->
                Message.chatId x <> Chat.id chat
  end.
Proof.
  cbv zeta. unfold newLastMessage.
  set (kept := filter _ (activeChatMessages (seen r))).
  pose proof (head_sort_newest kept) as H.
  destruct (head (sort newest_first kept)) as [n|].
  - destruct H as [Hn Hmax].
    apply list_elem_of_filter in Hn as [[Hid Hchat] Hn].
    repeat split; try assumption.
    intros x Hx Hxid Hxchat. apply Hmax.
    apply list_elem_of_filter. auto.
  - intros x Hx Hxid Hxchat.
    assert (x ∈ kept) as Hk by (apply list_elem_of_filter; auto).
    rewrite H in Hk. inversion Hk.
Qed.

Lemma drop_lastMessage_cases (r : Render) (messageId : string) (chat : Chat.t) :
  (Chat.lastMessage chat = None -> drop_lastMessage r messageId chat = chat)
  /\ (forall lm, Chat.lastMessage chat = Some lm -> Message.id lm <> messageId ->
        drop_lastMessage r messageId chat = chat)
  /\ (forall lm, Chat.lastMessage chat = Some lm -> Message.id lm = messageId ->
        drop_lastMessage r messageId chat
        = Chat.with_lastMessage chat (newLastMessage r messageId chat)).
Proof.
  unfold drop_lastMessage. repeat split.
  - intros ->. reflexivity.
  - intros lm -> H. rewrite bool_decide_eq_false_2 by exact H. reflexivity.
  - intros lm -> H. rewrite bool_decide_eq_true_2 by exact H. reflexivity.
Qed.

(** After [chat:message] and then [chat:message:delete] for the id of
    that message, the message view holds no message of that id, and keeps
    every other message it held.  Each chat keeps its place; a chat whose
    last message is not the deleted one is as before; a chat whose last
    message is the deleted one gets as its last message a newest (by
    creation time) message, among those of this chat that have another
    id, of the list the closure of the listener holds, and none when that
    list has no such message. *)
Lemma created_then_deleted_by_closure
    (r0 r1 : Render) (message : Message.t) (m0 : Machine) :
  let m1 := state_after (handleNewMessage r0 message) m0 in
  let m2 := state_after (handleMessageDelete r1 (Message.id message)) m1 in
  let loaded := activeChatMessages (seen r1) in
  outcome (handleMessageDelete r1 (Message.id message)) m1 = Returned tt
  /\ (forall x, x ∈ activeChatMessages (state m2) ->
                Message.id x <> Message.id message)
  /\ (forall x, x ∈ activeChatMessages (state m0) ->
                Message.id x <> Message.id message ->
                x ∈ activeChatMessages (state m2))
  /\ length (chats (state m2)) = length (chats (state m1))
  /\ (forall i chat, chats (state m1) !! i = Some chat ->
        exists chat', chats (state m2) !! i = Some chat'
        /\ (Chat.lastMessage chat = None -> chat' = chat)
        /\ (forall lm, Chat.lastMessage chat = Some lm ->
              Message.id lm <> Message.id message -> chat' = chat)
        /\ (forall lm, Chat.lastMessage chat = Some lm ->
              Message.id lm = Message.id message ->
              chat' = Chat.with_lastMessage chat (Chat.lastMessage chat')
              /\ match Chat.lastMessage chat' with
                 | Some n =>
                     n ∈ loaded /\ Message.id n <> Message.id message
                     /\ Message.chatId n = Chat.id chat
                     /\ forall x, x ∈ loaded -> Message.id x <> Message.id message ->
                                  Message.chatId x = Chat.id chat -> time x <= time n
                 | None =>
                     forall x, x ∈ loaded -> Message.id x <> Message.id message ->
                               Message.chatId x <> Chat.id chat
                 end)).
Proof.
  intros m1 m2 loaded.
  destruct (handleNewMessage_run r0 message m0) as [_ H1].
  destruct (handleMessageDelete_run r1 (Message.id message) m1) as [Hret H2].
  cbv zeta in H1, H2. fold m1 in H1. fold m2 in H2.
  split; [exact Hret|].
  split.
  { intros x Hx. rewrite H2 in Hx. cbn in Hx.
    apply list_elem_of_filter in Hx as [Hid _]. exact Hid. }
  split.
  { intros x Hx Hid. rewrite H2. cbn.
    apply list_elem_of_filter. split; [exact Hid|].
    rewrite H1. cbn.
    destruct (in_active_chat r0 message); [|exact Hx].
    apply elem_of_app. left. exact Hx. }
  split.
  { rewrite H2. cbn. apply length_map. }
  intros i chat Hi.
  exists (drop_lastMessage r1 (Message.id message) chat). split.
  { rewrite H2. cbn. rewrite list_lookup_fmap, Hi. reflexivity. }
  destruct (drop_lastMessage_cases r1 (Message.id message) chat) as (Hn & Ho & Hd).
  split; [exact Hn|]. split; [exact Ho|].
  intros lm Hlm Hid. rewrite (Hd lm Hlm Hid).
  split; [reflexivity|]. cbn [Chat.with_lastMessage Chat.lastMessage].
  apply newLastMessage_newest.
Qed.

(** When the closure of the listener holds the message view as it stands,
    that is the most recent message of the chat that remains in the
    view. *)
Lemma created_then_deleted_in_step
    (r0 r1 : Render) (message : Message.t) (m0 : Machine) :
  let m1 := state_after (handleNewMessage r0 message) m0 in
  let m2 := state_after (handleMessageDelete r1 (Message.id message)) m1 in
  activeChatMessages (seen r1) = activeChatMessages (state m1) ->
  forall i chat lm,
    chats (state m1) !! i = Some chat ->
    Chat.lastMessage chat = Some lm -> Message.id lm = Message.id message ->
    exists chat',
      chats (state m2) !! i = Some chat'
      /\ match Chat.lastMessage chat' with
         | Some n =>
             n ∈ activeChatMessages (state m2) /\ Message.chatId n = Chat.id chat
             /\ forall x, x ∈ activeChatMessages (state m2) ->
                          Message.chatId x = Chat.id chat -> time x <= time n
         | None =>
             forall x, x ∈ activeChatMessages (state m2) ->
                       Message.chatId x <> Chat.id chat
         end.
Proof.
  intros m1 m2 Hsync i chat lm Hi Hlm Hid.
  destruct (created_then_deleted_by_closure r0 r1 message m0)
    as (_ & _ & _ & _ & Hchats).
  cbv zeta in Hchats. fold m1 m2 in Hchats.
  destruct (Hchats i chat Hi) as (chat' & Hi' & _ & _ & Hd).
  destruct (Hd lm Hlm Hid) as [_ Hnew].
  exists chat'. split; [exact Hi'|].
  assert (Hview : forall x, x ∈ activeChatMessages (state m2)
                  <-> x ∈ activeChatMessages (seen r1)
                      /\ Message.id x <> Message.id message).
  { intros x. rewrite Hsync.
    destruct (handleMessageDelete_run r1 (Message.id message) m1) as [_ H2].
    cbv zeta in H2. fold m2 in H2. rewrite H2. cbn.
    rewrite list_elem_of_filter. tauto. }
  destruct (Chat.lastMessage chat') as [n|].
  - destruct Hnew as (Hn & Hnid & Hnchat & Hmax).
    split; [apply Hview; auto|]. split; [exact Hnchat|].
    intros x Hx Hxchat. apply Hview in Hx as [Hx Hxid]. auto.
  - intros x Hx. apply Hview in Hx as [Hx Hxid]. auto.
Qed.

(** With the closure of the render that follows the arrival: bob's [m2]
    arrives in the open [c1] and becomes its last message; once it is
    deleted the view shows [m1] alone and [m1] is the last message again. *)
Lemma created_then_deleted_sample :
  let m1 := state_after (handleNewMessage Sample.r0 Sample.m2) Sample.online in
  let r1 := render (Some Sample.alice) (state m1) in
  let m2 := state_after (handleMessageDelete r1 "m2") m1 in
  map Chat.lastMessage (chats (state m1)) = [Some Sample.m2]
  /\ activeChatMessages (state m2) = [Sample.m1]
  /\ map Chat.lastMessage (chats (state m2)) = [Some Sample.m1].
Proof. repeat split. Qed.

(** C9, at the listeners the provider registers.  The effect that
    registers them runs when the user changes, so their closure is the
    render of the login: no chat open, no message loaded.  Alice has
    opened [c1] since, and the view shows [m1].  Bob's [m2] arrives in
    [c1] and becomes its last message; it is deleted; [m1] remains in the
    view, and yet [c1] is left without a last message: the projection is
    taken from the empty list of the closure, while the view is filtered
    through the updater, on the list as it stands. *)
Theorem C9_registered_listener_loses_the_projection :
  let m1 := state_after (listener Sample.r_login (ChatMessage Sample.m2)) Sample.online in
  let m2 := state_after (listener Sample.r_login (ChatMessageDelete "m2")) m1 in
  map Chat.lastMessage (chats (state Sample.online)) = [Some Sample.m1]
  /\ map Chat.lastMessage (chats (state m1)) = [Some Sample.m2]
  /\ activeChatMessages (state m2) = [Sample.m1]
  /\ Message.chatId Sample.m1 = "c1"
  /\ map (fun chat => (Chat.id chat, Chat.lastMessage chat)) (chats (state m2))
     = [("c1", None)].
Proof. repeat split. Qed.

(** *** Sending over the socket *)

(** C4, as the provider has it.  A send by a user, with a chat id and
    content that is not blank, over a connected socket, emits
    [sendMessage] and leaves every cell as it was: no message is added to
    the view.  When [chat:message] arrives for the open conversation, at a
    listener whose closure holds that conversation as open, the message is
    put at the end of the view whatever the view holds: no entry is looked
    up by id and none is marked. *)
Theorem C4_send_emits_and_view_waits_for_the_event
    (r : Render) (u : User.t) (chatId content : string) (m : Machine) :
  currentUser r = Some u -> truthy chatId = true -> truthy (trim content) = true ->
  socketRef m = Some true ->
  sendMessage r chatId content m
  = (Returned tt, m,
     [EmitSendMessage (Server.mkSendMessageData (Some chatId) (Some content))])
  /\ (forall (r' : Render) (message : Message.t) (m' : Machine) (c : Chat.t),
        activeChat (seen r') = activeChat (state m') ->
        activeChat (state m') = Some c ->
        Message.chatId message = Chat.id c ->
        activeChatMessages (state (state_after (handleNewMessage r' message) m'))
        = activeChatMessages (state m') ++ [message]).
Proof.
  intros Hu Hc Ht Hs. split.
  - exact (sendMessage_connected r u chatId content m Hu Hc Ht Hs).
  - intros r' message m' c Hopen Hactive Hchat.
    assert (Ha : in_active_chat r' message = true).
    { apply in_active_chat_spec. exists c. rewrite Hopen. auto. }
    destruct (handleNewMessage_run r' message m') as [_ H]. cbv zeta in H.
    rewrite H. cbn. rewrite Ha. reflexivity.
Qed.

(** C4 at alice sending to the open conversation. *)
Lemma C4_witness :
  sendMessage Sample.r0 "c1" "hello" Sample.online
  = (Returned tt, Sample.online,
     [EmitSendMessage (Server.mkSendMessageData (Some "c1") (Some "hello"))]).
Proof.
  exact (proj1 (C4_send_emits_and_view_waits_for_the_event
                  Sample.r0 Sample.alice "c1" "hello" Sample.online
                  eq_refl eq_refl eq_refl eq_refl)).
Defined.

(** C4 as stated fails: alice's send over the connected socket appends
    nothing to the message view. *)
Lemma C4_send_appends_no_pending_message :
  ~ (exists pending,
       activeChatMessages
         (state (state_after (sendMessage Sample.r0 "c1" "hello") Sample.online))
       = activeChatMessages (state Sample.online) ++ [pending]).
Proof. intros [pending H]. vm_compute in H. discriminate H. Qed.

End ClientFacts.

(** * More of the server *)

Module ServerMore.
Import Server ServerFacts.

Lemma try_catch_thrown {St Out A} (m h : Comp St Out A) w w1 out1 :
  m w = (Thrown, w1, out1) ->
  try_catch m h w = (let '(r, w2, out2) := h w1 in (r, w2, out1 ++ out2)).
Proof. intros H. unfold try_catch. rewrite H. reflexivity. Qed.

(** *** The branches of the handlers *)

Lemma sendMessage_incomplete (socket : Socket) (env : Env) (data : SendMessageData) (w : World) :
  falsy (sm_chatId data) || falsy (sm_content data) = true ->
  sendMessage socket env data w
  = (Returned tt, w,
     [mkEmission (socket_id socket) "error"
        (PError "Datos incompletos para enviar mensaje")]).
Proof. intros H. unfold sendMessage. rewrite H. reflexivity. Qed.

Lemma sendMessage_not_participant (socket : Socket) (env : Env) (data : SendMessageData)
    (w : World) :
  falsy (sm_chatId data) || falsy (sm_content data) = false ->
  Storage.isParticipant (store w) (field (sm_chatId data)) (user_id socket) = false ->
  sendMessage socket env data w
  = (Returned tt, w,
     [mkEmission (socket_id socket) "error"
        (PError "No eres participante de este chat")]).
Proof.
  intros H Hp. unfold sendMessage. rewrite H.
  apply try_catch_returned.
  unfold chatModel_isParticipant, get_store.
  unfold bind at 1. unfold bind at 1. cbn [get ret].
  cbn. rewrite Hp. reflexivity.
Qed.

Lemma fields_present (a b : option string) :
  falsy a || falsy b = false ->
  exists x y, a = Some x /\ b = Some y /\ truthy x = true /\ truthy y = true.
Proof.
  intros H. apply orb_false_iff in H as [Ha Hb].
  destruct (falsy_false _ Ha) as (x & -> & Hx).
  destruct (falsy_false _ Hb) as (y & -> & Hy). eauto 6.
Qed.

Lemma editMessage_unknown (socket : Socket) (env : Env) (data : EditMessageData) (w : World) :
  falsy (em_messageId data) || falsy (em_content data) = false ->
  Storage.getMessageById (store w) (field (em_messageId data)) = None ->
  editMessage socket env data w
  = (Returned tt, w,
     [mkEmission (socket_id socket) "error" (PError "Error al editar mensaje")]).
Proof.
  intros H Hm. unfold editMessage. rewrite H.
  erewrite try_catch_thrown; cycle 1.
  { unfold messageModel_getMessageById, get_store.
    unfold bind at 1. unfold bind at 1. cbn [get ret].
    cbn. unfold Storage.getMessageById in *. rewrite Hm. reflexivity. }
  reflexivity.
Qed.

Lemma editMessage_by_author (socket : Socket) (env : Env) (data : EditMessageData)
    (w : World) (m : Message.t) :
  falsy (em_messageId data) || falsy (em_content data) = false ->
  Storage.getMessageById (store w) (field (em_messageId data)) = Some m ->
  Message.userId m = user_id socket ->
  let content := field (em_content data) in
  editMessage socket env data w
  = (Returned tt,
     mkWorld (Storage.updateMessage (store w) (field (em_messageId data))
                (Storage.mkFields (Some content) (Some true) None))
             (connectedUsers w),
     map (fun s =>
            mkEmission s "chat:message:update"
              (PMessage
                 (Message.mk (Message.id m) content (Message.chatId m)
                    (Message.userId m) (Message.read m) (Message.deleted m) true
                    (Message.fileId m) (Message.fileName m)
                    (Message.createdAt m) (newDate env 0%nat))))
         (omap (recipient w)
               (Storage.getChatParticipants (store w) (Message.chatId m)))).
Proof.
  intros H Hm Hu content. unfold editMessage. rewrite H.
  apply try_catch_returned.
  unfold messageModel_getMessageById, get_store.
  unfold bind at 1. unfold bind at 1. cbn [get ret].
  cbn. unfold Storage.getMessageById in *. rewrite Hm.
  rewrite bool_decide_eq_false_2 by (intros Hne; apply Hne; exact Hu).
  cbn. rewrite notify_each_run. reflexivity.
Qed.

Lemma deleteMessage_incomplete (socket : Socket) (data : DeleteMessageData) (w : World) :
  falsy (dm_messageId data) = true ->
  deleteMessage socket data w
  = (Returned tt, w,
     [mkEmission (socket_id socket) "error" (PError "ID de mensaje requerido")]).
Proof. intros H. unfold deleteMessage. rewrite H. reflexivity. Qed.

Lemma deleteMessage_unknown (socket : Socket) (data : DeleteMessageData) (w : World) :
  falsy (dm_messageId data) = false ->
  Storage.getMessageById (store w) (field (dm_messageId data)) = None ->
  deleteMessage socket data w
  = (Returned tt, w,
     [mkEmission (socket_id socket) "error" (PError "Error al eliminar mensaje")]).
Proof.
  intros H Hm. unfold deleteMessage. rewrite H.
  erewrite try_catch_thrown; cycle 1.
  { unfold messageModel_getMessageById, get_store.
    unfold bind at 1. unfold bind at 1. cbn [get ret].
    cbn. unfold Storage.getMessageById in *. rewrite Hm. reflexivity. }
  reflexivity.
Qed.

Lemma deleteMessage_denied (socket : Socket) (data : DeleteMessageData) (w : World)
    (m : Message.t) :
  falsy (dm_messageId data) = false ->
  Storage.getMessageById (store w) (field (dm_messageId data)) = Some m ->
  Message.userId m <> user_id socket ->
  deleteMessage socket data w
  = (Returned tt, w,
     [mkEmission (socket_id socket) "error"
        (PError "No tienes permiso para eliminar este mensaje")]).
Proof.
  intros H Hm Hne. unfold deleteMessage. rewrite H.
  apply try_catch_returned.
  unfold messageModel_getMessageById, get_store.
  unfold bind at 1. unfold bind at 1. cbn [get ret].
  cbn. unfold Storage.getMessageById in *. rewrite Hm.
  rewrite (bool_decide_eq_true_2 _ Hne). reflexivity.
Qed.

Section SendFileMore.

Variable Buffer_from_base64 : string -> list Byte.byte.

Lemma sendFile_accepted (socket : Socket) (env : Env) (data : SendFileData) (w : World)
    (g1 base64Data : string) :
  falsy (sf_chatId data) || falsy (sf_filename data) || falsy (sf_data data) = false ->
  Storage.isParticipant (store w) (field (sf_chatId data)) (user_id socket) = true ->
  match_data_uri (field (sf_data data)) = Some (g1, base64Data) ->
  let chatId := field (sf_chatId data) in
  let filename := field (sf_filename data) in
  let buffer := Buffer_from_base64 base64Data in
  let row :=
    Storage.mkFile filename
      (or_default (sf_contentType data) "application/octet-stream")
      (or_length (sf_size data) (Z.of_nat (length buffer)))
      buffer (user_id socket) in
  let message :=
    Message.mk (uuidv4 env) ("Archivo: " ++ filename)%string chatId (user_id socket)
               false false false (Some (newFileId env)) (Some filename)
               (newDate env 0%nat) (newDate env 1%nat) in
  sendFile Buffer_from_base64 socket env data w
  = (Returned tt,
     mkWorld (Storage.updateLastMessageTime
                (Storage.createMessage
                   (Storage.saveFile (store w) (newFileId env) row) message)
                chatId (dbNow env))
             (connectedUsers w),
     map (fun s => mkEmission s "chat:message" (PMessage message))
         (omap (recipient w) (Storage.getChatParticipants (store w) chatId))).
Proof.
  intros H Hp Hm chatId filename buffer row message. unfold sendFile. rewrite H.
  apply try_catch_returned.
  unfold chatModel_isParticipant, get_store.
  unfold bind at 1. unfold bind at 1. cbn [get ret].
  cbn. rewrite Hp. cbn. rewrite Hm. cbn.
  rewrite notify_each_run.
  rewrite participants_after_send.
  f_equal.
Qed.

End SendFileMore.

(** *** Every run either rejects or goes through *)

Lemma deliveries_in_map (w : World) (ev : string) (p : Payload) (l : list string) (e : Emission) :
  e ∈ map (fun s => mkEmission s ev p) (omap (recipient w) l) ->
  event e = ev /\ payload e = p
  /\ exists u, u ∈ l /\ connectedUsers w !! u = Some (target e).
Proof.
  intros He. apply list_elem_of_fmap in He as (s & -> & Hs).
  apply list_elem_of_omap in Hs as (u & Hu & Hr).
  cbn. split; [reflexivity|]. split; [reflexivity|].
  exists u. split; [exact Hu|].
  unfold recipient in Hr. destruct (connectedUsers w !! u) as [s'|]; [|discriminate].
  destruct (truthy s'); [|discriminate]. congruence.
Qed.

Lemma run_fanned_out (ev : string) (h : Handler unit) (w : World)
    (st : Storage.t) (p : Payload) (l : list string) :
  h w = (Returned tt, mkWorld st (connectedUsers w),
         map (fun s => mkEmission s ev p) (omap (recipient w) l)) ->
  Runs.fanned_out ev h w.
Proof.
  intros Hrun. unfold Runs.fanned_out, outcome, state_after, emitted.
  rewrite Hrun. cbn. split; [reflexivity|]. split; [reflexivity|].
  intros e He. destruct (deliveries_in_map _ _ _ _ _ He) as (E & _ & u & _ & Hu).
  eauto.
Qed.

(** As long as the storage answers its calls, each of the four handlers,
    on every event and in every world, either rejects the event -- one
    [error] on the originating socket and the world, storage and presence
    map, as before -- or goes through: then no [error] goes out, the
    presence map is as before, and every delivery is the handler's own
    event sent to a socket of the presence map.  A storage call that
    throws after an earlier write is outside the model and outside this
    statement. *)
Theorem handlers_reject_or_fan_out
    (Buffer_from_base64 : string -> list Byte.byte)
    (socket : Socket) (env : Env) (w : World) :
  (forall data,
     Runs.rejected socket (sendMessage socket env data) w
     \/ Runs.fanned_out "chat:message" (sendMessage socket env data) w)
  /\ (forall data,
        Runs.rejected socket (editMessage socket env data) w
        \/ Runs.fanned_out "chat:message:update" (editMessage socket env data) w)
  /\ (forall data,
        Runs.rejected socket (deleteMessage socket data) w
        \/ Runs.fanned_out "chat:message:delete" (deleteMessage socket data) w)
  /\ (forall data,
        Runs.rejected socket (sendFile Buffer_from_base64 socket env data) w
        \/ Runs.fanned_out "chat:message"
             (sendFile Buffer_from_base64 socket env data) w).
Proof.
  repeat split; intros data.
  - destruct (falsy (sm_chatId data) || falsy (sm_content data)) eqn:H.
    { left. eexists. apply sendMessage_incomplete. exact H. }
    destruct (Storage.isParticipant (store w) (field (sm_chatId data)) (user_id socket))
      eqn:Hp.
    2:{ left. eexists. apply sendMessage_not_participant; assumption. }
    right. destruct (fields_present _ _ H) as (c & body & Ec & Eb & Tc & Tb).
    rewrite Ec in Hp. cbn in Hp.
    eapply run_fanned_out.
    exact (sendMessage_accepted socket env data w c body Ec Eb Tc Tb Hp).
  - destruct (falsy (em_messageId data) || falsy (em_content data)) eqn:H.
    { left. eexists. apply editMessage_incomplete. exact H. }
    destruct (Storage.getMessageById (store w) (field (em_messageId data)))
      as [m|] eqn:Hm.
    2:{ left. eexists. apply editMessage_unknown; assumption. }
    destruct (decide (Message.userId m = user_id socket)) as [Hu|Hu].
    2:{ left. eexists. eapply editMessage_denied; eassumption. }
    right. eapply run_fanned_out.
    exact (editMessage_by_author socket env data w m H Hm Hu).
  - destruct (falsy (dm_messageId data)) eqn:H.
    { left. eexists. apply deleteMessage_incomplete. exact H. }
    destruct (Storage.getMessageById (store w) (field (dm_messageId data)))
      as [m|] eqn:Hm.
    2:{ left. eexists. apply deleteMessage_unknown; assumption. }
    destruct (decide (Message.userId m = user_id socket)) as [Hu|Hu].
    2:{ left. eexists. eapply deleteMessage_denied; eassumption. }
    right. destruct (falsy_false _ H) as (mid & Em & Tm).
    rewrite Em in Hm. cbn in Hm.
    eapply run_fanned_out.
    exact (deleteMessage_by_author socket data w mid m Em Tm Hm Hu).
  - destruct (falsy (sf_chatId data) || falsy (sf_filename data) || falsy (sf_data data))
      eqn:H.
    { left. eexists. apply sendFile_incomplete. exact H. }
    destruct (Storage.isParticipant (store w) (field (sf_chatId data)) (user_id socket))
      eqn:Hp.
    2:{ left. eexists. apply sendFile_not_participant; assumption. }
    destruct (match_data_uri (field (sf_data data))) as [[g1 g2]|] eqn:Hm.
    2:{ left. eexists. apply sendFile_bad_format; assumption. }
    right. eapply run_fanned_out.
    exact (sendFile_accepted Buffer_from_base64 socket env data w g1 g2 H Hp Hm).
Qed.

(** *** Deleting and editing *)

(** A delete asked by somebody who is not the author of the stored
    message answers one [error] on the originating socket: the message
    keeps its [deleted] flag and nobody is told [chat:message:delete]. *)
Theorem delete_by_non_author_rejected
    (socket : Socket) (data : DeleteMessageData) (w : World)
    (mid : string) (m : Message.t) :
  dm_messageId data = Some mid -> truthy mid = true ->
  Storage.getMessageById (store w) mid = Some m ->
  Message.userId m <> user_id socket ->
  deleteMessage socket data w
  = (Returned tt, w,
     [mkEmission (socket_id socket) "error"
        (PError "No tienes permiso para eliminar este mensaje")]).
Proof.
  intros Em Tm Hm Hne. apply (deleteMessage_denied socket data w m).
  - rewrite Em. cbn. rewrite Tm. reflexivity.
  - rewrite Em. exact Hm.
  - exact Hne.
Qed.

Lemma delete_by_non_author_witness :
  deleteMessage Sample.bob_phone Sample.delete_m1 Sample.w1
  = (Returned tt, Sample.w1,
     [mkEmission "s3" "error"
        (PError "No tienes permiso para eliminar este mensaje")]).
Proof.
  apply (delete_by_non_author_rejected Sample.bob_phone Sample.delete_m1 Sample.w1
           "m1" Sample.m1); [reflexivity|reflexivity|reflexivity|].
  vm_compute. discriminate.
Defined.

(** An edit or a delete that names a message the storage does not hold
    ends in the [catch] of the handler: the generic [error] of the handler
    goes to the originating socket, the world is as before and nothing is
    delivered to anybody else. *)
Theorem unknown_message_answers_generic_error
    (socket : Socket) (env : Env) (w : World) (mid content : string) :
  truthy mid = true -> truthy content = true ->
  Storage.getMessageById (store w) mid = None ->
  editMessage socket env (mkEditMessageData (Some mid) (Some content)) w
  = (Returned tt, w,
     [mkEmission (socket_id socket) "error" (PError "Error al editar mensaje")])
  /\ deleteMessage socket (mkDeleteMessageData (Some mid)) w
     = (Returned tt, w,
        [mkEmission (socket_id socket) "error" (PError "Error al eliminar mensaje")]).
Proof.
  intros Tm Tc Hm. split.
  - apply editMessage_unknown; cbn; [rewrite Tm, Tc; reflexivity|exact Hm].
  - apply deleteMessage_unknown; cbn; [rewrite Tm; reflexivity|exact Hm].
Qed.

Lemma unknown_message_witness :
  editMessage Sample.alice_phone Sample.env0 Scenario.edit_unknown Sample.w1
  = (Returned tt, Sample.w1,
     [mkEmission "s1" "error" (PError "Error al editar mensaje")])
  /\ deleteMessage Sample.alice_phone Scenario.delete_unknown Sample.w1
     = (Returned tt, Sample.w1,
        [mkEmission "s1" "error" (PError "Error al eliminar mensaje")]).
Proof.
  apply (unknown_message_answers_generic_error Sample.alice_phone Sample.env0 Sample.w1
           "nope" "bye"); reflexivity.
Defined.

Lemma getChatParticipants_after_update (st : Storage.t) (i : string) (f : Storage.Fields)
    (c : string) :
  Storage.getChatParticipants (Storage.updateMessage st i f) c
  = Storage.getChatParticipants st c.
Proof. reflexivity. Qed.

(** An edit by the author writes the new body and sets [edited] on the
    stored message and keeps its id, conversation, author, [deleted] flag
    and creation time; no other message and no conversation row changes.
    Every delivery is [chat:message:update] carrying the message with the
    new body, [edited] set and the time of the edit as [updatedAt], and
    every participant of the message's conversation in the presence map
    gets one.  The [deleted] flag is not looked at: a deleted message is
    edited like any other. *)
Theorem edit_by_author_updates_and_fans_out
    (socket : Socket) (env : Env) (w : World) (mid content : string) (m : Message.t) :
  truthy mid = true -> truthy content = true ->
  Storage.getMessageById (store w) mid = Some m ->
  Message.userId m = user_id socket ->
  socket_ids_truthy w ->
  let run := editMessage socket env (mkEditMessageData (Some mid) (Some content)) in
  let w' := state_after run w in
  let updatedMessage :=
    Message.mk (Message.id m) content (Message.chatId m) (Message.userId m)
      (Message.read m) (Message.deleted m) true (Message.fileId m)
      (Message.fileName m) (Message.createdAt m) (newDate env 0%nat) in
  (exists m', Storage.getMessageById (store w') mid = Some m'
      /\ Message.content m' = content /\ Message.edited m' = true
      /\ Message.id m' = Message.id m /\ Message.chatId m' = Message.chatId m
      /\ Message.userId m' = Message.userId m
      /\ Message.deleted m' = Message.deleted m
      /\ Message.createdAt m' = Message.createdAt m)
  /\ (forall i, i <> mid ->
        Storage.getMessageById (store w') i = Storage.getMessageById (store w) i)
  /\ Storage.chats (store w') = Storage.chats (store w)
  /\ (forall e, e ∈ emitted run w ->
        event e = "chat:message:update" /\ payload e = PMessage updatedMessage)
  /\ (forall u s,
        u ∈ Storage.getChatParticipants (store w) (Message.chatId m) ->
        connectedUsers w !! u = Some s ->
        mkEmission s "chat:message:update" (PMessage updatedMessage) ∈ emitted run w).
Proof.
  intros Tm Tc Hm Hu Hwf run w' updatedMessage.
  assert (H : falsy (Some mid) || falsy (Some content) = false)
    by (cbn; rewrite Tm, Tc; reflexivity).
  pose proof (editMessage_by_author socket env
                (mkEditMessageData (Some mid) (Some content)) w m H Hm Hu) as Hrun.
  cbv zeta in Hrun. cbn [em_messageId em_content field default from_option id] in Hrun.
  fold updatedMessage in Hrun. fold run in Hrun.
  unfold w', state_after, emitted. rewrite Hrun. cbn [fst snd store].
  unfold Storage.getMessageById, Storage.updateMessage in *. cbn [Storage.messages Storage.chats].
  split.
  { eexists. rewrite lookup_alter_eq, Hm. cbn. repeat split; reflexivity. }
  split. { intros i Hi. rewrite lookup_alter_ne by congruence. reflexivity. }
  split; [reflexivity|].
  split.
  { intros e He. destruct (deliveries_in_map _ _ _ _ _ He) as (E1 & E2 & _). auto. }
  intros u s Hin Hs. apply list_elem_of_fmap. exists s. split; [reflexivity|].
  apply list_elem_of_omap. exists u. split; [exact Hin|].
  rewrite (recipient_connected w u Hwf). exact Hs.
Qed.

Lemma edit_by_author_witness :
  mkEmission "s3" "chat:message:update"
    (PMessage (Message.mk "m1" "bye" "c1" "alice" false false true None None 100 200))
  ∈ emitted (editMessage Sample.alice_phone Sample.env0 Sample.edit_m1) Sample.w1.
Proof.
  destruct (edit_by_author_updates_and_fans_out
              Sample.alice_phone Sample.env0 Sample.w1 "m1" "bye" Sample.m1
              eq_refl eq_refl eq_refl eq_refl sample_socket_ids_truthy)
    as (_ & _ & _ & _ & Hall).
  apply (Hall "bob" "s3"); [|reflexivity].
  vm_compute. apply list_elem_of_further, list_elem_of_here.
Defined.

(** *** Sending *)

(** A send that passes the checks stores the message under the fresh id,
    with the user of the socket as its author -- whatever the payload
    holds -- and the three flags down; it sets the last-message time of
    the conversation and changes no other message, no other conversation,
    no participant list and no file. *)
Theorem send_stores_message_of_socket_user
    (socket : Socket) (env : Env) (data : SendMessageData) (w : World)
    (c body : string) :
  sm_chatId data = Some c -> sm_content data = Some body ->
  truthy c = true -> truthy body = true ->
  Storage.isParticipant (store w) c (user_id socket) = true ->
  let st' := store (state_after (sendMessage socket env data) w) in
  (exists message,
      Storage.getMessageById st' (uuidv4 env) = Some message
      /\ Message.userId message = user_id socket
      /\ Message.chatId message = c /\ Message.content message = body
      /\ Message.read message = false /\ Message.deleted message = false
      /\ Message.edited message = false)
  /\ (forall i, i <> uuidv4 env ->
        Storage.getMessageById st' i = Storage.getMessageById (store w) i)
  /\ (exists row, Storage.chats (store w) !! c = Some row
        /\ Storage.chats st' !! c
           = Some (Storage.mkChat (Storage.chat_id row) (Storage.participants row)
                     (dbNow env)))
  /\ (forall c', c' <> c -> Storage.chats st' !! c' = Storage.chats (store w) !! c')
  /\ Storage.files st' = Storage.files (store w).
Proof.
  intros Ec Eb Tc Tb Hp st'.
  pose proof (sendMessage_accepted socket env data w c body Ec Eb Tc Tb Hp) as Hrun.
  cbv zeta in Hrun. unfold st', state_after. rewrite Hrun. cbn [fst snd store].
  unfold Storage.getMessageById, Storage.updateLastMessageTime, Storage.createMessage.
  cbn [Storage.messages Storage.chats Storage.files Message.id].
  split.
  { eexists. rewrite lookup_insert_eq. repeat split; reflexivity. }
  split. { intros i Hi. rewrite lookup_insert_ne by congruence. reflexivity. }
  split.
  { unfold Storage.isParticipant, Storage.getChatParticipants in Hp.
    destruct (Storage.chats (store w) !! c) as [row|] eqn:E.
    - exists row. split; [reflexivity|]. rewrite lookup_alter_eq, E. reflexivity.
    - apply bool_decide_eq_true in Hp. inversion Hp. }
  split. { intros c' Hc'. rewrite lookup_alter_ne by congruence. reflexivity. }
  reflexivity.
Qed.

Lemma send_stores_witness :
  exists message,
    Storage.getMessageById
      (store (state_after (sendMessage Sample.alice_phone Sample.env0 Sample.send_hi)
                Sample.w1)) "m2" = Some message
    /\ Message.userId message = "alice".
Proof.
  destruct (send_stores_message_of_socket_user
              Sample.alice_phone Sample.env0 Sample.send_hi Sample.w1 "c1" "hi"
              eq_refl eq_refl eq_refl eq_refl eq_refl)
    as ((message & Hm & Hu & _) & _).
  exists message. split; [exact Hm|exact Hu].
Defined.

(** The message a socket has just sent can be edited from that socket and
    from no socket of another user: the edit from the sender's socket
    goes through and the stored body is the new one; the edit from a
    socket of somebody else is rejected. *)
Theorem sender_alone_edits_what_it_sent
    (socket other : Socket) (env env' : Env) (data : SendMessageData) (w : World)
    (c body content : string) :
  sm_chatId data = Some c -> sm_content data = Some body ->
  truthy c = true -> truthy body = true ->
  Storage.isParticipant (store w) c (user_id socket) = true ->
  truthy (uuidv4 env) = true -> truthy content = true ->
  user_id other <> user_id socket ->
  let w1 := state_after (sendMessage socket env data) w in
  let edit := mkEditMessageData (Some (uuidv4 env)) (Some content) in
  (exists m',
      Storage.getMessageById (store (state_after (editMessage socket env' edit) w1))
        (uuidv4 env) = Some m'
      /\ Message.content m' = content /\ Message.edited m' = true)
  /\ Runs.fanned_out "chat:message:update" (editMessage socket env' edit) w1
  /\ editMessage other env' edit w1
     = (Returned tt, w1,
        [mkEmission (socket_id other) "error"
           (PError "No tienes permiso para editar este mensaje")]).
Proof.
  intros Ec Eb Tc Tb Hp Tu Tn Hother w1 edit.
  pose proof (sendMessage_accepted socket env data w c body Ec Eb Tc Tb Hp) as Hrun.
  cbv zeta in Hrun.
  set (message := Message.mk (uuidv4 env) body c (user_id socket) false false false
                    None None (newDate env 0%nat) (newDate env 1%nat)) in *.
  assert (Hm : Storage.getMessageById (store w1) (uuidv4 env) = Some message).
  { unfold w1, state_after. rewrite Hrun. cbn [fst snd store].
    unfold Storage.getMessageById, Storage.updateLastMessageTime, Storage.createMessage.
    cbn [Storage.messages Message.id]. apply lookup_insert_eq. }
  assert (H : falsy (em_messageId edit) || falsy (em_content edit) = false)
    by (cbn; rewrite Tu, Tn; reflexivity).
  pose proof (editMessage_by_author socket env' edit w1 message H Hm eq_refl) as Hedit.
  cbv zeta in Hedit. cbn [em_messageId em_content field default from_option id edit]
    in Hedit.
  split.
  { unfold state_after at 1. rewrite Hedit. cbn [fst snd store].
    unfold Storage.getMessageById, Storage.updateMessage in *.
    cbn [Storage.messages]. rewrite lookup_alter_eq, Hm.
    eexists. split; [reflexivity|]. split; reflexivity. }
  split. { eapply run_fanned_out. exact Hedit. }
  apply (editMessage_denied other env' edit w1 message H Hm).
  cbn. congruence.
Qed.

Lemma sender_alone_edits_witness :
  editMessage Sample.bob_phone Sample.env0
    (mkEditMessageData (Some "m2") (Some "bye"))
    (state_after (sendMessage Sample.alice_phone Sample.env0 Sample.send_hi) Sample.w1)
  = (Returned tt,
     state_after (sendMessage Sample.alice_phone Sample.env0 Sample.send_hi) Sample.w1,
     [mkEmission "s3" "error"
        (PError "No tienes permiso para editar este mensaje")]).
Proof.
  destruct (sender_alone_edits_what_it_sent
              Sample.alice_phone Sample.bob_phone Sample.env0 Sample.env0
              Sample.send_hi Sample.w1 "c1" "hi" "bye"
              eq_refl eq_refl eq_refl eq_refl eq_refl eq_refl eq_refl
              ltac:(vm_compute; discriminate))
    as (_ & _ & Hother).
  exact Hother.
Defined.

(** *** Attachments *)

(** The handler takes the data of an attachment exactly when it is
    [data:], a non-empty run, [;base64,] and a non-empty run, with no line
    terminator in either run; the two groups of a match are such runs. *)
Theorem data_uri_matches_iff (fileData : string) :
  (is_Some (match_data_uri fileData)
   <-> exists a b,
         fileData = ("data:" ++ a ++ ";base64," ++ b)%string
         /\ a <> EmptyString /\ b <> EmptyString
         /\ all_dot a = true /\ all_dot b = true)
  /\ (forall g1 g2, match_data_uri fileData = Some (g1, g2) ->
        fileData = ("data:" ++ g1 ++ ";base64," ++ g2)%string
        /\ g1 <> EmptyString /\ g2 <> EmptyString).
Proof.
  split.
  - split.
    + intros [[a b] H]. exists a, b. apply match_data_uri_sound. exact H.
    + intros (a & b & -> & Ha & Hb & Da & Db).
      apply match_data_uri_complete; assumption.
  - intros g1 g2 H.
    destruct (match_data_uri_sound _ _ _ H) as (E & H1 & H2 & _). auto.
Qed.

(** A participant that sends a well-formed attachment gets the file
    stored under the id the storage picks, with the decoded bytes, the
    name given and itself as uploader, and a message that refers to that
    file: [fileId] is the id of the stored file, [fileName] the name and
    the body [Archivo: ] followed by the name.  Without a size, or with
    size 0, the stored size is the number of decoded bytes; without a
    content type it is [application/octet-stream].  Every delivery is
    [chat:message] with this message. *)
Theorem file_and_message_are_stored_together
    (Buffer_from_base64 : string -> list Byte.byte)
    (socket : Socket) (env : Env) (data : SendFileData) (w : World)
    (g1 base64Data : string) :
  falsy (sf_chatId data) || falsy (sf_filename data) || falsy (sf_data data) = false ->
  Storage.isParticipant (store w) (field (sf_chatId data)) (user_id socket) = true ->
  match_data_uri (field (sf_data data)) = Some (g1, base64Data) ->
  let run := sendFile Buffer_from_base64 socket env data in
  let st' := store (state_after run w) in
  let filename := field (sf_filename data) in
  exists message row,
    Storage.getMessageById st' (uuidv4 env) = Some message
    /\ Storage.files st' !! newFileId env = Some row
    /\ Message.fileId message = Some (newFileId env)
    /\ Message.fileName message = Some filename
    /\ Message.content message = ("Archivo: " ++ filename)%string
    /\ Message.userId message = user_id socket
    /\ Storage.filename row = filename
    /\ Storage.uploaded_by row = user_id socket
    /\ Storage.data row = Buffer_from_base64 base64Data
    /\ (sf_size data = None \/ sf_size data = Some 0 ->
        Storage.size row = Z.of_nat (length (Buffer_from_base64 base64Data)))
    /\ (forall n, sf_size data = Some n -> n <> 0 -> Storage.size row = n)
    /\ (falsy (sf_contentType data) = true ->
        Storage.content_type row = "application/octet-stream")
    /\ (forall e, e ∈ emitted run w ->
          event e = "chat:message" /\ payload e = PMessage message).
Proof.
  intros H Hp Hm run st' filename.
  pose proof (sendFile_accepted Buffer_from_base64 socket env data w g1 base64Data
                H Hp Hm) as Hrun.
  cbv zeta in Hrun. fold run in Hrun. fold filename in Hrun.
  unfold st', state_after, emitted. rewrite Hrun. cbn [fst snd store].
  unfold Storage.getMessageById, Storage.updateLastMessageTime, Storage.createMessage,
    Storage.saveFile.
  cbn [Storage.messages Storage.files Message.id].
  eexists. eexists.
  split; [apply lookup_insert_eq|].
  split; [apply lookup_insert_eq|].
  cbn. repeat split.
  - intros [-> | ->]; reflexivity.
  - intros n -> Hn. cbn. destruct (Z.eqb_spec n 0); [contradiction|reflexivity].
  - intros Hc. unfold or_default. rewrite Hc. reflexivity.
  - destruct (deliveries_in_map _ _ _ _ _ H0) as (E & _). exact E.
  - destruct (deliveries_in_map _ _ _ _ _ H0) as (_ & E & _). exact E.
Qed.

Lemma file_and_message_witness :
  exists message row,
    Storage.getMessageById
      (store (state_after
                (sendFile Scenario.three_bytes Sample.alice_phone Sample.env0
                   Scenario.send_png) Sample.w1)) "m2" = Some message
    /\ Storage.files
         (store (state_after
                   (sendFile Scenario.three_bytes Sample.alice_phone Sample.env0
                      Scenario.send_png) Sample.w1)) !! "f1" = Some row
    /\ Message.fileId message = Some "f1"
    /\ Storage.size row = 3.
Proof.
  destruct (file_and_message_are_stored_together
              Scenario.three_bytes Sample.alice_phone Sample.env0 Scenario.send_png
              Sample.w1 "image/png" "AAAA" eq_refl eq_refl eq_refl)
    as (message & row & Hm & Hf & Hid & _ & _ & _ & _ & _ & _ & Hsize & _).
  exists message, row. split; [exact Hm|]. split; [exact Hf|]. split; [exact Hid|].
  rewrite Hsize by (left; reflexivity). reflexivity.
Defined.

(** A [sendFile] of somebody who is no participant of the conversation is
    rejected before the data is looked at: whatever the data, the answer
    is the participation [error] on the originating socket, and no file
    and no message is stored. *)
Theorem file_of_non_participant_rejected
    (Buffer_from_base64 : string -> list Byte.byte)
    (socket : Socket) (env : Env) (w : World)
    (c filename fileData : string) (contentType : option string) (size : option Z) :
  truthy c = true -> truthy filename = true -> truthy fileData = true ->
  Storage.isParticipant (store w) c (user_id socket) = false ->
  sendFile Buffer_from_base64 socket env
    (mkSendFileData (Some c) (Some filename) contentType size (Some fileData)) w
  = (Returned tt, w,
     [mkEmission (socket_id socket) "error"
        (PError "No eres participante de este chat")]).
Proof.
  intros Tc Tf Td Hp. apply sendFile_not_participant; cbn.
  - rewrite Tc, Tf, Td. reflexivity.
  - exact Hp.
Qed.

Lemma file_of_non_participant_witness :
  sendFile Scenario.three_bytes Sample.carol_phone Sample.env0 Scenario.send_png Sample.w1
  = (Returned tt, Sample.w1,
     [mkEmission "s4" "error" (PError "No eres participante de este chat")]).
Proof.
  apply (file_of_non_participant_rejected Scenario.three_bytes Sample.carol_phone
           Sample.env0 Sample.w1 "c1" "a.png" Scenario.png None None);
    reflexivity.
Defined.

(** *** The service object *)

Lemma notifyUser_run (u ev : string) (d : Payload) (w : World) :
  notifyUser u ev d w
  = (Returned tt, w,
     match recipient w u with
     | Some s => [mkEmission s ev d]
     | None => []
     end).
Proof. apply notify_one_run. Qed.

Lemma notifyChat_run (c ev : string) (d : Payload) (w : World) :
  notifyChat c ev d w
  = (Returned tt, w,
     map (fun s => mkEmission s ev d)
         (omap (recipient w) (Storage.getChatParticipants (store w) c))).
Proof.
  unfold notifyChat. apply try_catch_returned.
  unfold chatModel_getChatParticipants, get_store.
  unfold bind at 1. unfold bind at 1. cbn [get ret]. cbn.
  rewrite notify_each_run. reflexivity.
Qed.

(** [notifyChat] delivers what [notifyUser] would deliver to each
    participant of the conversation, in the order of the participants, and
    like [notifyUser] leaves the world as it is; for a conversation the
    storage does not hold, and for a user out of the presence map, nothing
    is delivered. *)
Theorem notifyChat_is_notifyUser_for_each_participant
    (c ev : string) (d : Payload) (w : World) :
  emitted (notifyChat c ev d) w
  = concat (map (fun u => emitted (notifyUser u ev d) w)
                (Storage.getChatParticipants (store w) c))
  /\ state_after (notifyChat c ev d) w = w
  /\ (forall u, state_after (notifyUser u ev d) w = w)
  /\ (Storage.chats (store w) !! c = None -> emitted (notifyChat c ev d) w = [])
  /\ (forall u, connectedUsers w !! u = None -> emitted (notifyUser u ev d) w = []).
Proof.
  unfold emitted, state_after. rewrite notifyChat_run. cbn [fst snd].
  split.
  { induction (Storage.getChatParticipants (store w) c) as [|u l IH]; [reflexivity|].
    cbn [omap list_omap map concat]. rewrite notifyUser_run. cbn [snd].
    destruct (recipient w u); cbn; rewrite IH; reflexivity. }
  split; [reflexivity|].
  split. { intros u. rewrite notifyUser_run. reflexivity. }
  split.
  { intros Hc. unfold Storage.getChatParticipants. rewrite Hc. reflexivity. }
  intros u Hu. rewrite notifyUser_run. unfold recipient. rewrite Hu. reflexivity.
Qed.

(** [getConnectedUsers] lists the users [isUserConnected] answers true
    for, each of them once. *)
Theorem getConnectedUsers_lists_the_connected (w : World) :
  (forall u, u ∈ getConnectedUsers w <-> isUserConnected w u = true)
  /\ NoDup (getConnectedUsers w)
  /\ length (getConnectedUsers w) = size (connectedUsers w).
Proof.
  unfold getConnectedUsers. split.
  { intros u. rewrite isUserConnected_lookup. rewrite list_elem_of_fmap. split.
    - intros ([k s] & -> & H). apply elem_of_map_to_list in H. eauto.
    - intros [s H]. exists (u, s). split; [reflexivity|].
      apply elem_of_map_to_list. exact H. }
  split; [apply NoDup_fst_map_to_list|].
  rewrite length_map. apply length_map_to_list.
Qed.

(** *** Connecting *)

(** A connection puts the id of the socket into the presence map under
    the user of the socket, in the place of whatever id was there, and
    touches no other entry and nothing of the storage.  All it sends is
    [user:online] for that user, to sockets of the presence map; every
    other participant of a conversation of the user that has a (non-empty)
    socket id in the map gets one. *)
Theorem connection_registers_and_announces (socket : Socket) (w : World) :
  let w' := state_after (connection socket) w in
  outcome (connection socket) w = Returned tt
  /\ connectedUsers w' !! user_id socket = Some (socket_id socket)
  /\ (forall u, u <> user_id socket -> connectedUsers w' !! u = connectedUsers w !! u)
  /\ store w' = store w
  /\ (forall e, e ∈ emitted (connection socket) w ->
        event e = "user:online" /\ payload e = PUser (user_id socket)
        /\ exists u, u <> user_id socket /\ connectedUsers w !! u = Some (target e))
  /\ (forall chat p s,
        chat ∈ Storage.getUserChats (store w) (user_id socket) ->
        p ∈ Storage.participants chat -> p <> user_id socket ->
        connectedUsers w !! p = Some s -> truthy s = true ->
        mkEmission s "user:online" (PUser (user_id socket))
          ∈ emitted (connection socket) w).
Proof.
  cbv zeta. unfold outcome, state_after, emitted. rewrite connection_run.
  cbn [fst snd store connectedUsers].
  split; [reflexivity|]. split; [apply lookup_insert_eq|].
  split. { intros u Hu. apply lookup_insert_ne. congruence. }
  split; [reflexivity|].
  split.
  - intros e He. apply list_elem_of_In, in_concat in He as (l & Hl & He).
    apply in_map_iff in Hl as (chat & <- & _).
    apply list_elem_of_In in He.
    destruct (deliveries_in_map _ _ _ _ _ He) as (E1 & E2 & u & Hu & Hs).
    split; [exact E1|]. split; [exact E2|].
    apply list_elem_of_filter in Hu as [Hne _].
    exists u. split; [exact Hne|].
    cbn [connectedUsers] in Hs. rewrite lookup_insert_ne in Hs by congruence. exact Hs.
  - intros chat p s Hchat Hp Hne Hs Ht.
    apply list_elem_of_In, in_concat. eexists. split.
    + apply in_map_iff. exists chat. split; [reflexivity|].
      apply list_elem_of_In. exact Hchat.
    + apply in_map_iff. exists s. split; [reflexivity|].
      apply list_elem_of_In, list_elem_of_omap. exists p. split.
      * apply list_elem_of_filter. split; assumption.
      * unfold recipient. cbn [connectedUsers].
        rewrite lookup_insert_ne by congruence.
        rewrite Hs, Ht. reflexivity.
Qed.

(** Opening a channel for a user that has none and closing it again gives
    the world back as it was; and whatever was in the map before, after
    the close the user is out of it. *)
Theorem connect_then_disconnect (socket : Socket) (w : World) :
  let w2 := state_after (disconnect socket) (state_after (connection socket) w) in
  isUserConnected w2 (user_id socket) = false
  /\ store w2 = store w
  /\ (forall u, u <> user_id socket -> connectedUsers w2 !! u = connectedUsers w !! u)
  /\ (connectedUsers w !! user_id socket = None -> w2 = w).
Proof.
  cbv zeta. unfold state_after. rewrite connection_run. cbn [fst snd].
  rewrite disconnect_run. cbn [fst snd store connectedUsers].
  split.
  { unfold isUserConnected. apply bool_decide_eq_false. cbn.
    rewrite lookup_delete_eq. intros [x Hx]. discriminate. }
  split; [reflexivity|].
  split.
  { intros u Hu. cbn. rewrite lookup_delete_ne, lookup_insert_ne by congruence.
    reflexivity. }
  intros Hnone. destruct w as [st cu]. cbn in *. f_equal.
  rewrite delete_insert_eq. apply delete_id. exact Hnone.
Qed.

Lemma connect_then_disconnect_sample :
  state_after (disconnect Sample.carol_phone)
    (state_after (connection Sample.carol_phone) Sample.w1) = Sample.w1.
Proof.
  destruct (connect_then_disconnect Sample.carol_phone Sample.w1) as (_ & _ & _ & H).
  apply H. reflexivity.
Defined.

End ServerMore.

(** * More of the client *)

Module ClientMore.
Import Client ClientFacts.

(** *** The guards and the two paths of the send calls *)

Lemma trim_start_blank (s : string) :
  trim_start s = EmptyString <-> Utils.all_white_space s = true.
Proof.
  induction s as [|c s IH]; [split; reflexivity|].
  cbn. destruct (is_white_space c); cbn; [exact IH|].
  split; discriminate.
Qed.

Lemma trim_start_head (s : string) (c : ascii) (t : string) :
  trim_start s = String c t -> is_white_space c = false.
Proof.
  induction s as [|d s IH]; [discriminate|].
  cbn. destruct (is_white_space d) eqn:E; [exact IH|].
  intros [= <- _]. exact E.
Qed.

Lemma trim_end_head (c : ascii) (t : string) :
  is_white_space c = false -> trim_end (String c t) <> EmptyString.
Proof.
  intros Hc. cbn. destruct (trim_end t); [rewrite Hc|]; discriminate.
Qed.

Lemma trim_blank (s : string) :
  trim s = EmptyString <-> Utils.all_white_space s = true.
Proof.
  rewrite <- trim_start_blank. unfold trim.
  destruct (trim_start s) as [|c t] eqn:E; [split; reflexivity|].
  split; [|discriminate].
  intros H. exfalso. exact (trim_end_head c t (trim_start_head s c t E) H).
Qed.

(** [sendMessage] does nothing at all -- no effect, the cells as before --
    exactly when there is no user, the chat id is empty or the content is
    made of white space only. *)
Theorem send_does_nothing_iff (r : Render) (chatId content : string) (m : Machine) :
  sendMessage r chatId content m = (Returned tt, m, [])
  <-> (currentUser r = None \/ chatId = EmptyString
       \/ Utils.all_white_space content = true).
Proof.
  unfold sendMessage. split.
  - intros H.
    destruct (currentUser r) as [u|] eqn:Hu; [|left; reflexivity].
    destruct chatId as [|c chatId]; [right; left; reflexivity|].
    right. right. apply trim_blank.
    destruct (trim content) as [|d t] eqn:Ht; [reflexivity|]. exfalso.
    rewrite bool_decide_eq_true_2 in H by eauto. cbn in H.
    unfold try_catch, bind, socket_connected, bind, get, ret, tell in H. cbn in H.
    destruct (default false (socketRef m)); discriminate H.
  - intros [H | [H | H]].
    + rewrite H. rewrite bool_decide_eq_false_2 by (intros [x Hx]; discriminate).
      reflexivity.
    + rewrite H. cbn. rewrite orb_true_r. reflexivity.
    + apply trim_blank in H. rewrite H. cbn. rewrite !orb_true_r. reflexivity.
Qed.

(** With a user, an id and content that is not blank, each of
    [sendMessage], [editMessage] and [deleteMessage] does one thing and
    leaves the cells alone: over a connected socket it emits its event,
    and otherwise -- no socket, or a socket that is not connected -- it
    calls the REST service instead; never both. *)
Theorem one_path_per_call
    (r : Render) (u : User.t) (chatId messageId content : string) (m : Machine) :
  currentUser r = Some u ->
  truthy chatId = true -> truthy messageId = true -> truthy (trim content) = true ->
  let connected := default false (socketRef m) in
  sendMessage r chatId content m
  = (Returned tt, m,
     [if connected
      then EmitSendMessage (Server.mkSendMessageData (Some chatId) (Some content))
      else Rest (PostMessage chatId content None)])
  /\ editMessage r messageId content m
     = (Returned tt, m,
        [if connected
         then EmitEditMessage (Server.mkEditMessageData (Some messageId) (Some content))
         else Rest (PutMessage messageId content)])
  /\ deleteMessage r messageId m
     = (Returned tt, m,
        [if connected
         then EmitDeleteMessage (Server.mkDeleteMessageData (Some messageId))
         else Rest (DeleteMessageCall messageId)]).
Proof.
  intros Hu Tc Tm Tt connected. unfold sendMessage, editMessage, deleteMessage.
  rewrite Hu, Tc, Tm, Tt. rewrite bool_decide_eq_true_2 by eauto. cbn [negb orb].
  unfold try_catch, bind, socket_connected, bind, get, ret, tell. cbn.
  fold connected. destruct connected; repeat split; reflexivity.
Qed.

Lemma one_path_witness :
  sendMessage Sample.r0 "c1" "hello" Scenario.offline
  = (Returned tt, Scenario.offline, [Rest (PostMessage "c1" "hello" None)]).
Proof.
  exact (proj1 (one_path_per_call Sample.r0 Sample.alice "c1" "m1" "hello"
                  Scenario.offline eq_refl eq_refl eq_refl eq_refl)).
Defined.

(** *** [chat:message:update] *)

Lemma handleMessageUpdate_run (r : Render) (updatedMessage : Message.t) (m : Machine) :
  let s := state m in
  handleMessageUpdate r updatedMessage m
  = (Returned tt,
     mkMachine
       (mkState
          (map (take_if_newer updatedMessage) (chats s))
          (activeChat s)
          (if in_active_chat r updatedMessage
           then map (fun msg =>
                       if bool_decide (Message.id msg = Message.id updatedMessage)
                       then updatedMessage else msg)
                    (activeChatMessages s)
           else activeChatMessages s)
          (loading s) (error s) (unreadMessagesCount s) (isConnected s))
       (socketRef m),
     []).
Proof.
  cbv zeta. unfold handleMessageUpdate.
  destruct (in_active_chat r updatedMessage); reflexivity.
Qed.

(** An update replaces, in the message view, the messages that carry the
    id of the updated message and touches no other: the view keeps its
    length and its sequence of ids, a view without that id is left as it
    is, and so is the view when the message is of a conversation that is
    not open.  Nothing is emitted and the unread counter stays. *)
Theorem update_replaces_by_id (r : Render) (updatedMessage : Message.t) (m : Machine) :
  let s := state m in
  let s' := state (state_after (handleMessageUpdate r updatedMessage) m) in
  emitted (handleMessageUpdate r updatedMessage) m = []
  /\ unreadMessagesCount s' = unreadMessagesCount s
  /\ map Message.id (activeChatMessages s') = map Message.id (activeChatMessages s)
  /\ (forall i msg, activeChatMessages s !! i = Some msg ->
        activeChatMessages s' !! i
        = Some (if bool_decide (in_active_chat r updatedMessage = true
                                /\ Message.id msg = Message.id updatedMessage)
                then updatedMessage else msg))
  /\ ((forall msg, msg ∈ activeChatMessages s ->
         Message.id msg <> Message.id updatedMessage) ->
      activeChatMessages s' = activeChatMessages s)
  /\ (in_active_chat r updatedMessage = false ->
      activeChatMessages s' = activeChatMessages s).
Proof.
  intros s s'. unfold s', emitted, state_after.
  rewrite handleMessageUpdate_run. cbn [fst snd state activeChatMessages
    unreadMessagesCount]. fold s.
  split; [reflexivity|]. split; [reflexivity|].
  destruct (in_active_chat r updatedMessage).
  - split.
    { induction (activeChatMessages s) as [|msg l IH]; [reflexivity|].
      cbn [map]. rewrite IH. f_equal.
      destruct (decide (Message.id msg = Message.id updatedMessage)) as [E|E].
      - rewrite bool_decide_eq_true_2 by exact E. symmetry. exact E.
      - rewrite bool_decide_eq_false_2 by exact E. reflexivity. }
    split.
    { intros i msg Hi. rewrite list_lookup_fmap, Hi. cbn.
      f_equal. repeat case_bool_decide; try reflexivity; tauto. }
    split; [|discriminate].
    intros Hnone. rewrite <- (map_id (activeChatMessages s)) at 2.
    apply map_ext_in. intros msg Hin.
    rewrite bool_decide_eq_false_2; [reflexivity|].
    apply Hnone, list_elem_of_In. exact Hin.
  - split; [reflexivity|]. split.
    { intros i msg Hi. rewrite Hi. reflexivity. }
    split; reflexivity.
Qed.

(** The chat list takes the updated message as last message of its chat
    only when it is newer than the cached one.  An edit of the cached last
    message itself -- same creation time -- therefore leaves the chat, and
    with it the body its last message shows, as it was. *)
Theorem edit_of_last_message_leaves_chat_list
    (r : Render) (updatedMessage : Message.t) (m : Machine) :
  (forall chat, chat ∈ chats (state m) ->
     Chat.id chat = Message.chatId updatedMessage ->
     exists lm, Chat.lastMessage chat = Some lm
                /\ Message.createdAt updatedMessage <= Message.createdAt lm) ->
  chats (state (state_after (handleMessageUpdate r updatedMessage) m))
  = chats (state m).
Proof.
  intros Hold. unfold state_after. rewrite handleMessageUpdate_run.
  cbn [fst snd state chats].
  rewrite <- (map_id (chats (state m))) at 2.
  apply map_ext_in. intros chat Hin. apply list_elem_of_In in Hin.
  destruct (take_if_newer_cases updatedMessage chat) as (Hne & _ & _ & Hle).
  destruct (decide (Chat.id chat = Message.chatId updatedMessage)) as [E|E];
    [|exact (Hne E)].
  destruct (Hold chat Hin E) as (lm & Hlm & Htime).
  exact (Hle lm E Hlm Htime).
Qed.

Lemma edit_of_last_message_witness :
  chats (state (state_after (handleMessageUpdate Sample.r0 Scenario.m1_edited)
                  Sample.online))
  = [Sample.chat1].
Proof.
  apply (edit_of_last_message_leaves_chat_list Sample.r0 Scenario.m1_edited Sample.online).
  intros chat Hin _. apply list_elem_of_singleton in Hin. subst chat.
  exists Sample.m1. split; [reflexivity|]. cbn. lia.
Defined.

(** *** The unread counter *)

Lemma count_unread_filter (u : User.t) (l : list Chat.t) :
  Chats.count_unread u l = Z.of_nat (length (List.filter (Chats.has_unread u) l)).
Proof.
  unfold Chats.count_unread.
  assert (G : forall acc,
    fold_left
      (fun unreadCount chat =>
         match Chat.lastMessage chat with
         | Some lm =>
             if negb (Message.read lm)
                && bool_decide (Message.userId lm ≠ User.id u)
             then unreadCount + 1 else unreadCount
         | None => unreadCount
         end) l acc
    = acc + Z.of_nat (length (List.filter (Chats.has_unread u) l))).
  { induction l as [|chat l IH]; intros acc; cbn [fold_left List.filter].
    - cbn. lia.
    - rewrite IH. unfold Chats.has_unread at 2.
      destruct (Chat.lastMessage chat) as [lm|]; [|reflexivity].
      destruct (negb (Message.read lm) && bool_decide (Message.userId lm ≠ User.id u));
        cbn [length]; lia. }
  rewrite G. lia.
Qed.

Lemma recalculateUnreadCount_run (r : Render) (u : User.t) (m : Machine) :
  currentUser r = Some u ->
  recalculateUnreadCount r m
  = (Returned tt,
     mkMachine
       (mkState (chats (state m)) (activeChat (state m)) (activeChatMessages (state m))
          (loading (state m)) (error (state m))
          (Chats.count_unread u (chats (seen r))) (isConnected (state m)))
       (socketRef m),
     []).
Proof. intros Hu. unfold recalculateUnreadCount. rewrite Hu. reflexivity. Qed.

(** Once the service has marked a chat as read, the last message of that
    chat is marked read in the chat list and no other chat changes; the
    unread counter is then set to the number of chats with an unread last
    message of somebody else, counted on the chat list the closure holds
    -- the list before the marking -- so it lies between 0 and the length
    of that list. *)
Theorem marking_read_counts_on_the_closure
    (r : Render) (u : User.t) (chatId : string) (m : Machine) :
  currentUser r = Some u ->
  let s := state m in
  let s' := state (state_after (markChatAsRead_resolved r chatId) m) in
  (forall i chat, chats s !! i = Some chat ->
     exists chat', chats s' !! i = Some chat'
       /\ (Chat.id chat <> chatId -> chat' = chat)
       /\ (Chat.lastMessage chat = None -> chat' = chat)
       /\ (forall lm, Chat.id chat = chatId -> Chat.lastMessage chat = Some lm ->
             chat' = Chat.with_lastMessage chat (Some (mark_read lm))))
  /\ unreadMessagesCount s'
     = Z.of_nat (length (List.filter (Chats.has_unread u) (chats (seen r))))
  /\ 0 <= unreadMessagesCount s' <= Z.of_nat (length (chats (seen r)))
  /\ emitted (markChatAsRead_resolved r chatId) m = [].
Proof.
  intros Hu s s'. unfold s', state_after, emitted, markChatAsRead_resolved.
  erewrite bind_unit_run by reflexivity.
  rewrite (recalculateUnreadCount_run r u _ Hu).
  cbn [fst snd state chats unreadMessagesCount app]. fold s.
  split.
  { intros i chat Hi. eexists. split.
    - rewrite list_lookup_fmap, Hi. reflexivity.
    - cbn beta. destruct (Chat.lastMessage chat) as [lm|] eqn:Hlm.
      + repeat split.
        * intros Hne. rewrite bool_decide_eq_false_2 by exact Hne. reflexivity.
        * discriminate.
        * intros lm' E [= <-]. rewrite bool_decide_eq_true_2 by exact E. reflexivity.
      + repeat split; discriminate. }
  rewrite count_unread_filter.
  split; [reflexivity|]. split; [|reflexivity].
  split; [lia|]. apply inj_le. apply filter_length_le.
Qed.

(** A chat just marked read still counts: the counter is taken from the
    list of the closure, where its last message is unread. *)
Lemma marking_read_witness :
  let s := mkState [Scenario.chat1_unread] None [] false None 1 true in
  let s' := state (state_after
                     (markChatAsRead_resolved (render (Some Sample.alice) s) "c1")
                     (mkMachine s None)) in
  map (fun chat => option_map Message.read (Chat.lastMessage chat)) (chats s') = [Some true]
  /\ unreadMessagesCount s' = 1.
Proof.
  cbv zeta.
  destruct (marking_read_counts_on_the_closure
              (render (Some Sample.alice)
                 (mkState [Scenario.chat1_unread] None [] false None 1 true))
              Sample.alice "c1"
              (mkMachine (mkState [Scenario.chat1_unread] None [] false None 1 true) None)
              eq_refl) as (_ & Hcount & _).
  split; [reflexivity|]. rewrite Hcount. reflexivity.
Defined.

(** *** The chat list *)

Lemma lift_run {A} (a : Client.Action A) (m : Machine) :
  Chats.lift a m
  = (let '(r, m', out) := a m in (r, m', map Chats.Provider out)).
Proof. unfold Chats.lift. destruct (a m) as [[r m'] out]. reflexivity. Qed.

(** Without a user [loadChats] does nothing.  The chats the service
    returns take the place of the chat list -- nothing of the old list is
    kept -- and the unread counter becomes the number of returned chats
    with an unread last message of somebody else, the number
    [recalculateUnreadCount] finds on that list; loading ends, and the
    open conversation and its messages stay as they are, whether or not
    the conversation is in the new list. *)
Theorem loaded_chats_replace_the_list
    (u : User.t) (userChats : list Chat.t) (m : Machine) :
  let s := state m in
  let m' := state_after (Chats.loadChats_resolved u userChats) m in
  let s' := state m' in
  (forall r, currentUser r = None -> Chats.loadChats r m = (Returned tt, m, []))
  /\ chats s' = userChats
  /\ unreadMessagesCount s'
     = Z.of_nat (length (List.filter (Chats.has_unread u) userChats))
  /\ unreadMessagesCount
       (state (state_after (recalculateUnreadCount (render (Some u) s')) m'))
     = unreadMessagesCount s'
  /\ loading s' = false
  /\ activeChat s' = activeChat s
  /\ activeChatMessages s' = activeChatMessages s
  /\ emitted (Chats.loadChats_resolved u userChats) m = [].
Proof.
  cbv zeta. split.
  { intros r Hr. unfold Chats.loadChats. rewrite Hr. reflexivity. }
  unfold state_after, emitted. rewrite <- count_unread_filter.
  repeat split.
Qed.

(** After a chat is left, the chat list holds the chats it held, in their
    order, but for those of the id that was left; when that chat was the
    open one (for the closure), no conversation is open and the message
    view is empty, otherwise both are as before. *)
Theorem leaving_removes_the_chat (r : Render) (chatId : string) (m : Machine) :
  let s := state m in
  let s' := state (state_after (Chats.leaveChat_resolved r chatId) m) in
  (forall chat, chat ∈ chats s' <-> chat ∈ chats s /\ Chat.id chat <> chatId)
  /\ sublist (chats s') (chats s)
  /\ (Chats.is_active_chat r chatId = true ->
        activeChat s' = None /\ activeChatMessages s' = [])
  /\ (Chats.is_active_chat r chatId = false ->
        activeChat s' = activeChat s /\ activeChatMessages s' = activeChatMessages s)
  /\ loading s' = false
  /\ unreadMessagesCount s' = unreadMessagesCount s.
Proof.
  cbv zeta. unfold state_after, Chats.leaveChat_resolved.
  destruct (Chats.is_active_chat r chatId) eqn:Ha; cbn.
  all: split; [intros chat; rewrite list_elem_of_filter; tauto|].
  all: split; [apply sublist_filter|].
  all: repeat split; discriminate.
Qed.

(** *** [chat:message:delete], again *)

Lemma drop_lastMessage_clean (r : Render) (messageId : string) (chat : Chat.t) (lm : Message.t) :
  Chat.lastMessage (drop_lastMessage r messageId chat) = Some lm ->
  Message.id lm <> messageId.
Proof.
  unfold drop_lastMessage.
  destruct (Chat.lastMessage chat) as [old|] eqn:Hold.
  - case_bool_decide as E.
    + cbn. intros Hn. pose proof (newLastMessage_newest r messageId chat) as H.
      cbv zeta in H. rewrite Hn in H. tauto.
    + rewrite Hold. intros [= <-]. exact E.
  - rewrite Hold. discriminate.
Qed.

Lemma drop_lastMessage_again (r r' : Render) (messageId : string) (chat : Chat.t) :
  drop_lastMessage r' messageId (drop_lastMessage r messageId chat)
  = drop_lastMessage r messageId chat.
Proof.
  pose proof (drop_lastMessage_clean r messageId chat) as Hclean.
  set (chat1 := drop_lastMessage r messageId chat) in *.
  destruct (drop_lastMessage_cases r' messageId chat1) as (Hnone & Hother & _).
  destruct (Chat.lastMessage chat1) as [lm|] eqn:Hlm.
  - apply (Hother lm eq_refl). apply Hclean. reflexivity.
  - apply Hnone. reflexivity.
Qed.

(** After [chat:message:delete] neither the message view nor the last
    message of any chat has the deleted id, and a second
    [chat:message:delete] for the same id -- through a listener of any
    render -- changes nothing and emits nothing. *)
Theorem delete_event_clears_the_id_for_good
    (r r' : Render) (messageId : string) (m : Machine) :
  let m1 := state_after (handleMessageDelete r messageId) m in
  (forall msg, msg ∈ activeChatMessages (state m1) -> Message.id msg <> messageId)
  /\ (forall chat lm, chat ∈ chats (state m1) -> Chat.lastMessage chat = Some lm ->
        Message.id lm <> messageId)
  /\ handleMessageDelete r' messageId m1 = (Returned tt, m1, []).
Proof.
  cbv zeta.
  destruct (handleMessageDelete_run r messageId m) as [_ ->].
  cbn [state chats activeChatMessages]. split; [|split].
  - intros msg Hmsg. apply list_elem_of_filter in Hmsg. tauto.
  - intros chat lm Hchat Hlm.
    apply list_elem_of_fmap in Hchat as (chat0 & -> & _).
    exact (drop_lastMessage_clean r messageId chat0 lm Hlm).
  - set (m1 := mkMachine _ _).
    destruct (handleMessageDelete_run r' messageId m1) as [Hout Hst].
    unfold outcome, state_after in Hout, Hst.
    assert (He : snd (handleMessageDelete r' messageId m1) = []) by reflexivity.
    destruct (handleMessageDelete r' messageId m1) as [[o m2] out].
    cbn in Hout, Hst, He. subst o m2 out. f_equal. f_equal.
    unfold m1. cbn [state chats activeChat activeChatMessages loading error
                    unreadMessagesCount isConnected socketRef].
    f_equal. f_equal.
    + rewrite <- list_fmap_compose. apply list_fmap_ext.
      intros i chat _. apply drop_lastMessage_again.
    + rewrite list_filter_filter. apply list_filter_iff. tauto.
Qed.

(** *** Opening and creating chats *)

Lemma find_by_id_none (chatId : string) (l : list Chat.t) :
  (forall c, c ∈ l -> Chat.id c <> chatId) ->
  find (fun c => bool_decide (Chat.id c = chatId)) l = None.
Proof.
  intros H. induction l as [|c l IH]; [reflexivity|].
  cbn. rewrite bool_decide_eq_false_2 by (apply H; left).
  apply IH. intros c' Hc'. apply H. right. exact Hc'.
Qed.

Lemma find_by_id_some (chatId : string) (l : list Chat.t) (c : Chat.t) :
  c ∈ l -> Chat.id c = chatId ->
  exists c', find (fun c => bool_decide (Chat.id c = chatId)) l = Some c'
             /\ c' ∈ l /\ Chat.id c' = chatId.
Proof.
  intros Hc Hid. induction l as [|x l IH]; [inversion Hc|].
  cbn. case_bool_decide as E.
  - exists x. repeat split; [left|exact E].
  - inversion Hc; subst; [contradiction|].
    destruct IH as (c' & Hf & Hin & Hid'); [assumption|].
    exists c'. repeat split; [exact Hf|right; exact Hin|exact Hid'].
Qed.

Lemma setActiveChat_opens (r : Render) (chatId : string) (chat : Chat.t) (m : Machine) :
  find (fun c => bool_decide (Chat.id c = chatId)) (chats (seen r)) = Some chat ->
  Chats.setActiveChat r chatId m
  = (Returned tt,
     mkMachine
       (mkState (chats (state m)) (Some chat) (activeChatMessages (state m)) true
          (error (state m)) (unreadMessagesCount (state m)) (isConnected (state m)))
       (socketRef m),
     [Chats.Provider (Rest (GetMessages chatId))]).
Proof. intros H. unfold Chats.setActiveChat. rewrite H. reflexivity. Qed.

Lemma setActiveChat_unknown (r : Render) (chatId : string) (m : Machine) :
  (forall c, c ∈ chats (seen r) -> Chat.id c <> chatId) ->
  Chats.setActiveChat r chatId m = (Returned tt, m, []).
Proof.
  intros H. unfold Chats.setActiveChat. rewrite (find_by_id_none _ _ H). reflexivity.
Qed.

(** [setActiveChat] looks the id up in the chat list of its closure.  An
    id of no chat there changes nothing and asks for nothing.  Otherwise
    a chat of that list with this id becomes the open conversation,
    loading starts and the messages of the id are asked for -- once --
    while the message view still shows what it showed. *)
Theorem opening_a_chat (r : Render) (chatId : string) (m : Machine) :
  let s := state m in
  let s' := state (state_after (Chats.setActiveChat r chatId) m) in
  ((forall c, c ∈ chats (seen r) -> Chat.id c <> chatId) ->
     Chats.setActiveChat r chatId m = (Returned tt, m, []))
  /\ (forall c, c ∈ chats (seen r) -> Chat.id c = chatId ->
        (exists chat, activeChat s' = Some chat
                      /\ chat ∈ chats (seen r) /\ Chat.id chat = chatId)
        /\ loading s' = true
        /\ activeChatMessages s' = activeChatMessages s
        /\ chats s' = chats s
        /\ emitted (Chats.setActiveChat r chatId) m
           = [Chats.Provider (Rest (GetMessages chatId))]).
Proof.
  cbv zeta. split; [apply setActiveChat_unknown|].
  intros c Hc Hid.
  destruct (find_by_id_some chatId _ c Hc Hid) as (chat & Hf & Hin & Hid').
  unfold state_after, emitted. rewrite (setActiveChat_opens r chatId chat m Hf).
  cbn. repeat split. exists chat. auto.
Qed.

Lemma findExistingPrivateChat_spec (r : Render) (u : User.t) (userId : string) :
  currentUser r = Some u ->
  let private_with chat :=
    Chat.isGroup chat = false
    /\ userId ∈ Chat.participants chat /\ User.id u ∈ Chat.participants chat in
  match Chats.findExistingPrivateChat r userId with
  | Some existing => existing ∈ chats (seen r) /\ private_with existing
  | None => forall chat, chat ∈ chats (seen r) -> ~ private_with chat
  end.
Proof.
  intros Hu. cbv zeta. unfold Chats.findExistingPrivateChat. rewrite Hu.
  induction (chats (seen r)) as [|x l IH]; cbn [find].
  - intros chat Hchat. inversion Hchat.
  - destruct (negb (Chat.isGroup x) && bool_decide (userId ∈ Chat.participants x)
              && bool_decide (User.id u ∈ Chat.participants x)) eqn:E.
    + apply andb_prop in E as [E E3]. apply andb_prop in E as [E1 E2].
      apply bool_decide_eq_true_1 in E2, E3. apply negb_true_iff in E1.
      split; [left|auto].
    + destruct (find _ l) as [existing|].
      * destruct IH as [Hin Hp]. split; [right; exact Hin|exact Hp].
      * intros chat Hchat (P1 & P2 & P3).
        inversion Hchat; subst.
        -- rewrite P1 in E. cbn in E.
           rewrite !bool_decide_eq_true_2 in E by assumption. discriminate.
        -- apply (IH chat); auto.
Qed.

(** [createPrivateChat] asks the service for a chat exactly when the chat
    list of its closure has no private chat with both the other user and
    the current user among its participants.  When it has one, such a
    chat is returned, a chat with its id is opened and its messages are
    asked for, and no chat is created. *)
Theorem private_chat_is_reused
    (r : Render) (u : User.t) (userId : string) (m : Machine) :
  currentUser r = Some u ->
  let private_with chat :=
    Chat.isGroup chat = false
    /\ userId ∈ Chat.participants chat /\ User.id u ∈ Chat.participants chat in
  let s' := state (state_after (Chats.createPrivateChat r userId) m) in
  ((exists chat, chat ∈ chats (seen r) /\ private_with chat) ->
     exists existing opened,
       outcome (Chats.createPrivateChat r userId) m = Returned (Some existing)
       /\ existing ∈ chats (seen r) /\ private_with existing
       /\ activeChat s' = Some opened /\ Chat.id opened = Chat.id existing
       /\ emitted (Chats.createPrivateChat r userId) m
          = [Chats.Provider (Rest (GetMessages (Chat.id existing)))])
  /\ ((forall chat, chat ∈ chats (seen r) -> ~ private_with chat) ->
        outcome (Chats.createPrivateChat r userId) m = Returned None
        /\ emitted (Chats.createPrivateChat r userId) m
           = [Chats.ChatService (Chats.CreatePrivateChat userId)]
        /\ loading s' = true
        /\ chats s' = chats (state m)
        /\ activeChat s' = activeChat (state m)).
Proof.
  intros Hu. cbv zeta.
  pose proof (findExistingPrivateChat_spec r u userId Hu) as Hspec. cbv zeta in Hspec.
  unfold outcome, state_after, emitted, Chats.createPrivateChat. rewrite Hu.
  destruct (Chats.findExistingPrivateChat r userId) as [existing|].
  - destruct Hspec as [Hin Hp]. split.
    + intros _.
      destruct (find_by_id_some (Chat.id existing) _ existing Hin eq_refl)
        as (opened & Hf & _ & Hid).
      exists existing, opened.
      erewrite bind_unit_run by (apply setActiveChat_opens; exact Hf).
      cbn. repeat split; tauto.
    + intros Hnone. exfalso. exact (Hnone existing Hin Hp).
  - split.
    + intros (chat & Hin & Hp). exfalso. exact (Hspec chat Hin Hp).
    + intros _. cbn. repeat split.
Qed.

Lemma private_chat_is_reused_witness :
  exists existing opened,
    outcome (Chats.createPrivateChat Sample.r0 "bob") (mkMachine Sample.s0 None)
    = Returned (Some existing)
    /\ Chat.id opened = Chat.id existing.
Proof.
  destruct (private_chat_is_reused Sample.r0 Sample.alice "bob"
              (mkMachine Sample.s0 None) eq_refl) as [H _].
  destruct H as (existing & opened & Ho & _ & _ & _ & Hid & _).
  - exists Sample.chat1. split; [left|].
    repeat split; apply list_elem_of_In; cbn; tauto.
  - exists existing, opened. split; [exact Ho|exact Hid].
Defined.

(** A chat the service has just created -- private or group -- is put at
    the end of the chat list and returned, but not opened: its id is
    looked up in the chat list of the closure, which was taken before the
    chat was added, so when no chat there has this id the open
    conversation stays as it was and no messages are asked for. *)
Theorem created_chat_is_listed_not_opened
    (r : Render) (newChat : Chat.t) (m : Machine) :
  (forall c, c ∈ chats (seen r) -> Chat.id c <> Chat.id newChat) ->
  let s := state m in
  let done :=
    (Returned (Some newChat),
     mkMachine
       (mkState (chats s ++ [newChat]) (activeChat s) (activeChatMessages s) false
          (error s) (unreadMessagesCount s) (isConnected s))
       (socketRef m),
     @nil Chats.Effect) in
  Chats.createPrivateChat_resolved r newChat m = done
  /\ Chats.createGroupChat_resolved r newChat m = done.
Proof.
  intros Hnew. cbv zeta.
  unfold Chats.createPrivateChat_resolved, Chats.createGroupChat_resolved.
  split.
  all: erewrite bind_unit_run by reflexivity.
  all: erewrite bind_unit_run by (apply setActiveChat_unknown; exact Hnew).
  all: reflexivity.
Qed.

Lemma created_chat_witness :
  activeChat (state (state_after
                (Chats.createPrivateChat_resolved Sample.r0 Scenario.chat2)
                (mkMachine Sample.s0 None)))
  = activeChat Sample.s0.
Proof.
  unfold state_after.
  rewrite (proj1 (created_chat_is_listed_not_opened Sample.r0 Scenario.chat2
                    (mkMachine Sample.s0 None)
                    ltac:(intros c Hc; apply list_elem_of_In in Hc;
                          cbn in Hc; destruct Hc as [<-|[]]; discriminate))).
  reflexivity.
Defined.

End ClientMore.

(** ** The utilities *)

Module UtilsFacts.
Import Utils.

Lemma length_append (a b : string) :
  String.length (a ++ b) = (String.length a + String.length b)%nat.
Proof.
  induction a as [|c a IH]; [reflexivity|].
  rewrite ServerFacts.append_cons. cbn [String.length]. rewrite IH. reflexivity.
Qed.

Lemma string_take_length (n : nat) (s : string) :
  String.length (string_take n s) = Nat.min n (String.length s).
Proof.
  revert s. induction n as [|n IH]; intros [|c s]; cbn; try reflexivity.
  rewrite IH. reflexivity.
Qed.

Lemma string_take_prefix (n : nat) (s : string) :
  exists rest, s = (string_take n s ++ rest)%string.
Proof.
  revert s. induction n as [|n IH]; intros s.
  - exists s. destruct s; reflexivity.
  - destruct s as [|c s]; [exists EmptyString; reflexivity|].
    destruct (IH s) as [rest Hrest]. exists rest.
    cbn [string_take]. rewrite ServerFacts.append_cons, <- Hrest. reflexivity.
Qed.

(** [truncateText] never returns more than [maxLength] characters and the
    three dots (a negative [maxLength] counting as 0).  A text that is
    not empty and longer than [maxLength] comes back as its first [maxLength] characters and the
    dots, which is [maxLength + 3] characters -- more than the text had
    when fewer than three were cut. *)
Theorem truncateText_length (text : string) (maxLength : Z) :
  let result := truncateText text maxLength in
  Z.of_nat (String.length result) <= Z.max maxLength 0 + 3
  /\ (text <> EmptyString -> maxLength < Z.of_nat (String.length text) ->
        Z.of_nat (String.length result) = Z.max maxLength 0 + 3
        /\ exists kept cut,
             text = (kept ++ cut)%string /\ result = (kept ++ "...")%string
             /\ Z.of_nat (String.length kept) = Z.max maxLength 0).
Proof.
  cbv zeta. unfold truncateText.
  destruct text as [|c text]; [cbn; split; [lia|congruence]|].
  cbn [truthy negb].
  assert (Hlong : maxLength < Z.of_nat (String.length (String c text)) ->
    Z.of_nat (String.length (string_take (Z.to_nat maxLength) (String c text)))
    = Z.max maxLength 0).
  { intros H. rewrite string_take_length. lia. }
  change (truthy (String c text)) with true. cbn [negb].
  destruct (Z.leb_spec (Z.of_nat (String.length (String c text))) maxLength) as [Hle|Hgt].
  - split; lia.
  - rewrite length_append. change (String.length "...") with 3%nat.
    specialize (Hlong Hgt). split; [lia|].
    intros _ _. split; [lia|].
    destruct (string_take_prefix (Z.to_nat maxLength) (String c text)) as [cut Hcut].
    exists (string_take (Z.to_nat maxLength) (String c text)), cut.
    repeat split; [exact Hcut|exact Hlong].
Qed.

Lemma all_email_chars_app (a b : string) :
  all_email_chars (a ++ b) = all_email_chars a && all_email_chars b.
Proof.
  induction a as [|c a IH]; [reflexivity|].
  rewrite ServerFacts.append_cons. cbn [all_email_chars]. rewrite IH.
  apply andb_assoc.
Qed.

Lemma truthy_nonempty (s : string) : truthy s = true <-> s <> EmptyString.
Proof. destruct s; cbn; split; intros H; congruence. Qed.

Lemma match_domain_iff (s : string) :
  match_domain s = true
  <-> exists b c, s = (b ++ "." ++ c)%string
        /\ b <> EmptyString /\ c <> EmptyString
        /\ all_email_chars b = true /\ all_email_chars c = true.
Proof.
  induction s as [|ch s IH].
  - split; [discriminate|].
    intros (b & c & E & Hb & _). destruct b; [congruence|discriminate].
  - cbn [match_domain]. rewrite andb_true_iff, orb_true_iff, IH. split.
    + intros [Hch [(b & c & -> & Hb & Hc & Ab & Ac)|Hdot]].
      * exists (String ch b), c. rewrite ServerFacts.append_cons.
        cbn [all_email_chars]. rewrite Hch, Ab. repeat split; auto; discriminate.
      * destruct s as [|d rest]; [discriminate|].
        apply andb_true_iff in Hdot as [Hdot Ar].
        apply andb_true_iff in Hdot as [Hd Hr].
        apply Ascii.eqb_eq in Hd. subst d.
        exists (String ch EmptyString), rest.
        cbn [all_email_chars]. rewrite Hch.
        repeat split; auto; try discriminate. apply truthy_nonempty. exact Hr.
    + intros (b & c & E & Hb & Hc & Ab & Ac).
      destruct b as [|ch' b]; [congruence|].
      rewrite ServerFacts.append_cons in E. injection E as <- ->.
      cbn [all_email_chars] in Ab. apply andb_true_iff in Ab as [Hch Ab].
      split; [exact Hch|].
      destruct b as [|ch2 b].
      * right. rewrite ServerFacts.append_empty.
        change ("." ++ c)%string with (String "." c). cbv beta iota.
        rewrite Ascii.eqb_refl, Ac. apply truthy_nonempty in Hc. rewrite Hc. reflexivity.
      * left. exists (String ch2 b), c. repeat split; auto.
Qed.

(** [isValidEmail] accepts exactly the strings made of a local part, one
    [@], a domain part, a dot and a last part, where the three parts are
    not empty and hold neither white space nor [@].  So an accepted
    string holds exactly one [@]; a second dot, also right after the
    first, is accepted. *)
Theorem isValidEmail_iff (email : string) :
  isValidEmail email = true
  <-> exists a b c, email = (a ++ "@" ++ b ++ "." ++ c)%string
        /\ a <> EmptyString /\ b <> EmptyString /\ c <> EmptyString
        /\ all_email_chars a = true /\ all_email_chars b = true
        /\ all_email_chars c = true.
Proof.
  unfold isValidEmail. induction email as [|ch s IH].
  - split; [discriminate|].
    intros (a & b & c & E & Ha & _). destruct a; [congruence|discriminate].
  - cbn [match_email]. rewrite andb_true_iff, orb_true_iff, IH. split.
    + intros [Hch [(a & b & c & -> & Ha & Hb & Hc & Aa & Ab & Ac)|Hat]].
      * exists (String ch a), b, c. rewrite ServerFacts.append_cons.
        cbn [all_email_chars]. rewrite Hch, Aa. repeat split; auto; discriminate.
      * destruct s as [|d rest]; [discriminate|].
        apply andb_true_iff in Hat as [Hd Hdom].
        apply Ascii.eqb_eq in Hd. subst d.
        apply match_domain_iff in Hdom as (b & c & -> & Hb & Hc & Ab & Ac).
        exists (String ch EmptyString), b, c.
        cbn [all_email_chars]. rewrite Hch.
        repeat split; auto.
    + intros (a & b & c & E & Ha & Hb & Hc & Aa & Ab & Ac).
      destruct a as [|ch' a]; [congruence|].
      rewrite ServerFacts.append_cons in E. injection E as <- ->.
      cbn [all_email_chars] in Aa. apply andb_true_iff in Aa as [Hch Aa].
      split; [exact Hch|].
      destruct a as [|ch2 a].
      * right. rewrite ServerFacts.append_empty.
        change ("@" ++ b ++ "." ++ c)%string with (String "@" (b ++ "." ++ c)).
        cbv beta iota. rewrite Ascii.eqb_refl. cbn [andb].
        apply match_domain_iff. exists b, c. repeat split; auto.
      * left. exists (String ch2 a), b, c. repeat split; auto.
Qed.

(** [formatWithLineBreaks] leaves no line feed in its result, lengthens
    the text by three characters for each line feed it held, and returns
    a text without line feeds as it is. *)
Theorem formatWithLineBreaks_removes_line_feeds (text : string) :
  let result := formatWithLineBreaks text in
  has_char (ascii_of_N 10) result = false
  /\ String.length result = (String.length text + 3 * line_feeds text)%nat
  /\ (has_char (ascii_of_N 10) text = false -> result = text).
Proof.
  cbv zeta.
  assert (G : has_char (ascii_of_N 10) (replace_line_feeds text) = false
    /\ String.length (replace_line_feeds text)
       = (String.length text + 3 * line_feeds text)%nat
    /\ (has_char (ascii_of_N 10) text = false -> replace_line_feeds text = text)).
  { induction text as [|c s (IH1 & IH2 & IH3)]; [repeat split|].
    cbn [replace_line_feeds line_feeds has_char String.length].
    destruct (Ascii.eqb c (ascii_of_N 10)) eqn:E.
    - change ("<br>" ++ replace_line_feeds s)%string
        with (String "<" (String "b" (String "r" (String ">" (replace_line_feeds s))))).
      cbn [has_char String.length]. rewrite IH1, IH2.
      split; [reflexivity|]. split; [lia|discriminate].
    - cbn [has_char String.length]. rewrite E, IH1, IH2.
      split; [reflexivity|]. split; [lia|].
      cbn [orb]. intros H. rewrite (IH3 H). reflexivity. }
  unfold formatWithLineBreaks. destruct text as [|c s]; [repeat split|exact G].
Qed.

End UtilsFacts.
